(** * The OTE training-test harness (tests/test_ote_training.py)

    A shallow embedding of the test-stage engine: the dot-separated address
    resolver, the metric [Validator], the test actions, [OTETestStage] with
    its run-once discipline, [OTEIntegrationTestCase] and the cache of
    [TestOTEIntegration].

    Conventions of the embedding.
    - Python values are the inductive [PyVal]; a [dict] (also an
      [OrderedDict]) is an association list in insertion order with unique
      keys, kept unique by [dict_set].
    - A Python [float] is an IEEE 754 binary64 number, as a primitive float
      of Rocq is: the arithmetic rounds, and there are infinities and NaN.
    - A computation that may raise returns [Res A]: [Ret a] or [Raise e].
    - An exception carries its class, its message (an f-string is kept as the
      list of its literal and interpolated parts) and its [__cause__].
    - Code outside of the file (the OTE tasks, the parsing that [float] does
      on a [str]) is a [Variable] of the section that uses it. *)

From Stdlib Require Import List String Ascii Bool Arith ZArith Floats Lia.
Import ListNotations.
Open Scope string_scope.
Set Warnings "-register-all".
Set Warnings "-inexact-float".

(** ** Python values *)

Inductive PyVal : Type :=
| VNone
| VInt (z : Z)
| VFloat (f : float)
| VStr (s : string)
| VDict (items : list (string * PyVal))
| VObj (handle : nat).

Definition Dict : Type := list (string * PyVal).

Section Mappings.
Context {V : Type}.

(** [k in d] *)
Fixpoint dict_mem (k : string) (d : list (string * V)) : bool :=
  match d with
  | [] => false
  | (k', _) :: d' => if String.eqb k k' then true else dict_mem k d'
  end.

(** [d[k]] when the key is there *)
Fixpoint dict_lookup (k : string) (d : list (string * V)) : option V :=
  match d with
  | [] => None
  | (k', v) :: d' => if String.eqb k k' then Some v else dict_lookup k d'
  end.

(** [d[k] = v]: an existing key keeps its place, a new one goes last *)
Fixpoint dict_set (k : string) (v : V) (d : list (string * V))
  : list (string * V) :=
  match d with
  | [] => [(k, v)]
  | (k', v') :: d' =>
      if String.eqb k k' then (k', v) :: d' else (k', v') :: dict_set k v d'
  end.

(** [del d[k]] for a key that is there *)
Fixpoint dict_del (k : string) (d : list (string * V)) : list (string * V) :=
  match d with
  | [] => []
  | (k', v') :: d' =>
      if String.eqb k k' then d' else (k', v') :: dict_del k d'
  end.
End Mappings.

(** [d.get(k)] *)
Definition dict_get (k : string) (d : Dict) : PyVal :=
  match dict_lookup k d with
  | Some v => v
  | None => VNone
  end.

Definition dict_keys {V : Type} (d : list (string * V)) : list string :=
  map fst d.

Definition is_none (v : PyVal) : bool :=
  match v with
  | VNone => true
  | _ => false
  end.

(** ** Exceptions and results *)

(** The parts of an f-string: literal text, [{x}] and [{pformat(x)}]. *)
Inductive Frag : Type :=
| Lit (s : string)
| Interp (v : PyVal)
| Pformat (v : PyVal).

Definition Msg : Type := list Frag.

(** [Failed] and [Skipped] are what [pytest.fail] and [pytest.skip] raise;
    like [KeyboardInterrupt] they derive from [BaseException] only. *)
Inductive ExcClass : Type :=
| ValueError
| TypeError
| KeyError
| RuntimeError
| AssertionError
| AttributeError
| OverflowError
| OtherException
| Failed
| Skipped
| KeyboardInterrupt.

Inductive PyExc : Type :=
| Exc (cls : ExcClass) (msg : Msg) (cause : option PyExc).

Definition exc_class (e : PyExc) : ExcClass :=
  match e with
  | Exc c _ _ => c
  end.

Definition exc_msg (e : PyExc) : Msg :=
  match e with
  | Exc _ m _ => m
  end.

(** [isinstance(e, Exception)]: what an [except Exception] clause catches *)
Definition is_Exception (e : PyExc) : bool :=
  match exc_class e with
  | Failed | Skipped | KeyboardInterrupt => false
  | _ => true
  end.

(** [isinstance(e, (ValueError, TypeError))] *)
Definition is_ValueError_or_TypeError (e : PyExc) : bool :=
  match exc_class e with
  | ValueError | TypeError => true
  | _ => false
  end.

Inductive Res (A : Type) : Type :=
| Ret (a : A)
| Raise (e : PyExc).

Arguments Ret {A} a.
Arguments Raise {A} e.

Definition bind {A B : Type} (m : Res A) (f : A -> Res B) : Res B :=
  match m with
  | Ret a => f a
  | Raise e => Raise e
  end.

Notation "x <- m ;; k" := (bind m (fun x => k))
  (at level 61, m at next level, right associativity).

Definition raised {A : Type} (m : Res A) : option PyExc :=
  match m with
  | Ret _ => None
  | Raise e => Some e
  end.

Definition dquote : string := String (ascii_of_nat 34) EmptyString.
Definition newline : string := String (ascii_of_nat 10) EmptyString.
Definition quoted (s : string) : string := dquote ++ s ++ dquote.

(** ** str.split *)

(** [s.split(sep)] for a one-character separator: never the empty list, and
    the empty string gives one empty component. *)
Fixpoint split (sep : ascii) (s : string) : list string :=
  match s with
  | EmptyString => [EmptyString]
  | String c rest =>
      if Ascii.eqb c sep then EmptyString :: split sep rest
      else match split sep rest with
           | [] => [String c EmptyString]
           | w :: ws => String c w :: ws
           end
  end.

Definition dot : ascii := ascii_of_nat 46.

(** ** get_value_from_dict_by_dot_separated_address *)

Section Resolver.
Variables (struct : PyVal) (address : string).

Fixpoint _get (cur_struct : PyVal) (addr : list string) : Res PyVal :=
  match addr with
  | [] => Ret cur_struct
  | key :: addr' =>
      match cur_struct with
      | VDict items =>
          match dict_lookup key items with
          | None =>
              Raise (Exc ValueError
                       [Lit "Cannot find address "; Interp (VStr address);
                        Lit " in struct "; Interp struct; Lit ": ";
                        Interp (VStr key); Lit " is absent in ";
                        Interp cur_struct] None)
          | Some v => _get v addr'
          end
      | _ => Raise (Exc AssertionError [] None)
      end
  end.
End Resolver.

Definition get_value_from_dict_by_dot_separated_address
    (struct address : PyVal) : Res PyVal :=
  match address with
  | VStr a => _get struct a struct (split dot a)
  | _ =>
      Raise (Exc AssertionError
               [Lit "The parameter address should be string, address=";
                Interp address] None)
  end.

(** The error of the resolver for an address that does not lead anywhere. *)
Definition is_address_error (e : PyExc) : bool :=
  match e with
  | Exc ValueError (Lit s :: _) _ => String.eqb s "Cannot find address "
  | _ => false
  end.

(** ** Validator *)

(** The float nearest to an integer, ties to even; an infinity when the
    integer is beyond the range. *)
Definition float_of_Z (z : Z) : float :=
  SF2Prim (binary_normalize prec emax z 0 false).

Section Validation.
(** [float(s)] for a [str]: the number Python parses from it, if any. *)
Variable float_of_str : string -> option float.

(** [float(v)]: an [int] is rounded to the nearest float, ties to even,
    and is refused when it is beyond the range of the floats. *)
Definition py_float (v : PyVal) : Res float :=
  match v with
  | VFloat f => Ret f
  | VInt z =>
      if PrimFloat.is_infinity (float_of_Z z) then
        Raise (Exc OverflowError [Lit "int too large to convert to float"]
                 None)
      else Ret (float_of_Z z)
  | VStr s =>
      match float_of_str s with
      | Some f => Ret f
      | None =>
          Raise (Exc ValueError
                   [Lit "could not convert string to float: "; Interp v] None)
      end
  | _ =>
      Raise (Exc TypeError
               [Lit "float() argument must be a string or a real number"] None)
  end.

Definition less_key : string := "max_diff_if_less_threshold".
Definition greater_key : string := "max_diff_if_greater_threshold".

Definition wrong_requirements (what : string) (req : PyVal) : PyExc :=
  Exc ValueError
    [Lit ("Wrong cur_metric_requirements: " ++ what);
     Lit "cur_metric_requirements="; Pformat req] None.

Definition either_target : string :=
  "either " ++ quoted "target_value" ++ " or " ++ quoted "base"
  ++ "  should be pointed in the structure, ".

Definition either_diff : string :=
  "either " ++ quoted "max_diff" ++ " or one/two of " ++ quoted less_key
  ++ " and " ++ quoted greater_key ++ " should be pointed in the structure, ".

(** The error for a requirement of a wrong shape: each of the five
    [ValueError]s whose message starts "Wrong cur_metric_requirements". *)
Definition is_config_error (e : PyExc) : bool :=
  match e with
  | Exc ValueError (Lit s :: _) _ =>
      String.prefix "Wrong cur_metric_requirements" s
  | _ => false
  end.

Definition wrong_diff (name : string) (d : float) : PyExc :=
  Exc ValueError
    [Lit ("Wrong " ++ name ++ " "); Interp (VFloat d);
     Lit " -- it should be a non-negative number"] None.

(** Lines 929-936: the target is the literal or the value at the base
    address in the storage of the previous stages' results. *)
Definition target_value_of (req : Dict) (test_results_storage : PyVal)
  : Res float :=
  if dict_mem "target_value" req then
    py_float (dict_get "target_value" req)
  else if dict_mem "base" req then
    v <- get_value_from_dict_by_dot_separated_address
           test_results_storage (dict_get "base" req) ;;
    py_float v
  else
    Raise (Exc RuntimeError
             [Lit "ERROR: Wrong parsing of metric requirements ";
              Interp (VDict req)] None).

(** Lines 952-970: one side of the asymmetric range. *)
Definition one_side (name : string) (threshold : PyVal)
    (bound : float -> float) : Res (option float) :=
  if is_none threshold then Ret None
  else
    d <- py_float threshold ;;
    if negb (0 <=? d)%float then Raise (wrong_diff name d)
    else Ret (Some (bound d)).

Definition _get_min_max_value_from_expected_metrics
    (cur_metric_requirements test_results_storage : PyVal)
  : Res (float * option float * option float) :=
  match cur_metric_requirements with
  | VDict req =>
      let has k := dict_mem k req in
      if negb (has "target_value") && negb (has "base") then
        Raise (wrong_requirements (either_target ++ "whereas ")
                 cur_metric_requirements)
      else if has "target_value" && has "base" then
        Raise (wrong_requirements (either_target ++ "but not both, whereas ")
                 cur_metric_requirements)
      else if negb (has "max_diff") && negb (has less_key)
              && negb (has greater_key) then
        Raise (wrong_requirements (either_diff ++ "whereas ")
                 cur_metric_requirements)
      else if has "max_diff" && (has less_key || has greater_key) then
        Raise (wrong_requirements (either_diff ++ "but not both, whereas ")
                 cur_metric_requirements)
      else
        target_value <- target_value_of req test_results_storage ;;
        if has "max_diff" then
          max_diff <- py_float (dict_get "max_diff" req) ;;
          if negb (0 <=? max_diff)%float then
            Raise (wrong_diff "max_diff" max_diff)
          else
            Ret (target_value,
                 Some (target_value - max_diff)%float,
                 Some (target_value + max_diff)%float)
        else
          let max_diff_if_less_threshold := dict_get less_key req in
          let max_diff_if_greater_threshold := dict_get greater_key req in
          if is_none max_diff_if_less_threshold
             && is_none max_diff_if_greater_threshold then
            Raise (wrong_requirements
                     ("all of max_diff, max_diff_if_less_threshold, and "
                      ++ "max_diff_if_greater_threshold are None, ")
                     cur_metric_requirements)
          else
            max_value <- one_side greater_key max_diff_if_greater_threshold
                           (fun d => target_value + d)%float ;;
            min_value <- one_side less_key max_diff_if_less_threshold
                           (fun d => target_value - d)%float ;;
            Ret (target_value, min_value, max_value)
  | _ =>
      Raise (Exc AttributeError [Lit "object has no attribute 'keys'"] None)
  end.

Definition opt_float (o : option float) : PyVal :=
  match o with
  | Some q => VFloat q
  | None => VNone
  end.

(** The reason of a failed two-sided comparison. *)
Definition out_of_range (current_metric : float) (cur_res_addr : string)
    (target_value min_value max_value : float) : Msg :=
  [Lit "Validation: failed: The metric "; Interp (VStr cur_res_addr);
   Lit " is NOT in the acceptable range near the target value ";
   Interp (VFloat target_value); Lit ": "; Interp (VFloat current_metric);
   Lit " is NOT in ["; Interp (VFloat min_value); Lit ", ";
   Interp (VFloat max_value); Lit "]"].

(** The reason of a failed one-sided comparison. *)
Definition beyond_threshold (current_metric : float) (cur_res_addr : string)
    (target_value threshold : float) (cmp_str_true cmp_op_str_false : string)
  : Msg :=
  [Lit "Validation: failed: The metric "; Interp (VStr cur_res_addr);
   Lit (" is NOT " ++ cmp_str_true ++ " the target value ");
   Interp (VFloat target_value); Lit " with acceptable error ";
   Interp (VFloat (PrimFloat.abs (threshold - target_value)%float));
   Lit ": "; Interp (VFloat current_metric);
   Lit (" " ++ cmp_op_str_false ++ " "); Interp (VFloat threshold)].

Definition _compare (current_metric : float) (cur_res_addr : string)
    (target_value : float) (min_value max_value : option float)
  : Res (bool * option Msg) :=
  match min_value, max_value with
  | Some mn, Some mx =>
      if negb ((mn <=? target_value) && (target_value <=? mx))%float then
        Raise (Exc AssertionError [] None)
      else if ((mn <=? current_metric) && (current_metric <=? mx))%float then
        Ret (true, None)
      else
        Ret (false,
             Some (out_of_range current_metric cur_res_addr
                     target_value mn mx))
  | Some mn, None =>
      if (mn <=? current_metric)%float then Ret (true, None)
      else
        Ret (false,
             Some (beyond_threshold current_metric cur_res_addr
                     target_value mn "greater or equal" "<"))
  | None, Some mx =>
      if (current_metric <=? mx)%float then Ret (true, None)
      else
        Ret (false,
             Some (beyond_threshold current_metric cur_res_addr
                     target_value mx "less or equal" ">"))
  | None, None => Raise (Exc AssertionError [] None)
  end.

(** [try: ... except (ValueError, TypeError) as e: raise ValueError(msg) from e] *)
Definition reraise_as_ValueError {A : Type} (msg : Msg) (m : Res A) : Res A :=
  match m with
  | Ret a => Ret a
  | Raise e =>
      if is_ValueError_or_TypeError e then
        Raise (Exc ValueError msg (Some e))
      else Raise e
  end.

(** The body of the loop of [validate] for one expected metric, up to the
    result of [_compare]. *)
Definition check_metric (current_result test_results_storage : PyVal)
    (cur_res_addr : string) (cur_metric_requirements : PyVal)
  : Res (bool * option Msg) :=
  current_metric <-
    reraise_as_ValueError
      [Lit "Cannot get metric "; Interp (VStr cur_res_addr);
       Lit " from the current result "; Interp current_result]
      (v <- get_value_from_dict_by_dot_separated_address
              current_result (VStr cur_res_addr) ;;
       py_float v) ;;
  bounds <-
    reraise_as_ValueError
      [Lit "Error when parsing expected metrics for the metric ";
       Interp (VStr cur_res_addr)]
      (_get_min_max_value_from_expected_metrics
         cur_metric_requirements test_results_storage) ;;
  let '(target_value, min_value, max_value) := bounds in
  _compare current_metric cur_res_addr target_value min_value max_value.

(** [fail_reasons.append(cur_fail_reason)] *)
Definition append_reason (fail_reasons : list (option Msg))
    (cur_fail_reason : option Msg) : list (option Msg) :=
  (fail_reasons ++ [cur_fail_reason])%list.

(** The [for k, v in cur_test_expected_metrics.items()] loop, with its
    two accumulators. *)
Fixpoint validate_loop (current_result test_results_storage : PyVal)
    (items : Dict) (is_passed : bool) (fail_reasons : list (option Msg))
  : Res (bool * list (option Msg)) :=
  match items with
  | [] => Ret (is_passed, fail_reasons)
  | (k, v) :: items' =>
      r <- check_metric current_result test_results_storage k v ;;
      let '(cur_is_passed, cur_fail_reason) := r in
      if negb cur_is_passed then
        validate_loop current_result test_results_storage items'
          false (append_reason fail_reasons cur_fail_reason)
      else
        validate_loop current_result test_results_storage items'
          is_passed fail_reasons
  end.

(** [str(reason)] inside a join: a reason is a message, [None] prints as
    the text None. *)
Definition reason_text (r : option Msg) : Msg :=
  match r with
  | Some m => m
  | None => [Interp VNone]
  end.

(** [sep.join(parts)] *)
Fixpoint join (sep : string) (parts : list Msg) : Msg :=
  match parts with
  | [] => []
  | [p] => p
  | p :: rest => (p ++ Lit sep :: join sep rest)%list
  end.

Definition validation_failed (fail_reasons : list (option Msg)) : PyExc :=
  Exc Failed
    (Lit ("Validation failed:" ++ newline)
     :: join newline (map reason_text fail_reasons)) None.

Record Validator : Type := {
  (** [None], or what calling the callback gives *)
  cur_test_expected_metrics_callback : option (Res PyVal)
}.

Definition validate (self : Validator)
    (current_result test_results_storage : PyVal) : Res unit :=
  match cur_test_expected_metrics_callback self with
  | None => Ret tt
  | Some callback =>
      cur_test_expected_metrics <- callback ;;
      match cur_test_expected_metrics with
      | VDict items =>
          r <- validate_loop current_result test_results_storage
                 items true [] ;;
          let '(is_passed, fail_reasons) := r in
          if negb is_passed then Raise (validation_failed fail_reasons)
          else Ret tt
      | _ =>
          Raise (Exc AssertionError
                   [Lit "Wrong current test expected metric: ";
                    Interp cur_test_expected_metrics] None)
      end
  end.
End Validation.

(** ** Test actions *)

(** [v[k]] *)
Definition subscript (v : PyVal) (k : string) : Res PyVal :=
  match v with
  | VDict d =>
      match dict_lookup k d with
      | Some x => Ret x
      | None => Raise (Exc KeyError [Interp (VStr k)] None)
      end
  | _ => Raise (Exc TypeError [Lit "object is not subscriptable"] None)
  end.

(** An [Optional[OrderedDict]] as a value *)
Definition optional_dict (d : option Dict) : PyVal :=
  match d with
  | Some items => VDict items
  | None => VNone
  end.

(** [not d] for an [Optional[OrderedDict]]: [None] and the empty mapping *)
Definition falsy (d : option Dict) : bool :=
  match d with
  | None | Some [] => true
  | Some (_ :: _) => false
  end.

Definition absent_in (stage_name : string) (d : option Dict) : bool :=
  match d with
  | None => true
  | Some items => negb (dict_mem stage_name items)
  end.

Inductive ActionClass : Type :=
| OTETestTrainingAction
| OTETestTrainingEvaluationAction
| OTETestExportAction
| OTETestExportEvaluationAction
| OTETestPotAction
| OTETestPotEvaluationAction
| OTETestNNCFAction
| OTETestNNCFEvaluationAction
| OTETestNNCFExportAction
| OTETestNNCFExportEvaluationAction.

(** The class attribute [_name] *)
Definition _name (a : ActionClass) : string :=
  match a with
  | OTETestTrainingAction => "training"
  | OTETestTrainingEvaluationAction => "training_evaluation"
  | OTETestExportAction => "export"
  | OTETestExportEvaluationAction => "export_evaluation"
  | OTETestPotAction => "pot"
  | OTETestPotEvaluationAction => "pot_evaluation"
  | OTETestNNCFAction => "nncf"
  | OTETestNNCFEvaluationAction => "nncf_evaluation"
  | OTETestNNCFExportAction => "nncf_export"
  | OTETestNNCFExportEvaluationAction => "nncf_export_evaluation"
  end.

(** The class attribute [_with_validation] *)
Definition _with_validation (a : ActionClass) : bool :=
  match a with
  | OTETestTrainingEvaluationAction
  | OTETestExportEvaluationAction
  | OTETestPotEvaluationAction
  | OTETestNNCFEvaluationAction
  | OTETestNNCFExportEvaluationAction => true
  | _ => false
  end.

(** The list that [__call__] hands to [_check_result_prev_stages]; the
    training action makes no check. *)
Definition checked_stages (a : ActionClass) : list string :=
  match a with
  | OTETestTrainingAction => []
  | OTETestTrainingEvaluationAction => ["training"]
  | OTETestExportAction => ["training"]
  | OTETestExportEvaluationAction => ["training"; "export"]
  | OTETestPotAction => ["export"]
  | OTETestPotEvaluationAction => ["training"; "pot"]
  | OTETestNNCFAction => ["training"]
  | OTETestNNCFEvaluationAction => ["training"; "nncf"]
  | OTETestNNCFExportAction => ["training"; "nncf"]
  | OTETestNNCFExportEvaluationAction => ["training"; "nncf_export"]
  end.

(** The [kwargs] of [__call__], in the order the dict display evaluates
    them: keyword, then the stage and the key read from its results. *)
Definition kwargs_of (a : ActionClass) : list (string * (string * string)) :=
  match a with
  | OTETestTrainingAction => []
  | OTETestTrainingEvaluationAction =>
      [("dataset", ("training", "dataset"));
       ("task", ("training", "task"));
       ("trained_model", ("training", "output_model"))]
  | OTETestExportAction =>
      [("environment", ("training", "environment"));
       ("dataset", ("training", "dataset"));
       ("task", ("training", "task"))]
  | OTETestExportEvaluationAction =>
      [("model_template", ("training", "model_template"));
       ("dataset", ("training", "dataset"));
       ("environment_for_export", ("export", "environment"));
       ("exported_model", ("export", "exported_model"))]
  | OTETestPotAction =>
      [("model_template", ("training", "model_template"));
       ("dataset", ("training", "dataset"));
       ("environment_for_export", ("export", "environment"))]
  | OTETestPotEvaluationAction =>
      [("dataset", ("training", "dataset"));
       ("openvino_task_pot", ("pot", "openvino_task_pot"));
       ("optimized_model_pot", ("pot", "optimized_model_pot"))]
  | OTETestNNCFAction =>
      [("model_template", ("training", "model_template"));
       ("dataset", ("training", "dataset"));
       ("trained_model", ("training", "output_model"));
       ("environment", ("training", "environment"))]
  | OTETestNNCFEvaluationAction =>
      [("dataset", ("training", "dataset"));
       ("nncf_task", ("nncf", "nncf_task"));
       ("nncf_model", ("nncf", "nncf_model"))]
  | OTETestNNCFExportAction =>
      [("nncf_environment", ("nncf", "nncf_environment"));
       ("dataset", ("training", "dataset"));
       ("nncf_task", ("nncf", "nncf_task"))]
  | OTETestNNCFExportEvaluationAction =>
      [("model_template", ("training", "model_template"));
       ("dataset", ("training", "dataset"));
       ("nncf_environment_for_export", ("nncf_export", "environment"));
       ("nncf_exported_model", ("nncf_export", "exported_model"))]
  end.

(** The prior stages whose results [__call__] reads. *)
Definition needed_stages (a : ActionClass) : list string :=
  map (fun kw => fst (snd kw)) (kwargs_of a).

(** The [results] of an action that is not an evaluation: key, then the
    attribute of [self] stored under it. *)
Definition results_of (a : ActionClass) : list (string * string) :=
  match a with
  | OTETestTrainingAction =>
      [("model_template", "model_template"); ("task", "task");
       ("dataset", "dataset"); ("environment", "environment");
       ("output_model", "output_model")]
  | OTETestExportAction =>
      [("environment", "environment_for_export");
       ("exported_model", "exported_model")]
  | OTETestPotAction =>
      [("openvino_task_pot", "openvino_task_pot");
       ("optimized_model_pot", "optimized_model_pot")]
  | OTETestNNCFAction =>
      [("nncf_task", "nncf_task"); ("nncf_model", "nncf_model");
       ("nncf_environment", "environment_for_nncf")]
  | OTETestNNCFExportAction =>
      [("environment", "environment_nncf_export");
       ("exported_model", "nncf_exported_model")]
  | _ => []
  end.

Definition missing_results (name stage_name : string) : PyExc :=
  Exc RuntimeError
    [Lit "The action "; Interp (VStr name);
     Lit " requires results of the stage "; Interp (VStr stage_name);
     Lit ", but they are absent"] None.

(** The error of an action that lacks the results of a prior stage. *)
Definition is_missing_results (e : PyExc) : bool :=
  match e with
  | Exc RuntimeError (Lit s :: _) _ => String.eqb s "The action "
  | _ => false
  end.

Fixpoint _check_result_prev_stages (name : string)
    (results_prev_stages : option Dict) (list_required_stages : list string)
  : Res unit :=
  match list_required_stages with
  | [] => Ret tt
  | stage_name :: rest =>
      if falsy results_prev_stages
         || absent_in stage_name results_prev_stages then
        Raise (missing_results name stage_name)
      else _check_result_prev_stages name results_prev_stages rest
  end.

(** The dict display [{kw: results_prev_stages[stage][key], ...}] *)
Fixpoint build_kwargs (results_prev_stages : option Dict)
    (spec : list (string * (string * string))) : Res Dict :=
  match spec with
  | [] => Ret []
  | (kw, (stage, key)) :: spec' =>
      r <- subscript (optional_dict results_prev_stages) stage ;;
      v <- subscript r key ;;
      rest <- build_kwargs results_prev_stages spec' ;;
      Ret ((kw, v) :: rest)
  end.

Section Actions.
(** The state of all that lies outside of the harness: the tasks, the
    models, the file system, the data collector. *)
Variable E : Type.

(** The [_run_ote_*] method of an action that is not an evaluation, called
    on a [self] with the attributes [__init__] gave it and with [kwargs]:
    it raises or leaves its outputs in attributes of [self]. *)
Variable run_ote :
  ActionClass -> Dict -> Dict -> E -> E * Res (string -> PyVal).

(** The [_run_ote_*evaluation] method of an evaluation action: it raises or
    returns [(score_name, score_value)]. *)
Variable run_ote_evaluation :
  ActionClass -> Dict -> Dict -> E -> E * Res (string * PyVal).

(** An action as a stage sees it: [name], [with_validation] and
    [__call__(data_collector, results_prev_stages)]. *)
Record BaseOTETestAction : Type := {
  name : string;
  with_validation : bool;
  call : option Dict -> E -> E * Res PyVal
}.

(** [__call__] of the ten action classes *)
Definition action_call (a : ActionClass) (init : Dict)
    (results_prev_stages : option Dict) (x : E) : E * Res PyVal :=
  match _check_result_prev_stages (_name a) results_prev_stages
          (checked_stages a) with
  | Raise e => (x, Raise e)
  | Ret _ =>
      match build_kwargs results_prev_stages (kwargs_of a) with
      | Raise e => (x, Raise e)
      | Ret kwargs =>
          (* the evaluation classes are those with [_with_validation] *)
          if _with_validation a then
            let '(x', r) := run_ote_evaluation a init kwargs x in
            (x',
             score <- r ;;
             Ret (VDict [("metrics",
                          VDict [("accuracy",
                                  VDict [(fst score, snd score)])])]))
          else
            let '(x', r) := run_ote a init kwargs x in
            (x',
             self <- r ;;
             Ret (VDict (map (fun ka => (fst ka, self (snd ka)))
                           (results_of a))))
      end
  end.

(** An object of the class [a], made with the arguments [init]. *)
Definition action (a : ActionClass) (init : Dict) : BaseOTETestAction :=
  {| name := _name a;
     with_validation := _with_validation a;
     call := action_call a init |}.
End Actions.

Arguments name {E} _.
Arguments with_validation {E} _.
Arguments call {E} _ _ _.
Arguments action_call {E} _ _ _ _ _ _.
Arguments action {E} _ _ _ _.

(** ** OTETestStage *)

(** The mutable attributes of a stage object. *)
Record StageState : Type := {
  was_processed : bool;
  stored_exception : option PyExc;
  stage_results : PyVal
}.

(** The attributes as [__init__] sets them. *)
Definition new_stage : StageState :=
  {| was_processed := false; stored_exception := None; stage_results := VNone |}.

(** What the harness does, in the order it does it: a stage object calls its
    action, a stage object calls [validator.validate]. *)
Inductive Event : Type :=
| ActionCalled (ref : nat)
| ValidateCalled (ref : nat).

Definition is_call_of (ref : nat) (ev : Event) : bool :=
  match ev with
  | ActionCalled r => Nat.eqb r ref
  | ValidateCalled _ => false
  end.

Definition is_validation (ev : Event) : bool :=
  match ev with
  | ActionCalled _ => false
  | ValidateCalled _ => true
  end.

(** How many times the action of the stage object [ref] was called. *)
Definition calls_of (ref : nat) (log : list Event) : nat :=
  List.length (filter (is_call_of ref) log).

Definition update {A : Type} (ref : nat) (a : A) (heap : nat -> A) : nat -> A :=
  fun r => if Nat.eqb r ref then a else heap r.

Section Stages.
Variable float_of_str : string -> option float.
Variable E : Type.

(** A stage object: its identity, and the attributes that are set once in
    [__init__]. The objects of [depends_stages] are shared: the same
    object is the same [ref] wherever it occurs. *)
Inductive OTETestStage : Type :=
| Stage (ref : nat) (action : BaseOTETestAction E)
    (depends_stages : list OTETestStage).

Definition stage_ref (s : OTETestStage) : nat :=
  match s with
  | Stage r _ _ => r
  end.

Definition stage_action (s : OTETestStage) : BaseOTETestAction E :=
  match s with
  | Stage _ a _ => a
  end.

Definition stage_depends (s : OTETestStage) : list OTETestStage :=
  match s with
  | Stage _ _ d => d
  end.

Definition stage_name (s : OTETestStage) : string := name (stage_action s).

(** The mutable state a call of [run_once] works on: the attributes of the
    stage objects, the [OrderedDict] of the results, the outside, and the
    events so far (oldest first). *)
Record World : Type := {
  stage_state : nat -> StageState;
  test_results_storage : Dict;
  ext : E;
  log : list Event
}.

Definition log_event (ev : Event) (w : World) : World :=
  {| stage_state := stage_state w;
     test_results_storage := test_results_storage w;
     ext := ext w;
     log := (log w ++ [ev])%list |}.

(** [for a in l: body(a)], left by the first exception *)
Definition for_each {A : Type} (body : A -> World -> World * Res unit)
  : list A -> World -> World * Res unit :=
  fix loop (l : list A) (w : World) : World * Res unit :=
    match l with
    | [] => (w, Ret tt)
    | a :: l' =>
        match body a w with
        | (w', Ret _) => loop l' w'
        | (w', Raise e) => (w', Raise e)
        end
    end.

Definition _run_validation (ref : nat) (action : BaseOTETestAction E)
    (validator : option Validator) (w : World) : World * Res unit :=
  if negb (with_validation action) then (w, Ret tt)
  else
    match validator with
    | None => (w, Ret tt)
    | Some v =>
        (log_event (ValidateCalled ref) w,
         validate float_of_str v
           (stage_results (stage_state w ref))
           (VDict (test_results_storage w)))
    end.

Definition duplicate_stage (name : string) : PyExc :=
  Exc RuntimeError
    [Lit ("Error: For test stage " ++ dquote); Interp (VStr name);
     Lit (dquote ++ ": another OTETestStage with name ");
     Interp (VStr name); Lit " has been run already"] None.

(** [run_once] after the loop over [depends_stages] (lines 1148-1185) *)
Definition run_own (ref : nat) (action : BaseOTETestAction E)
    (validator : option Validator) (w : World) : World * Res unit :=
  let self := stage_state w ref in
  if was_processed self then
    match stored_exception self with
    | Some e => (w, Raise e)
    | None => _run_validation ref action validator w
    end
  else if dict_mem (name action) (test_results_storage w) then
    (w, Raise (duplicate_stage (name action)))
  else
    let w := log_event (ActionCalled ref) w in
    match call action (Some (test_results_storage w)) (ext w) with
    | (x, Ret results) =>
        _run_validation ref action validator
          {| stage_state :=
               update ref
                 {| was_processed := true;
                    stored_exception := stored_exception self;
                    stage_results := results |}
                 (stage_state w);
             test_results_storage :=
               dict_set (name action) results (test_results_storage w);
             ext := x;
             log := log w |}
    | (x, Raise e) =>
        if is_Exception e then
          ({| stage_state :=
                update ref
                  {| was_processed := true;
                     stored_exception := Some e;
                     stage_results := stage_results self |}
                  (stage_state w);
              test_results_storage := test_results_storage w;
              ext := x;
              log := log w |},
           Raise e)
        else
          ({| stage_state := stage_state w;
              test_results_storage := test_results_storage w;
              ext := x;
              log := log w |},
           Raise e)
    end.

Fixpoint run_once (self : OTETestStage) (validator : option Validator)
    (w : World) {struct self} : World * Res unit :=
  match self with
  | Stage ref action depends_stages =>
      match for_each (fun dep_stage => run_once dep_stage None)
              depends_stages w with
      | (w', Raise e) => (w', Raise e)
      | (w', Ret _) => run_own ref action validator w'
      end
  end.

(** A world in which no stage has run. *)
Definition fresh_world (x : E) : World :=
  {| stage_state := fun _ => new_stage;
     test_results_storage := [];
     ext := x;
     log := [] |}.

Definition succeeded (w : World) (ref : nat) : Prop :=
  was_processed (stage_state w ref) = true
  /\ stored_exception (stage_state w ref) = None.

Definition failed_with (w : World) (ref : nat) (e : PyExc) : Prop :=
  was_processed (stage_state w ref) = true
  /\ stored_exception (stage_state w ref) = Some e.
End Stages.

Arguments Stage {E} _ _ _.
Arguments stage_ref {E} _.
Arguments stage_action {E} _.
Arguments stage_depends {E} _.
Arguments stage_name {E} _.
Arguments stage_state {E} _ _.
Arguments test_results_storage {E} _.
Arguments ext {E} _.
Arguments log {E} _.
Arguments log_event {E} _ _.
Arguments for_each {E A} _ _ _.
Arguments _run_validation _ {E} _ _ _ _.
Arguments run_own _ {E} _ _ _ _.
Arguments run_once _ {E} _ _ _.
Arguments fresh_world {E} _.
Arguments succeeded {E} _ _.
Arguments failed_with {E} _ _ _.

(** ** OTEIntegrationTestCase *)

Definition _TEST_STAGES : list string :=
  ["training"; "training_evaluation"; "export"; "export_evaluation";
   "pot"; "pot_evaluation"; "nncf"; "nncf_evaluation";
   "nncf_export"; "nncf_export_evaluation"].

(** The attributes of a test case object; the stage objects it makes have
    the refs 0 to 9, in the order [__init__] makes them. *)
Record OTEIntegrationTestCase : Type := {
  dataset_params : PyVal;
  template_file_path : PyVal;
  num_training_iters : PyVal;
  batch_size : PyVal;
  stages_state : nat -> StageState;
  results_storage : Dict
}.

Section TestCase.
Variable float_of_str : string -> option float.
Variable E : Type.
Variable run_ote :
  ActionClass -> Dict -> Dict -> E -> E * Res (string -> PyVal).
Variable run_ote_evaluation :
  ActionClass -> Dict -> Dict -> E -> E * Res (string * PyVal).

Section Graph.
Variables dataset_params' template_file_path' : PyVal.
Variables num_training_iters' batch_size' : PyVal.

Definition new_action (a : ActionClass) (init : Dict)
  : BaseOTETestAction E :=
  action run_ote run_ote_evaluation a init.

Definition training_stage : OTETestStage E :=
  Stage 0
    (new_action OTETestTrainingAction
       [("dataset_params", dataset_params');
        ("template_file_path", template_file_path');
        ("num_training_iters", num_training_iters');
        ("batch_size", batch_size')])
    [].

Definition training_evaluation_stage : OTETestStage E :=
  Stage 1 (new_action OTETestTrainingEvaluationAction [])
    [training_stage].

Definition export_stage : OTETestStage E :=
  Stage 2 (new_action OTETestExportAction []) [training_stage].

Definition export_evaluation_stage : OTETestStage E :=
  Stage 3 (new_action OTETestExportEvaluationAction []) [export_stage].

Definition pot_stage : OTETestStage E :=
  Stage 4 (new_action OTETestPotAction []) [export_stage].

Definition pot_evaluation_stage : OTETestStage E :=
  Stage 5 (new_action OTETestPotEvaluationAction [])
    [pot_stage; training_evaluation_stage].

Definition nncf_stage : OTETestStage E :=
  Stage 6 (new_action OTETestNNCFAction []) [training_stage].

Definition nncf_evaluation_stage : OTETestStage E :=
  Stage 7 (new_action OTETestNNCFEvaluationAction [])
    [nncf_stage; training_evaluation_stage].

Definition nncf_export_stage : OTETestStage E :=
  Stage 8 (new_action OTETestNNCFExportAction []) [nncf_stage].

Definition nncf_export_evaluation_stage : OTETestStage E :=
  Stage 9 (new_action OTETestNNCFExportEvaluationAction [])
    [nncf_export_stage; nncf_evaluation_stage].

Definition list_all_stages : list (OTETestStage E) :=
  [training_stage; training_evaluation_stage;
   export_stage; export_evaluation_stage;
   pot_stage; pot_evaluation_stage;
   nncf_stage; nncf_evaluation_stage;
   nncf_export_stage; nncf_export_evaluation_stage].

(** [self._stages] *)
Definition _stages : list (string * OTETestStage E) :=
  map (fun stage => (stage_name stage, stage)) list_all_stages.
End Graph.

(** [OTEIntegrationTestCase.__init__] *)
Definition new_test_case (dataset_params template_file_path
    num_training_iters batch_size : PyVal) : OTEIntegrationTestCase :=
  {| dataset_params := dataset_params;
     template_file_path := template_file_path;
     num_training_iters := num_training_iters;
     batch_size := batch_size;
     stages_state := fun _ => new_stage;
     results_storage := [] |}.

Fixpoint find_stage (stage_name : string)
    (stages : list (string * OTETestStage E)) : option (OTETestStage E) :=
  match stages with
  | [] => None
  | (n, s) :: rest =>
      if String.eqb stage_name n then Some s else find_stage stage_name rest
  end.

(** [run_stage]: the stages work on the attributes of the test case. *)
Definition run_stage (self : OTEIntegrationTestCase) (stage_name : string)
    (validator : Validator) (x : E) (events : list Event)
  : OTEIntegrationTestCase * E * list Event * Res unit :=
  match
    find_stage stage_name
      (_stages (dataset_params self) (template_file_path self)
         (num_training_iters self) (batch_size self))
  with
  | None =>
      (self, x, events,
       Raise (Exc AssertionError
                [Lit "Wrong stage_name "; Interp (VStr stage_name)] None))
  | Some stage =>
      let '(w, r) :=
        run_once float_of_str stage (Some validator)
          {| stage_state := stages_state self;
             test_results_storage := results_storage self;
             ext := x;
             log := events |} in
      ({| dataset_params := dataset_params self;
          template_file_path := template_file_path self;
          num_training_iters := num_training_iters self;
          batch_size := batch_size self;
          stages_state := stage_state w;
          results_storage := test_results_storage w |},
       ext w, log w, r)
  end.
End TestCase.

(** ** The cache of TestOTEIntegration *)

(** [z == f] for an [int] and a [float]: the comparison is exact. *)
Definition Z_eqb_float (z : Z) (f : float) : bool :=
  match Prim2SF f with
  | S754_zero _ => Z.eqb z 0
  | S754_finite s m e =>
      let n := if s then Z.neg m else Z.pos m in
      if (0 <=? e)%Z then Z.eqb z (n * 2 ^ e) else Z.eqb (z * 2 ^ (- e)) n
  | _ => false
  end.

(** [a == b] *)
Fixpoint py_eq (a b : PyVal) {struct a} : bool :=
  match a, b with
  | VNone, VNone => true
  | VInt x, VInt y => Z.eqb x y
  | VInt x, VFloat y => Z_eqb_float x y
  | VFloat x, VInt y => Z_eqb_float y x
  | VFloat x, VFloat y => (x =? y)%float
  | VStr s, VStr t => String.eqb s t
  | VObj h, VObj k => Nat.eqb h k
  | VDict d1, VDict d2 =>
      Nat.eqb (List.length d1) (List.length d2)
      && (fix all (d : list (string * PyVal)) : bool :=
            match d with
            | [] => true
            | (k, v) :: d' =>
                match dict_lookup k d2 with
                | Some v2 => py_eq v v2
                | None => false
                end
                && all d'
            end) d1
  | _, _ => false
  end.

Definition DATASET_PARAMETERS_FIELDS : list string :=
  ["annotations_train"; "images_train_dir"; "annotations_val";
   "images_val_dir"; "annotations_test"; "images_test_dir"].

Definition ROOT_PATH_KEY : string := "_root_path".

Definition TEST_PARAMETERS_DEFINING_IMPL_BEHAVIOR : list string :=
  ["model_name"; "dataset_name"; "num_training_iters"; "batch_size"].

Definition is_str (v : PyVal) : bool :=
  match v with
  | VStr _ => true
  | _ => false
  end.

(** [bool(v)] *)
Definition truthy (v : PyVal) : bool :=
  match v with
  | VNone => false
  | VInt z => negb (Z.eqb z 0)
  | VFloat f => negb (f =? 0)%float
  | VStr s => negb (String.eqb s "")
  | VDict d => match d with [] => false | _ => true end
  | VObj _ => true
  end.

(** [d[k]] for a key that is a value *)
Definition subscript_by (d k : PyVal) : Res PyVal :=
  match k with
  | VStr s => subscript d s
  | VDict _ => Raise (Exc TypeError [Lit "unhashable type: 'dict'"] None)
  | _ =>
      match d with
      | VDict _ => Raise (Exc KeyError [Interp k] None)
      | _ => Raise (Exc TypeError [Lit "object is not subscriptable"] None)
      end
  end.

Definition subset_of (l1 l2 : list string) : bool :=
  forallb (fun k => existsb (String.eqb k) l2) l1.

Section Paths.
(** [os.path.join] *)
Variable osp_join : string -> string -> string.

Definition join_value (root_path : string) (v : PyVal) : PyVal :=
  match v with
  | VStr p => VStr (osp_join root_path p)
  | _ => v
  end.

Definition _make_path_be_abs (some_val root_path : PyVal) : Res PyVal :=
  match some_val, root_path with
  | VStr p, VStr root => Ret (VStr (osp_join root p))
  | VDict some_dict, VStr root =>
      if forallb is_str (map snd some_dict) then
        Ret (VDict (map (fun kv => (fst kv, join_value root (snd kv)))
                      some_dict))
      else
        Raise (Exc AssertionError
                 [Lit "Wrong input dict "; Interp some_val] None)
  | VStr _, _ | VDict _, _ =>
      Raise (Exc AssertionError
               [Lit "Wrong type of root_path: "; Interp root_path] None)
  | _, _ =>
      Raise (Exc AssertionError
               [Lit "Wrong type of value: "; Interp some_val] None)
  end.

Definition _get_dataset_params_from_dataset_definitions
    (dataset_definitions dataset_name : PyVal) : Res PyVal :=
  cur_dataset_definition <- subscript_by dataset_definitions dataset_name ;;
  match cur_dataset_definition with
  | VDict items =>
      let training_parameters_fields :=
        filter (fun kv => existsb (String.eqb (fst kv))
                            DATASET_PARAMETERS_FIELDS) items in
      root <- subscript dataset_definitions ROOT_PATH_KEY ;;
      abs <- _make_path_be_abs (VDict training_parameters_fields) root ;;
      match abs with
      | VDict fields =>
          if negb (subset_of DATASET_PARAMETERS_FIELDS (dict_keys fields)
                   && subset_of (dict_keys fields) DATASET_PARAMETERS_FIELDS)
          then
            Raise (Exc AssertionError
                     [Lit "ERROR: dataset definitions for name=";
                      Interp dataset_name;
                      Lit " does not contain all required fields"] None)
          else if negb (forallb truthy (map snd fields)) then
            Raise (Exc AssertionError
                     [Lit "ERROR: dataset definitions for name=";
                      Interp dataset_name;
                      Lit " contains empty values for some required fields"]
                     None)
          else
            Ret (VDict (map (fun f => (f, dict_get f fields))
                          DATASET_PARAMETERS_FIELDS))
      | _ => Ret abs
      end
  | _ =>
      Raise (Exc AttributeError [Lit "object has no attribute 'items'"] None)
  end.

(** What a key of the cache holds: a parameter of the test, or the test
    case object. *)
Inductive CacheVal : Type :=
| Param (v : PyVal)
| TestCaseRef (ref : nat).

Definition Cache : Type := list (string * CacheVal).

(** The objects of the test session: every test case made so far (an
    object is its index), and the dict of the fixture
    [cached_from_prev_test_fx]. *)
Record Session : Type := {
  test_cases : list OTEIntegrationTestCase;
  cache : Cache
}.

(** [cache.get(k) == v] *)
Definition cached_equals (cache : Cache) (k : string) (v : PyVal) : bool :=
  match dict_lookup k cache with
  | None => py_eq VNone v
  | Some (Param u) => py_eq u v
  | Some (TestCaseRef _) => false
  end.

(** The first loop of [_clean_cache_if_parameters_changed] *)
Definition parameters_unchanged (cache : Cache)
    (params_defining_cache : Dict) : bool :=
  fold_left (fun is_ok kv => is_ok && cached_equals cache (fst kv) (snd kv))
    params_defining_cache true.

Definition _clean_cache_if_parameters_changed (cache : Cache)
    (params_defining_cache : Dict) : Cache :=
  if parameters_unchanged cache params_defining_cache then cache
  else
    let cleaned :=
      fold_left (fun c k => dict_del k c) (dict_keys cache) cache in
    fold_left (fun c kv => dict_set (fst kv) (Param (snd kv)) c)
      params_defining_cache cleaned.

(** [{k: test_parameters[k] for k in keys}], filled from [acc] on *)
Fixpoint select_parameters (test_parameters : PyVal) (keys : list string)
    (acc : Dict) : Res Dict :=
  match keys with
  | [] => Ret acc
  | k :: keys' =>
      v <- subscript test_parameters k ;;
      select_parameters test_parameters keys' (dict_set k v acc)
  end.

Definition skipped (why : string) : PyExc := Exc Skipped [Lit why] None.

Definition _update_test_case_in_cache (s : Session)
    (test_parameters dataset_definitions template_paths : PyVal)
  : Session * Res CacheVal :=
  if is_none dataset_definitions then
    (s, Raise (skipped ("The parameter " ++ quoted "--dataset-definitions"
                        ++ " is not set")))
  else
    match select_parameters test_parameters
            TEST_PARAMETERS_DEFINING_IMPL_BEHAVIOR [] with
    | Raise e => (s, Raise e)
    | Ret params_defining_cache =>
        if dict_mem "_test_case_" params_defining_cache then
          (s, Raise (Exc AssertionError
                       [Lit "ERROR: parameters defining test behavior should not contain special key ";
                        Lit (quoted "_test_case_")] None))
        else
          let cache1 :=
            _clean_cache_if_parameters_changed (cache s)
              params_defining_cache in
          match dict_lookup "_test_case_" cache1 with
          | Some cached =>
              ({| test_cases := test_cases s; cache := cache1 |}, Ret cached)
          | None =>
              let made :=
                model_name <- subscript test_parameters "model_name" ;;
                dataset_name <- subscript test_parameters "dataset_name" ;;
                num_training_iters <-
                  subscript test_parameters "num_training_iters" ;;
                batch_size <- subscript test_parameters "batch_size" ;;
                dataset_params <-
                  _get_dataset_params_from_dataset_definitions
                    dataset_definitions dataset_name ;;
                template <- subscript_by template_paths model_name ;;
                root <- subscript template_paths ROOT_PATH_KEY ;;
                template_path <- _make_path_be_abs template root ;;
                Ret (new_test_case dataset_params template_path
                       num_training_iters batch_size) in
              match made with
              | Raise e =>
                  ({| test_cases := test_cases s; cache := cache1 |},
                   Raise e)
              | Ret test_case =>
                  let ref := List.length (test_cases s) in
                  ({| test_cases := (test_cases s ++ [test_case])%list;
                      cache :=
                        dict_set "_test_case_" (TestCaseRef ref) cache1 |},
                   Ret (TestCaseRef ref))
              end
          end
    end.
End Paths.

(** ** The fixtures of the expected metrics *)

Definition REALLIFE_USECASE_CONSTANT : string := "reallife".

Definition is_dict (v : PyVal) : bool :=
  match v with
  | VDict _ => true
  | _ => false
  end.

(** The closure [_get_expected_metrics_callback]: the expected metrics of
    all the tests are [None] or the mapping read from the file. *)
Definition _get_expected_metrics_callback
    (expected_metrics_all_tests : option Dict)
    (current_test_parameters_string : string) : Res PyVal :=
  match expected_metrics_all_tests with
  | None =>
      Raise (Exc ValueError
               [Lit "The dict with expected metrics cannot be read, although it is required for validation in the test ";
                Lit dquote; Interp (VStr current_test_parameters_string);
                Lit dquote] None)
  | Some all_tests =>
      match dict_lookup current_test_parameters_string all_tests with
      | None =>
          Raise (Exc ValueError
                   [Lit "The parameters id string ";
                    Interp (VStr current_test_parameters_string);
                    Lit " is not inside the dict with expected metrics -- cannot make validation, so test is failed"]
                   None)
      | Some expected_metrics =>
          if negb (is_dict expected_metrics) then
            Raise (Exc ValueError
                     [Lit "The expected metric for parameters id string ";
                      Interp (VStr current_test_parameters_string);
                      Lit " should be a dict, whereas it is: ";
                      Pformat expected_metrics] None)
          else Ret expected_metrics
      end
  end.

(** [cur_test_expected_metrics_callback_fx]: [None], or the callback, given
    here by what calling it gives. *)
Definition cur_test_expected_metrics_callback_fx
    (expected_metrics_all_tests_fx : option Dict)
    (current_test_parameters_string_fx : string)
    (current_test_parameters_fx : PyVal) : Res (option (Res PyVal)) :=
  usecase <- subscript current_test_parameters_fx "usecase" ;;
  if negb (py_eq (VStr REALLIFE_USECASE_CONSTANT) usecase) then Ret None
  else
    Ret (Some (_get_expected_metrics_callback expected_metrics_all_tests_fx
                 current_test_parameters_string_fx)).

(** [s.find(c)] for a character: the first index, if any *)
Fixpoint find_char (c : ascii) (s : string) : option nat :=
  match s with
  | EmptyString => None
  | String c' s' =>
      if Ascii.eqb c' c then Some 0%nat
      else match find_char c s' with
           | Some i => Some (S i)
           | None => None
           end
  end.

(** [s.endswith(c)] for a character *)
Fixpoint ends_with_char (c : ascii) (s : string) : bool :=
  match s with
  | EmptyString => false
  | String c' EmptyString => Ascii.eqb c' c
  | String _ s' => ends_with_char c s'
  end.

(** [s[n:]] *)
Fixpoint drop (n : nat) (s : string) : string :=
  match n, s with
  | O, _ => s
  | S n', String _ s' => drop n' s'
  | S _, EmptyString => EmptyString
  end.

(** [s[:-1]] *)
Fixpoint drop_last (s : string) : string :=
  match s with
  | EmptyString => EmptyString
  | String _ EmptyString => EmptyString
  | String c s' => String c (drop_last s')
  end.

Definition open_bracket : ascii := ascii_of_nat 91.
Definition close_bracket : ascii := ascii_of_nat 93.

(** [current_test_parameters_string_fx]: the part of the name of the test
    node between the first [[] and the final []]. *)
Definition current_test_parameters_string_fx (node_name : string)
  : Res string :=
  match find_char open_bracket node_name with
  | None =>
      Raise (Exc AssertionError
               [Lit "Wrong format of node name "; Interp (VStr node_name)]
               None)
  | Some index =>
      if negb (ends_with_char close_bracket node_name) then
        Raise (Exc AssertionError
                 [Lit "Wrong format of node name "; Interp (VStr node_name)]
                 None)
      else Ret (drop_last (drop (index + 1) node_name))
  end.

(** ** get_output (openvino_task.py) *)

Definition is_KeyError (e : PyExc) : bool :=
  match exc_class e with
  | KeyError => true
  | _ => false
  end.

Section Outputs.
(** [net.get_ov_name_for_tensor] *)
Variable get_ov_name_for_tensor : string -> Res string.

Definition get_output (outputs : Dict) (name : string) : Res PyVal :=
  match get_ov_name_for_tensor name with
  | Ret key =>
      if dict_mem key outputs then subscript (VDict outputs) key
      else
        Raise (Exc AssertionError
                 [Lit dquote; Interp (VStr key);
                  Lit (dquote ++ " is not a valid output identifier")] None)
  | Raise e =>
      if is_KeyError e then
        if negb (dict_mem name outputs) then
          Raise (Exc KeyError
                   [Lit ("Failed to identify output " ++ dquote);
                    Interp (VStr name); Lit dquote] None)
        else subscript (VDict outputs) name
      else Raise e
  end.
End Outputs.

(** ** The list of the tests (TestOTEIntegration.get_list_of_tests) *)

Definition DEFAULT_FIELD_VALUE_FOR_USING_IN_TEST : string :=
  "DEFAULT_FIELD_VALUE_FOR_USING_IN_TEST".

Definition KEEP_CONFIG_FIELD_VALUE : string := "KEEP_CONFIG_FIELD_VALUE".

(** A value in a test bunch: one value, or a list or tuple of values. *)
Inductive BunchValue : Type :=
| Single (v : PyVal)
| Several (vs : list PyVal).

(** A test bunch, and the parameters of one test made from it. *)
Definition TestParameters : Type := list (string * BunchValue).

Definition SHORT_TEST_PARAMETERS_NAMES_FOR_GENERATING_ID
  : list (string * string) :=
  [("test_stage", "ACTION");
   ("model_name", "model");
   ("dataset_name", "dataset");
   ("num_training_iters", "num_iters");
   ("batch_size", "batch");
   ("usecase", "usecase")].

Definition DEFAULT_NUM_ITERS : PyVal := VInt 1.
Definition DEFAULT_BATCH_SIZE : PyVal := VInt 2.

(** [val is None or val == DEFAULT_FIELD_VALUE_FOR_USING_IN_TEST()], for
    [val = test_parameters.get(key)] *)
Definition default_is_required (val : option BunchValue) : bool :=
  match val with
  | None => true
  | Some (Single v) =>
      is_none v || py_eq v (VStr DEFAULT_FIELD_VALUE_FOR_USING_IN_TEST)
  | Some (Several _) => false
  end.

Definition __set_default_if_required (key : string) (default_val : PyVal)
    (test_parameters : TestParameters) : TestParameters :=
  if default_is_required (dict_lookup key test_parameters) then
    dict_set key (Single default_val) test_parameters
  else test_parameters.

Definition _fill_test_parameters_default_values
    (test_parameters : TestParameters) : TestParameters :=
  __set_default_if_required "batch_size" DEFAULT_BATCH_SIZE
    (__set_default_if_required "num_training_iters" DEFAULT_NUM_ITERS
       test_parameters).

(** An id, by its parts [(short_par_name, test_parameters[par_name])]: the
    string is [f'{short_par_name}-{value}'] over the parts, joined by
    commas. *)
Definition TestId : Type := list (string * BunchValue).

Fixpoint id_parts (names : list (string * string))
    (test_parameters : TestParameters) : Res TestId :=
  match names with
  | [] => Ret []
  | (par_name, short_par_name) :: names' =>
      match dict_lookup par_name test_parameters with
      | None => Raise (Exc KeyError [Interp (VStr par_name)] None)
      | Some value =>
          parts <- id_parts names' test_parameters ;;
          Ret ((short_par_name, value) :: parts)
      end
  end.

Definition _generate_test_id (test_parameters : TestParameters) : Res TestId :=
  id_parts SHORT_TEST_PARAMETERS_NAMES_FOR_GENERATING_ID test_parameters.

(** A [for] loop over a list, its body working on the state [s]. *)
Fixpoint for_in {A S : Type} (xs : list A) (body : A -> S -> Res S) (s : S)
  : Res S :=
  match xs with
  | [] => Ret s
  | x :: xs' => s' <- body x s ;; for_in xs' body s'
  end.

(** [itertools.product] of two lists *)
Definition product {A B : Type} (xs : list A) (ys : list B) : list (A * B) :=
  flat_map (fun x => map (fun y => (x, y)) ys) xs.

(** The names a bunch gives under a key: the list or tuple itself, or the
    list of the one value ([None] when the key is absent). *)
Definition names_under (value : option BunchValue) : list PyVal :=
  match value with
  | Some (Several names) => names
  | Some (Single v) => [v]
  | None => [VNone]
  end.

(** [usecase is not None and el_usecase != usecase] *)
Definition other_usecase (usecase : option string)
    (el_usecase : option BunchValue) : bool :=
  match usecase with
  | None => false
  | Some u =>
      match el_usecase with
      | Some (Single v) => negb (py_eq v (VStr u))
      | _ => true
      end
  end.

(** [get_list_of_tests]: the state of the loops is [(argvalues, ids)]. *)
Definition get_list_of_tests (test_bunches : list TestParameters)
    (usecase : option string)
  : Res (list string * list TestParameters * list TestId) :=
  lists <-
    for_in test_bunches
      (fun el lists0 =>
         let el_model_name := dict_lookup "model_name" el in
         let el_dataset_name := dict_lookup "dataset_name" el in
         let el_usecase := dict_lookup "usecase" el in
         if other_usecase usecase el_usecase then Ret lists0
         else
           let model_dataset_pairs :=
             product (names_under el_model_name)
               (names_under el_dataset_name) in
           for_in model_dataset_pairs
             (fun md lists1 =>
                for_in _TEST_STAGES
                  (fun test_stage lists2 =>
                     let test_parameters :=
                       _fill_test_parameters_default_values
                         (dict_set "dataset_name" (Single (snd md))
                            (dict_set "model_name" (Single (fst md))
                               (dict_set "test_stage"
                                  (Single (VStr test_stage)) el))) in
                     id <- _generate_test_id test_parameters ;;
                     Ret ((fst lists2 ++ [test_parameters])%list,
                          (snd lists2 ++ [id])%list))
                  lists1)
             lists0)
      ([], []) ;;
  Ret (["test_parameters"], fst lists, snd lists).

(** ** Definitions used to state the properties *)

(** What descending a struct along a list of keys, one key at a time, finds:
    the value, a key that is absent, or a value that is not a mapping although
    there are keys left. *)
Inductive Descent : Type :=
| Found (v : PyVal)
| AbsentKey
| NotMapping.

Fixpoint descend (cur : PyVal) (keys : list string) : Descent :=
  match keys with
  | [] => Found cur
  | k :: keys' =>
      match cur with
      | VDict items =>
          match dict_lookup k items with
          | Some v => descend v keys'
          | None => AbsentKey
          end
      | _ => NotMapping
      end
  end.

Fixpoint has_char (c : ascii) (s : string) : bool :=
  match s with
  | EmptyString => false
  | String c' s' => Ascii.eqb c' c || has_char c s'
  end.

(** The struct [{"a": {"b": 5}}] *)
Definition a_b_5 : PyVal := VDict [("a", VDict [("b", VInt 5)])].

(** The keys of a requirement are wrong: no target or two targets, no
    tolerance key or both tolerance shapes (the four checks of lines
    908-927). *)
Definition malformed_keys (req : Dict) : bool :=
  let has k := dict_mem k req in
  (negb (has "target_value") && negb (has "base"))
  || (has "target_value" && has "base")
  || (negb (has "max_diff") && negb (has less_key) && negb (has greater_key))
  || (has "max_diff" && (has less_key || has greater_key)).

(** There is no [max_diff] and both thresholds are [None] or absent. *)
Definition thresholds_none (req : Dict) : bool :=
  negb (dict_mem "max_diff" req)
  && is_none (dict_get less_key req)
  && is_none (dict_get greater_key req).

(** No string is a number: enough where no [str] is converted. *)
Definition no_float_of_str (s : string) : option float := None.

(** [{'target_value': 0.81, 'max_diff': 0.005}] *)
Definition symmetric_requirement : Dict :=
  [("target_value", VFloat 0.81); ("max_diff", VFloat 0.005)].

(** [{'target_value': inf, 'max_diff': inf}], as YAML's [.inf] gives *)
Definition infinite_requirement : Dict :=
  [("target_value", VFloat infinity); ("max_diff", VFloat infinity)].

(** The place of a float that is not NaN in the order of the floats: its
    class, from minus infinity to plus infinity, then its exponent and its
    mantissa. *)
Definition float_rank (f : spec_float) : option (Z * Z * Z) :=
  match f with
  | S754_nan => None
  | S754_zero _ => Some (0, 0, 0)%Z
  | S754_infinity s => Some (if s then (-2, 0, 0) else (2, 0, 0))%Z
  | S754_finite s m e =>
      Some (if s then (-1, - e, Z.neg m) else (1, e, Z.pos m))%Z
  end.

Definition rank_le (a b : Z * Z * Z) : Prop :=
  let '(c1, e1, m1) := a in
  let '(c2, e2, m2) := b in
  (c1 < c2 \/ (c1 = c2 /\ (e1 < e2 \/ (e1 = e2 /\ m1 <= m2))))%Z.

(** [{'target_value': None, 'max_diff_if_less_threshold': None}] *)
Definition none_requirement : Dict :=
  [("target_value", VNone); (less_key, VNone)].

Section Failures.
Variable float_of_str : string -> option float.

(** The reason of one expected metric, when its comparison fails. *)
Definition failure_of (current_result test_results_storage : PyVal)
    (item : string * PyVal) : list (option Msg) :=
  match check_metric float_of_str current_result test_results_storage
          (fst item) (snd item) with
  | Ret (false, reason) => [reason]
  | _ => []
  end.

(** The reasons of all the expected metrics whose comparison fails, in the
    order of the mapping. *)
Definition failures (current_result test_results_storage : PyVal)
    (items : Dict) : list (option Msg) :=
  flat_map (failure_of current_result test_results_storage) items.
End Failures.

(** [{'metrics': {'accuracy': {'f-measure': 0.5, 'recall': 0.4}}}] *)
Definition low_result : PyVal :=
  VDict [("metrics",
          VDict [("accuracy",
                  VDict [("f-measure", VFloat 0.5);
                         ("recall", VFloat 0.4)])])].

(** Two expected metrics, both above what [low_result] has. *)
Definition two_expected_metrics : Dict :=
  [("metrics.accuracy.f-measure",
    VDict [("target_value", VFloat 0.81); ("max_diff", VFloat 0.005)]);
   ("metrics.accuracy.recall",
    VDict [("target_value", VFloat 0.9); (less_key, VFloat 0.01)])].

Definition two_metrics_validator : Validator :=
  {| cur_test_expected_metrics_callback := Some (Ret (VDict two_expected_metrics)) |}.

(** The same two expected metrics, and between them one that [low_result]
    does not have. *)
Definition three_expected_metrics : Dict :=
  [("metrics.accuracy.f-measure",
    VDict [("target_value", VFloat 0.81); ("max_diff", VFloat 0.005)]);
   ("metrics.accuracy.precision",
    VDict [("target_value", VFloat 0.9); ("max_diff", VFloat 0.01)]);
   ("metrics.accuracy.recall",
    VDict [("target_value", VFloat 0.9); (less_key, VFloat 0.01)])].

Definition three_metrics_validator : Validator :=
  {| cur_test_expected_metrics_callback :=
       Some (Ret (VDict three_expected_metrics)) |}.

Definition is_nil {A : Type} (l : list A) : bool :=
  match l with
  | [] => true
  | _ => false
  end.

(** The calls of [validator.validate] in a log. *)
(** The attributes of a stage whose action has returned [results]. *)
Definition processed_with (results : PyVal) : StageState :=
  {| was_processed := true; stored_exception := None;
     stage_results := results |}.

Definition validations (events : list Event) : list Event :=
  filter is_validation events.

Section Runs.
Variable float_of_str : string -> option float.
Variable E : Type.

Definition processed (w : World E) (ref : nat) : Prop :=
  was_processed (stage_state w ref) = true.

(** From [w] to [w']: a stage that was processed keeps its attributes, and
    its action is not called. *)
Definition extends (w w' : World E) : Prop :=
  forall ref,
    processed w ref ->
    stage_state w' ref = stage_state w ref
    /\ calls_of ref (log w') = calls_of ref (log w).

(** As [__init__] and [run_once] leave the stage objects: one that was not
    processed has no stored exception. *)
Definition clean (w : World E) : Prop :=
  forall ref,
    was_processed (stage_state w ref) = false ->
    stored_exception (stage_state w ref) = None.

(** The stage and all the stages it depends on, directly or not, have
    succeeded. *)
Fixpoint settled (state : nat -> StageState) (s : OTETestStage E) : bool :=
  match s with
  | Stage ref _ depends_stages =>
      was_processed (state ref)
      && match stored_exception (state ref) with
         | None => true
         | Some _ => false
         end
      && forallb (settled state) depends_stages
  end.

(** The stage objects reachable from a stage, itself included. *)
Fixpoint nodes (s : OTETestStage E) : list (OTETestStage E) :=
  match s with
  | Stage _ _ depends_stages => s :: flat_map nodes depends_stages
  end.

(** The loop of [run_once] over the stages it depends on. *)
Definition run_dependencies (depends_stages : list (OTETestStage E))
    (w : World E) : World E * Res unit :=
  for_each (fun dep_stage => run_once float_of_str dep_stage None)
    depends_stages w.

(** [w'] comes after [w]: in between, stages were run with [run_once], and
    the storage and the outside may have been changed by others. *)
Inductive later (w : World E) : World E -> Prop :=
| later_now : later w w
| later_run_once (w' : World E) (s : OTETestStage E)
    (v : option Validator) :
    later w w' -> later w (fst (run_once float_of_str s v w'))
| later_outside (w' : World E) (storage : Dict) (x : E) :
    later w w' ->
    later w {| stage_state := stage_state w';
               test_results_storage := storage;
               ext := x;
               log := log w' |}.

(** The worlds a test case goes through: from an empty storage and new
    stage objects, by running stages of the graph under [root]. *)
Inductive reached (root : OTETestStage E) : World E -> Prop :=
| reached_fresh (x : E) : reached root (fresh_world x)
| reached_run_once (w : World E) (s : OTETestStage E)
    (v : option Validator) :
    reached root w -> In s (nodes root) ->
    reached root (fst (run_once float_of_str s v w))
| reached_outside (w : World E) (x : E) :
    reached root w ->
    reached root {| stage_state := stage_state w;
                    test_results_storage := test_results_storage w;
                    ext := x;
                    log := log w |}.

(** The world in which [_run_validation] starts after the action of the
    stage [ref] has returned [results]. *)
Definition after_success (ref : nat) (a : BaseOTETestAction E)
    (results : PyVal) (x : E) (w : World E) : World E :=
  {| stage_state :=
       update ref
         {| was_processed := true;
            stored_exception := stored_exception (stage_state w ref);
            stage_results := results |}
         (stage_state w);
     test_results_storage :=
       dict_set (name a) results (test_results_storage w);
     ext := x;
     log := (log w ++ [ActionCalled ref])%list |}.

(** The world after the action of the stage [ref] has raised the
    [Exception] [e]. *)
Definition after_failure (ref : nat) (e : PyExc) (x : E) (w : World E) : World E :=
  {| stage_state :=
       update ref
         {| was_processed := true;
            stored_exception := Some e;
            stage_results := stage_results (stage_state w ref) |}
         (stage_state w);
     test_results_storage := test_results_storage w;
     ext := x;
     log := (log w ++ [ActionCalled ref])%list |}.

(** What [_run_validation] adds to the log. *)
Definition validation_events (ref : nat) (a : BaseOTETestAction E)
    (v : option Validator) : list Event :=
  if with_validation a then
    match v with
    | Some _ => [ValidateCalled ref]
    | None => []
    end
  else [].

(** In the graph under [root] a name belongs to one stage object. *)
Definition unique_names (root : OTETestStage E) : Prop :=
  forall s1 s2,
    In s1 (nodes root) -> In s2 (nodes root) ->
    (stage_name s1 = stage_name s2 <-> stage_ref s1 = stage_ref s2).

(** The names in the storage are those of the stages that succeeded. *)
Definition store_matches (root : OTETestStage E) (w : World E) : Prop :=
  forall s,
    In s (nodes root) ->
    (dict_mem (stage_name s) (test_results_storage w) = true
     <-> succeeded w (stage_ref s)).
End Runs.

Arguments processed {E} _ _.
Arguments extends {E} _ _.
Arguments clean {E} _.
Arguments settled {E} _ _.
Arguments nodes {E} _.
Arguments run_dependencies _ {E} _ _.
Arguments later _ {E} _ _.
Arguments reached _ {E} _ _.
Arguments unique_names {E} _.
Arguments store_matches {E} _ _.
Arguments validation_events {E} _ _ _.
Arguments after_success {E} _ _ _ _ _.
Arguments after_failure {E} _ _ _ _.

(** ** Sample stages

    The outside is a counter of the calls made to it. *)

(** Every [_run_ote_*] method returns; an attribute of [self] holds the
    string of its own name. *)
Definition returning_run_ote (a : ActionClass) (init kwargs : Dict) (n : nat)
  : nat * Res (string -> PyVal) :=
  (S n, Ret (fun attribute => VStr attribute)).

(** Every evaluation gives the score 0.5. *)
Definition returning_run_ote_evaluation (a : ActionClass)
    (init kwargs : Dict) (n : nat) : nat * Res (string * PyVal) :=
  (S n, Ret ("f-measure", VFloat 0.5)).

(** [_run_ote_nncf] for a template without NNCF: [pytest.skip]. *)
Definition skipping_run_ote (a : ActionClass) (init kwargs : Dict) (n : nat)
  : nat * Res (string -> PyVal) :=
  match a with
  | OTETestNNCFAction =>
      (S n, Raise (Exc Skipped [Lit "NNCF is not enabled for this template"]
                     None))
  | _ => returning_run_ote a init kwargs n
  end.

Definition sample_training_stage : OTETestStage nat :=
  training_stage nat returning_run_ote returning_run_ote_evaluation
    VNone VNone (VInt 1) (VInt 2).

Definition sample_pot_evaluation_stage : OTETestStage nat :=
  pot_evaluation_stage nat returning_run_ote returning_run_ote_evaluation
    VNone VNone (VInt 1) (VInt 2).

Definition skipping_nncf_stage : OTETestStage nat :=
  nncf_stage nat skipping_run_ote returning_run_ote_evaluation
    VNone VNone (VInt 1) (VInt 2).

Definition training_failed : PyExc :=
  Exc AssertionError [Lit "Training was failed"] None.

(** A training action whose training fails. *)
Definition failing_action : BaseOTETestAction nat :=
  {| name := "training";
     with_validation := false;
     call := fun _ n => (S n, Raise training_failed) |}.

Definition failing_stage : OTETestStage nat := Stage 0 failing_action [].

(** An evaluation action with the scores of [low_result]. *)
Definition low_evaluation_action : BaseOTETestAction nat :=
  {| name := "training_evaluation";
     with_validation := true;
     call := fun _ n => (S n, Ret low_result) |}.

Definition low_evaluation_stage : OTETestStage nat :=
  Stage 0 low_evaluation_action [].

(** The results of the export stage alone: [{'export': {...}}] *)
Definition export_results_only : option Dict :=
  Some [("export",
         VDict [("environment", VObj 0); ("exported_model", VObj 1)])].

(** ** Sample test parameters *)

Definition sample_osp_join (root path : string) : string := root ++ path.

Definition sample_parameters (batch : Z) : PyVal :=
  VDict [("test_stage", VStr "training");
         ("model_name", VStr "gen3_mobilenetV2_SSD");
         ("dataset_name", VStr "bbcd");
         ("num_training_iters", VInt 1);
         ("batch_size", VInt batch);
         ("usecase", VStr "precommit")].

Definition sample_dataset_definitions : PyVal :=
  VDict [("bbcd",
          VDict [("annotations_train", VStr "train.json");
                 ("images_train_dir", VStr "train");
                 ("annotations_val", VStr "val.json");
                 ("images_val_dir", VStr "val");
                 ("annotations_test", VStr "test.json");
                 ("images_test_dir", VStr "test")]);
         (ROOT_PATH_KEY, VStr "/data/")].

Definition sample_template_paths : PyVal :=
  VDict [("gen3_mobilenetV2_SSD", VStr "/configs/ote/ssd/template.yaml");
         (ROOT_PATH_KEY, VStr "")].

(** The session after the first test with batch size 2. *)
Definition sample_session : Session :=
  fst (_update_test_case_in_cache sample_osp_join
         {| test_cases := []; cache := [] |}
         (sample_parameters 2) sample_dataset_definitions
         sample_template_paths).

(** ** Definitions used to state further properties *)

(** The [results] of an evaluation action. *)
Definition evaluation_results (score_name : string) (score_value : PyVal)
  : PyVal :=
  VDict [("metrics", VDict [("accuracy", VDict [(score_name, score_value)])])].

(** A bound that is there holds; a bound that is [None] asks nothing. *)
Definition lower_ok (min_value : option float) (x : float) : Prop :=
  match min_value with
  | Some mn => (mn <=? x)%float = true
  | None => True
  end.

Definition upper_ok (max_value : option float) (x : float) : Prop :=
  match max_value with
  | Some mx => (x <=? mx)%float = true
  | None => True
  end.

Section Thresholds.
Variable float_of_str : string -> option float.

(** The value under a threshold key is [None] (or the key is absent), or
    it converts to the float [d]. *)
Definition threshold_is (v : PyVal) (t : option float) : Prop :=
  match t with
  | None => v = VNone
  | Some d => is_none v = false /\ py_float float_of_str v = Ret d
  end.
End Thresholds.

(** [{'base': 'training_evaluation.metrics.accuracy.f-measure',
      'max_diff_if_less_threshold': 0.01}] *)
Definition relative_requirement : Dict :=
  [("base", VStr "training_evaluation.metrics.accuracy.f-measure");
   (less_key, VFloat 0.01)].

(** [{'target_value': 0.81, 'max_diff': -0.005}] *)
Definition negative_requirement : Dict :=
  [("target_value", VFloat 0.81); ("max_diff", VFloat (-0.005))].

(** [{'target_value': nan, 'max_diff': 0.01}], as YAML's [.nan] gives *)
Definition nan_requirement : Dict :=
  [("target_value", VFloat nan); ("max_diff", VFloat 0.01)].

(** [{'metrics': {'accuracy': {'f-measure': 10**400}}}] *)
Definition huge_result : PyVal :=
  VDict [("metrics",
          VDict [("accuracy", VDict [("f-measure", VInt (10 ^ 400))])])].

(** A storage with the results of [training_evaluation] only. *)
Definition evaluated_storage : Dict :=
  [("training_evaluation", evaluation_results "f-measure" (VFloat 0.8))].

(** Expected metrics whose second address is not in [low_result]. *)
Definition absent_metric_expected : Dict :=
  [("metrics.accuracy.f-measure",
    VDict [("target_value", VFloat 0.81); ("max_diff", VFloat 0.005)]);
   ("metrics.accuracy.precision",
    VDict [("target_value", VFloat 0.9); ("max_diff", VFloat 0.01)])].

Definition absent_metric_validator : Validator :=
  {| cur_test_expected_metrics_callback :=
       Some (Ret (VDict absent_metric_expected)) |}.

(** The classes of the errors with which checking one metric can stop. *)
Definition is_hard_error_class (c : ExcClass) : bool :=
  match c with
  | ValueError | AssertionError | AttributeError | OverflowError => true
  | _ => false
  end.

Definition cannot_get_metric (cur_res_addr : string) (current_result : PyVal)
    (cause : PyExc) : PyExc :=
  Exc ValueError
    [Lit "Cannot get metric "; Interp (VStr cur_res_addr);
     Lit " from the current result "; Interp current_result] (Some cause).

Section Behaviour.
Variable E : Type.

(** What the action raises, if it raises, is an [Exception]: it neither
    skips the test nor is interrupted. *)
Definition raises_only_exceptions (a : BaseOTETestAction E) : Prop :=
  forall prior x x' e, call a prior x = (x', Raise e) -> is_Exception e = true.

Definition well_behaved (root : OTETestStage E) : Prop :=
  forall s, In s (nodes root) -> raises_only_exceptions (stage_action s).

(** The storage holds, under the name of every stage that succeeded, the
    results the stage keeps. *)
Definition store_holds_results (root : OTETestStage E) (w : World E) : Prop :=
  forall s,
    In s (nodes root) ->
    succeeded w (stage_ref s) ->
    dict_lookup (stage_name s) (test_results_storage w)
    = Some (stage_results (stage_state w (stage_ref s))).

(** No action was called twice, and none of a stage that is not processed. *)
Definition called_at_most_once (w : World E) : Prop :=
  forall ref,
    (calls_of ref (log w) <= 1)%nat
    /\ (was_processed (stage_state w ref) = false ->
        calls_of ref (log w) = 0%nat).
End Behaviour.

Arguments raises_only_exceptions {E} _.
Arguments well_behaved {E} _.
Arguments store_holds_results {E} _ _.
Arguments called_at_most_once {E} _.

(** A stage that comes across its own name in the storage. *)
Definition occupied_world : World nat :=
  {| stage_state := fun _ => new_stage;
     test_results_storage := [("training", VNone)];
     ext := 0%nat;
     log := [] |}.

(** A stage that depends on the failing stage. *)
Definition dependent_stage : OTETestStage nat :=
  Stage 1 low_evaluation_action [failing_stage].

Section TestCaseRuns.
Variable float_of_str : string -> option float.
Variable E : Type.
Variable run_ote :
  ActionClass -> Dict -> Dict -> E -> E * Res (string -> PyVal).
Variable run_ote_evaluation :
  ActionClass -> Dict -> Dict -> E -> E * Res (string * PyVal).

(** The attributes of a test case, the outside and the log, as the world
    its stages run in. *)
Definition test_case_world (self : OTEIntegrationTestCase) (x : E)
    (events : list Event) : World E :=
  {| stage_state := stages_state self;
     test_results_storage := results_storage self;
     ext := x;
     log := events |}.

(** What a test case, the outside and the log can be after tests have
    called [run_stage] on a test case made with the given arguments; between
    two tests the outside may have changed. *)
Inductive test_case_runs (dp tp iters batch : PyVal)
  : OTEIntegrationTestCase * E * list Event -> Prop :=
| runs_new (x : E) :
    test_case_runs dp tp iters batch (new_test_case dp tp iters batch, x, [])
| runs_stage (self : OTEIntegrationTestCase) (x x' : E)
    (events : list Event) (stage_name : string) (validator : Validator) :
    test_case_runs dp tp iters batch (self, x, events) ->
    test_case_runs dp tp iters batch
      (fst (run_stage float_of_str E run_ote run_ote_evaluation self
              stage_name validator x' events)).

(** The stage objects of a test case under one root, to reason about all of
    them at once: the root is no stage of the test case and is never run. *)
Definition whole_graph (dp tp iters batch : PyVal) : OTETestStage E :=
  Stage 10
    {| name := "";
       with_validation := false;
       call := fun _ x => (x, Ret VNone) |}
    (list_all_stages E run_ote run_ote_evaluation dp tp iters batch).

(** The methods of the actions raise nothing but [Exception]s. *)
Definition methods_raise_only_exceptions : Prop :=
  (forall a init kwargs x x' e,
     run_ote a init kwargs x = (x', Raise e) -> is_Exception e = true)
  /\ (forall a init kwargs x x' e,
        run_ote_evaluation a init kwargs x = (x', Raise e) ->
        is_Exception e = true).
End TestCaseRuns.

(** The name of the stage object with a given ref, and back. *)
Definition name_of_ref (ref : nat) : string := nth ref _TEST_STAGES "".

Fixpoint index_of (name : string) (names : list string) : nat :=
  match names with
  | [] => 0
  | n :: names' => if String.eqb name n then 0 else S (index_of name names')
  end.

Definition ref_of_name (name : string) : nat := index_of name _TEST_STAGES.

(** The results of the prior stage are there: the mapping is not empty and
    has the name of the stage. *)
Definition present_in (stage_name : string) (d : option Dict) : bool :=
  negb (falsy d || absent_in stage_name d).

(** A test case, the outside and the log after one test has run the
    training stage of a new test case. *)
Definition trained_test_case
  : OTEIntegrationTestCase * nat * list Event :=
  fst (run_stage no_float_of_str nat returning_run_ote
         returning_run_ote_evaluation
         (new_test_case VNone VNone (VInt 1) (VInt 2)) "training"
         two_metrics_validator 0%nat []).

(** The results of a training stage, as the stub of [returning_run_ote]
    leaves them. *)
Definition training_results_only : option Dict :=
  Some [("training",
         VDict [("model_template", VObj 0); ("task", VObj 1);
                ("dataset", VObj 2); ("environment", VObj 3);
                ("output_model", VObj 4)])].

(** The parameters of the test of one stage, for a model and a dataset of a
    bunch. *)
Definition test_parameters_of (el : TestParameters) (m d : PyVal)
    (test_stage : string) : TestParameters :=
  _fill_test_parameters_default_values
    (dict_set "dataset_name" (Single d)
       (dict_set "model_name" (Single m)
          (dict_set "test_stage" (Single (VStr test_stage)) el))).

(** The bunch passes the filter by usecase. *)
Definition selected (usecase : option string) (el : TestParameters) : bool :=
  negb (other_usecase usecase (dict_lookup "usecase" el)).

Definition pairs_of (el : TestParameters) : list (PyVal * PyVal) :=
  product (names_under (dict_lookup "model_name" el))
    (names_under (dict_lookup "dataset_name" el)).

(** The tests of a bunch, one run of the stages for each pair. *)
Definition runs_of_bunch (el : TestParameters)
  : list (list TestParameters) :=
  map (fun md => map (test_parameters_of el (fst md) (snd md)) _TEST_STAGES)
    (pairs_of el).

Definition tests_of_bunch (el : TestParameters) : list TestParameters :=
  List.concat (runs_of_bunch el).

Definition number_of_tests (usecase : option string)
    (test_bunches : list TestParameters) : nat :=
  list_sum
    (map (fun el =>
            (10 * (List.length (names_under (dict_lookup "model_name" el))
                   * List.length
                       (names_under (dict_lookup "dataset_name" el))))%nat)
       (filter (selected usecase) test_bunches)).

(** The bunch gives tests, and these can be given an id. *)
Definition has_usecase_if_tests (el : TestParameters) : bool :=
  is_nil (pairs_of el) || dict_mem "usecase" el.

(** The bodies of the loops of [get_list_of_tests]. *)
Definition stage_body (el : TestParameters) (md : PyVal * PyVal)
    (test_stage : string) (lists : list TestParameters * list TestId)
  : Res (list TestParameters * list TestId) :=
  id <- _generate_test_id (test_parameters_of el (fst md) (snd md) test_stage) ;;
  Ret ((fst lists ++ [test_parameters_of el (fst md) (snd md) test_stage])%list,
       (snd lists ++ [id])%list).

Definition pair_body (el : TestParameters) (md : PyVal * PyVal)
    (lists : list TestParameters * list TestId)
  : Res (list TestParameters * list TestId) :=
  for_in _TEST_STAGES (stage_body el md) lists.

Definition bunch_body (usecase : option string) (el : TestParameters)
    (lists : list TestParameters * list TestId)
  : Res (list TestParameters * list TestId) :=
  if other_usecase usecase (dict_lookup "usecase" el) then Ret lists
  else for_in (pairs_of el) (pair_body el) lists.

Definition no_usecase : PyExc := Exc KeyError [Interp (VStr "usecase")] None.

(** The test bunches of the class. *)
Definition test_bunches : list TestParameters :=
  [[("model_name",
     Several [VStr "gen3_mobilenetV2_SSD"; VStr "gen3_mobilenetV2_ATSS";
              VStr "gen3_resnet50_VFNet"]);
    ("dataset_name", Single (VStr "dataset1_tiled_shortened_500_A"));
    ("usecase", Single (VStr "precommit"))];
   [("model_name", Several [VStr "gen3_mobilenetV2_ATSS"]);
    ("dataset_name", Single (VStr "bbcd"));
    ("num_training_iters", Single (VStr KEEP_CONFIG_FIELD_VALUE));
    ("batch_size", Single (VStr KEEP_CONFIG_FIELD_VALUE));
    ("usecase", Single (VStr REALLIFE_USECASE_CONSTANT))]].

(** The lists [get_list_of_tests] gives for the test bunches of the class
    without a filter by usecase. *)
Definition all_tests_of_the_class
  : list string * list TestParameters * list TestId :=
  match get_list_of_tests test_bunches None with
  | Ret lists => lists
  | Raise _ => ([], [], [])
  end.

(** * Properties *)

(** ** The address resolver *)

Lemma split_not_nil (sep : ascii) (s : string) : split sep s <> [].
Proof.
  induction s as [|c s IH]; simpl.
  - discriminate.
  - destruct (Ascii.eqb c sep); [discriminate|].
    destruct (split sep s); [contradiction|discriminate].
Qed.

Lemma split_without_sep (sep : ascii) (s : string) :
  has_char sep s = false -> split sep s = [s].
Proof.
  induction s as [|c s IH]; simpl; intros H.
  - reflexivity.
  - apply orb_false_iff in H. destruct H as [Hc Hs].
    rewrite Hc, (IH Hs). reflexivity.
Qed.

Lemma split_at_sep (sep : ascii) (k s : string) :
  has_char sep k = false ->
  split sep (k ++ String sep s) = k :: split sep s.
Proof.
  induction k as [|c k IH]; simpl; intros H.
  - rewrite Ascii.eqb_refl. reflexivity.
  - apply orb_false_iff in H. destruct H as [Hc Hk].
    rewrite Hc, (IH Hk). reflexivity.
Qed.

Lemma _get_descend (struct : PyVal) (address : string) (keys : list string) :
  forall cur,
    match descend cur keys with
    | Found v => _get struct address cur keys = Ret v
    | AbsentKey =>
        exists e, _get struct address cur keys = Raise e
                  /\ is_address_error e = true
    | NotMapping =>
        _get struct address cur keys = Raise (Exc AssertionError [] None)
    end.
Proof.
  induction keys as [|k keys IH]; intros cur; simpl.
  - reflexivity.
  - destruct cur; try reflexivity.
    destruct (dict_lookup k items) as [v|].
    + apply IH.
    + eexists. split; reflexivity.
Qed.

(** C5, as the code has it. The address is split at every dot, so it is never
    an empty list of keys: the empty address is the one key [""]. Along the
    keys the resolver descends one mapping at a time; it returns the value it
    reaches, fails with the address error ([ValueError]) at a key that is
    absent, and fails with an [AssertionError] at a value that is not a
    mapping while keys are left. A key without a dot in front of a dot is
    one step of the descent. With [{"a": {"b": 5}}], "a.b" gives 5 and "a.c"
    the address error. *)
Theorem resolve_descends_key_by_key :
  (forall struct address,
     split dot address <> []
     /\ match descend struct (split dot address) with
        | Found v =>
            get_value_from_dict_by_dot_separated_address struct (VStr address)
            = Ret v
        | AbsentKey =>
            exists e,
              get_value_from_dict_by_dot_separated_address struct (VStr address)
              = Raise e
              /\ is_address_error e = true
        | NotMapping =>
            get_value_from_dict_by_dot_separated_address struct (VStr address)
            = Raise (Exc AssertionError [] None)
        end)
  /\ split dot "" = [""]
  /\ (forall key, has_char dot key = false -> split dot key = [key])
  /\ (forall key rest,
        has_char dot key = false ->
        split dot (key ++ String dot rest) = key :: split dot rest)
  /\ (forall struct address cur, _get struct address cur [] = Ret cur)
  /\ get_value_from_dict_by_dot_separated_address a_b_5 (VStr "a.b")
     = Ret (VInt 5)
  /\ (exists e,
        get_value_from_dict_by_dot_separated_address a_b_5 (VStr "a.c")
        = Raise e
        /\ is_address_error e = true).
Proof.
  repeat split.
  - apply split_not_nil.
  - unfold get_value_from_dict_by_dot_separated_address. apply _get_descend.
  - intros key H. apply split_without_sep, H.
  - intros key rest H. apply split_at_sep, H.
  - eexists. split; reflexivity.
Qed.

(** C5 as stated fails for the empty address: it does not give back the
    struct, it looks for the key [""] and fails with the address error. *)
Lemma empty_address_is_not_the_struct :
  get_value_from_dict_by_dot_separated_address a_b_5 (VStr "") <> Ret a_b_5
  /\ exists e,
       get_value_from_dict_by_dot_separated_address a_b_5 (VStr "") = Raise e
       /\ is_address_error e = true.
Proof.
  split.
  - discriminate.
  - eexists. split; reflexivity.
Qed.

(** ** The order of the floats *)

Lemma SFleb_rank (a b : spec_float) :
  SFleb a b = true
  <-> exists ra rb,
        float_rank a = Some ra /\ float_rank b = Some rb /\ rank_le ra rb.
Proof.
  unfold SFleb, SFcompare.
  destruct a as [sa|sa| |sa ma ea], b as [sb|sb| |sb mb eb]; cbn [float_rank].
  all: try (split; [discriminate | intros (ra & rb & Ha & Hb & _); discriminate]).
  all: try (destruct sa); try (destruct sb).
  all: try (split; [intros _; eexists; eexists; split; [reflexivity|];
                    split; [reflexivity|]; cbn; lia
                   | reflexivity]).
  all: try (split; [discriminate
                   | intros (ra & rb & Ha & Hb & Hle); inversion Ha;
                     inversion Hb; subst; cbn in Hle; lia]).
  - change (PosDef.Pos.compare_cont Eq ma mb) with (Pos.compare ma mb).
    destruct (Z.compare_spec ea eb) as [He|He|He];
      [destruct (Pos.compare_spec ma mb) as [Hm|Hm|Hm]; cbn [CompOpp]| |].
    all: split;
      [ first [ discriminate
              | intros _; eexists; eexists; split; [reflexivity|];
                split; [reflexivity|]; cbn; lia ]
      | first [ reflexivity
              | intros (ra & rb & Ha & Hb & Hle); inversion Ha;
                inversion Hb; subst; cbn in Hle; lia ] ].
  - change (PosDef.Pos.compare_cont Eq ma mb) with (Pos.compare ma mb).
    destruct (Z.compare_spec ea eb) as [He|He|He];
      [destruct (Pos.compare_spec ma mb) as [Hm|Hm|Hm]| |].
    all: split;
      [ first [ discriminate
              | intros _; eexists; eexists; split; [reflexivity|];
                split; [reflexivity|]; cbn; lia ]
      | first [ reflexivity
              | intros (ra & rb & Ha & Hb & Hle); inversion Ha;
                inversion Hb; subst; cbn in Hle; lia ] ].
Qed.

Lemma leb_rank (x y : float) :
  (x <=? y)%float = true
  <-> exists rx ry,
        float_rank (Prim2SF x) = Some rx /\ float_rank (Prim2SF y) = Some ry
        /\ rank_le rx ry.
Proof. rewrite leb_spec. apply SFleb_rank. Qed.

Lemma leb_trans (x y z : float) :
  (x <=? y)%float = true -> (y <=? z)%float = true -> (x <=? z)%float = true.
Proof.
  rewrite !leb_rank.
  intros (rx & ry & Hx & Hy & Hxy) (ry' & rz & Hy' & Hz & Hyz).
  rewrite Hy in Hy'. inversion Hy'. subst ry'.
  exists rx, rz. split; [exact Hx|]. split; [exact Hz|].
  destruct rx as [[c1 e1] m1], ry as [[c2 e2] m2], rz as [[c3 e3] m3].
  cbn in *. lia.
Qed.

Lemma leb_refl_left (x y : float) :
  (x <=? y)%float = true -> (x <=? x)%float = true.
Proof.
  rewrite !leb_rank. intros (rx & ry & Hx & _ & _).
  exists rx, rx. split; [exact Hx|]. split; [exact Hx|].
  destruct rx as [[c e] m]. cbn. lia.
Qed.

Lemma leb_refl_right (x y : float) :
  (x <=? y)%float = true -> (y <=? y)%float = true.
Proof.
  rewrite !leb_rank. intros (rx & ry & _ & Hy & _).
  exists ry, ry. split; [exact Hy|]. split; [exact Hy|].
  destruct ry as [[c e] m]. cbn. lia.
Qed.

Lemma SFltb_rank (a b : spec_float) :
  SFltb a b = true -> SFleb b a = false.
Proof.
  intros H. destruct (SFleb b a) eqn:Hle; [|reflexivity]. exfalso.
  apply SFleb_rank in Hle. destruct Hle as (rb & ra & Hb & Ha & Hle).
  revert H Ha Hb Hle. unfold SFltb, SFcompare.
  destruct a as [sa|sa| |sa ma ea], b as [sb|sb| |sb mb eb]; cbn [float_rank];
    try discriminate.
  all: try (destruct sa); try (destruct sb); try discriminate.
  all: try (intros _ Ha Hb Hle; inversion Ha; inversion Hb; subst;
            cbn in Hle; lia).
  - change (PosDef.Pos.compare_cont Eq ma mb) with (Pos.compare ma mb).
    destruct (Z.compare_spec ea eb) as [He|He|He];
      [destruct (Pos.compare_spec ma mb) as [Hm|Hm|Hm]; cbn [CompOpp]| |];
      try discriminate.
    all: intros _ Ha Hb Hle; inversion Ha; inversion Hb; subst;
      cbn in Hle; lia.
  - change (PosDef.Pos.compare_cont Eq ma mb) with (Pos.compare ma mb).
    destruct (Z.compare_spec ea eb) as [He|He|He];
      [destruct (Pos.compare_spec ma mb) as [Hm|Hm|Hm]| |];
      try discriminate.
    all: intros _ Ha Hb Hle; inversion Ha; inversion Hb; subst;
      cbn in Hle; lia.
Qed.

Lemma ltb_not_leb (x y : float) :
  (x <? y)%float = true -> (y <=? x)%float = false.
Proof. rewrite ltb_spec, leb_spec. apply SFltb_rank. Qed.

Lemma eqb_leb (x y : float) :
  (x =? y)%float = true -> (x <=? y)%float = true.
Proof.
  rewrite eqb_spec, leb_spec. unfold SFeqb, SFleb.
  destruct (SFcompare (Prim2SF x) (Prim2SF y)) as [[| |]|];
    (reflexivity || discriminate).
Qed.

Lemma SFeqb_refl (a : spec_float) (r : Z * Z * Z) :
  float_rank a = Some r -> SFeqb a a = true.
Proof.
  unfold SFeqb, SFcompare. destruct a as [s|s| |s m e]; cbn [float_rank];
    try discriminate; intros _.
  - reflexivity.
  - destruct s; reflexivity.
  - change (PosDef.Pos.compare_cont Eq m m) with (Pos.compare m m).
    destruct s; rewrite Z.compare_refl, Pos.compare_refl; reflexivity.
Qed.

Lemma nan_not_leb (x y : float) :
  PrimFloat.is_nan y = true -> (x <=? y)%float = false.
Proof.
  unfold PrimFloat.is_nan. intros Hnan.
  destruct (x <=? y)%float eqn:Hle; [|reflexivity]. exfalso.
  apply leb_rank in Hle. destruct Hle as (rx & ry & _ & Hy & _).
  rewrite eqb_spec, (SFeqb_refl _ _ Hy) in Hnan. discriminate Hnan.
Qed.

(** ** The acceptance range of a requirement *)

Section RangeProperties.
Variable float_of_str : string -> option float.

Local Open Scope float_scope.

Lemma _compare_two_sided (obs : float) (addr : string) (T mn mx : float) :
  ((mn <=? T) && (T <=? mx))%float = true ->
  _compare obs addr T (Some mn) (Some mx)
  = if ((mn <=? obs) && (obs <=? mx))%float then Ret (true, None)
    else Ret (false, Some (out_of_range obs addr T mn mx)).
Proof.
  intros H. unfold _compare. rewrite H. reflexivity.
Qed.

(** C4. A requirement of the symmetric shape, with [max_diff] = d >= 0 and
    target T, is converted to exactly (T, T - d, T + d), the difference and
    the sum being those of the floats. When the target is within these
    bounds, as [_compare] asserts, the comparison passes if and only if
    T - d <= observed <= T + d, and a value on either bound passes. When it
    is not (a target that is NaN, or infinite with an infinite tolerance),
    the comparison fails its assertion whatever the observed value is. *)
Theorem symmetric_range_is_inclusive
    (req : Dict) (storage : PyVal) (T d obs : float) (addr : string) :
  dict_mem "max_diff" req = true ->
  dict_mem less_key req = false ->
  dict_mem greater_key req = false ->
  xorb (dict_mem "target_value" req) (dict_mem "base" req) = true ->
  target_value_of float_of_str req storage = Ret T ->
  py_float float_of_str (dict_get "max_diff" req) = Ret d ->
  (0 <=? d)%float = true ->
  _get_min_max_value_from_expected_metrics float_of_str (VDict req) storage
  = Ret (T, Some (T - d), Some (T + d))%float
  /\ (((T - d <=? T) && (T <=? T + d))%float = true ->
      (_compare obs addr T (Some (T - d)) (Some (T + d))%float
       = Ret (true, None)
       <-> ((T - d <=? obs)%float = true /\ (obs <=? T + d)%float = true))
      /\ (~ ((T - d <=? obs)%float = true /\ (obs <=? T + d)%float = true) ->
          exists reason,
            _compare obs addr T (Some (T - d)) (Some (T + d))%float
            = Ret (false, Some reason))
      /\ _compare (T - d) addr T (Some (T - d)) (Some (T + d))%float
         = Ret (true, None)
      /\ _compare (T + d) addr T (Some (T - d)) (Some (T + d))%float
         = Ret (true, None))
  /\ (((T - d <=? T) && (T <=? T + d))%float = false ->
      _compare obs addr T (Some (T - d)) (Some (T + d))%float
      = Raise (Exc AssertionError [] None)).
Proof.
  intros Hmd Hless Hgreater Hone HT Hd Hpos.
  split; [|split].
  - unfold _get_min_max_value_from_expected_metrics.
    rewrite Hmd, Hless, Hgreater.
    destruct (dict_mem "target_value" req), (dict_mem "base" req);
      try discriminate Hone; simpl; rewrite HT; simpl; rewrite Hd; simpl;
      rewrite Hpos; reflexivity.
  - intros Hin. pose proof Hin as Hin'.
    apply andb_true_iff in Hin'. destruct Hin' as [Hlo Hhi].
    split; [|split; [|split]].
    + rewrite (_compare_two_sided obs addr T _ _ Hin).
      rewrite <- andb_true_iff.
      destruct ((T - d <=? obs) && (obs <=? T + d))%float; split;
        intros H; (reflexivity || discriminate H).
    + intros Hout. rewrite (_compare_two_sided obs addr T _ _ Hin).
      rewrite <- andb_true_iff in Hout.
      destruct ((T - d <=? obs) && (obs <=? T + d))%float.
      * exfalso. apply Hout. reflexivity.
      * eexists. reflexivity.
    + rewrite (_compare_two_sided _ addr T _ _ Hin).
      rewrite (leb_refl_left _ _ Hlo), (leb_trans _ _ _ Hlo Hhi).
      reflexivity.
    + rewrite (_compare_two_sided _ addr T _ _ Hin).
      rewrite (leb_refl_right _ _ Hhi), (leb_trans _ _ _ Hlo Hhi).
      reflexivity.
  - intros Hout. unfold _compare. rewrite Hout. reflexivity.
Qed.

Lemma py_float_error (v : PyVal) (e : PyExc) :
  py_float float_of_str v = Raise e -> is_config_error e = false.
Proof.
  destruct v; cbn [py_float]; try (intros H; inversion H; reflexivity).
  - destruct (PrimFloat.is_infinity (float_of_Z z)); intros H; inversion H.
    reflexivity.
  - destruct (float_of_str s); intros H; inversion H. reflexivity.
Qed.

Lemma _get_error (struct : PyVal) (address : string) (keys : list string) :
  forall cur e,
    _get struct address cur keys = Raise e -> is_config_error e = false.
Proof.
  induction keys as [|k keys IH]; intros cur e; simpl.
  - discriminate.
  - destruct cur; try (intros H; inversion H; reflexivity).
    destruct (dict_lookup k items) as [v|].
    + apply IH.
    + intros H; inversion H; reflexivity.
Qed.

Lemma target_value_of_error (req : Dict) (storage : PyVal) (e : PyExc) :
  target_value_of float_of_str req storage = Raise e ->
  is_config_error e = false.
Proof.
  unfold target_value_of.
  destruct (dict_mem "target_value" req).
  - apply py_float_error.
  - destruct (dict_mem "base" req).
    + unfold get_value_from_dict_by_dot_separated_address.
      destruct (dict_get "base" req) as [| | |a| |]; simpl;
        try (intros H; inversion H; reflexivity).
      destruct (_get storage a storage (split dot a)) as [v|e'] eqn:Hget;
        simpl.
      * apply py_float_error.
      * intros H; inversion H; subst. eapply _get_error, Hget.
    + intros H; inversion H; reflexivity.
Qed.

Lemma one_side_error (name : string) (threshold : PyVal)
    (bound : float -> float) (e : PyExc) :
  name = less_key \/ name = greater_key ->
  one_side float_of_str name threshold bound = Raise e ->
  is_config_error e = false.
Proof.
  intros Hname. unfold one_side.
  destruct (is_none threshold); [discriminate|].
  destruct (py_float float_of_str threshold) as [d|e'] eqn:Hd; simpl.
  - destruct (negb (0 <=? d)%float); [|discriminate].
    intros H; inversion H. destruct Hname; subst; reflexivity.
  - intros H; inversion H; subst. eapply py_float_error, Hd.
Qed.

(** C6, as the code has it. Converting a requirement to bounds fails with
    the configuration error (a [ValueError] "Wrong cur_metric_requirements
    ...") exactly when its keys are wrong (both [target_value] and [base],
    neither of them, [max_diff] together with a threshold key, no
    tolerance key at all) or when, the keys being right and the target
    resolved, there is no [max_diff] and both threshold values are [None].
    So a requirement with exactly one target source and exactly one
    tolerance shape never raises it. *)
Theorem config_error_exactly_on_malformed_shapes
    (req : Dict) (storage : PyVal) :
  (exists e,
     _get_min_max_value_from_expected_metrics float_of_str (VDict req) storage
     = Raise e
     /\ is_config_error e = true)
  <-> (malformed_keys req = true
       \/ (thresholds_none req = true
           /\ exists T, target_value_of float_of_str req storage = Ret T)).
Proof.
  unfold _get_min_max_value_from_expected_metrics, malformed_keys,
    thresholds_none.
  destruct (dict_mem "target_value" req) eqn:Htv,
           (dict_mem "base" req) eqn:Hb,
           (dict_mem "max_diff" req) eqn:Hmd,
           (dict_mem less_key req) eqn:Hl,
           (dict_mem greater_key req) eqn:Hg;
    cbn [negb andb orb];
    try (split; [intros _; left; reflexivity
                | intros _; eexists; split; reflexivity]).
  all: destruct (target_value_of float_of_str req storage) as [T|e0] eqn:HT;
    cbn [bind].
  all: try (split;
            [ intros [e [He Hc]]; inversion He; subst;
              rewrite (target_value_of_error _ _ _ HT) in Hc; discriminate
            | intros [H|[_ [T' H]]]; discriminate ]).
  all: try (destruct (py_float float_of_str (dict_get "max_diff" req))
              as [d|e1] eqn:Hd; cbn [bind];
            [ destruct (negb (0 <=? d)%float);
              (split;
               [ intros [e [He Hc]]; inversion He; subst; discriminate
               | intros [H|[H _]]; discriminate ])
            | split;
              [ intros [e [He Hc]]; inversion He; subst;
                rewrite (py_float_error _ _ Hd) in Hc; discriminate
              | intros [H|[H _]]; discriminate ] ]).
  all: destruct (is_none (dict_get less_key req)
                 && is_none (dict_get greater_key req)) eqn:Hnone;
    [ split; [ intros _; right; split; [reflexivity | exists T; reflexivity]
             | intros _; eexists; split; reflexivity ]
    | split; [| intros [H|[H _]]; discriminate ] ].
  all: intros [e [He Hc]]; exfalso.
  all: destruct (one_side float_of_str greater_key
                   (dict_get greater_key req) (fun d => T + d)%float)
         as [mx|e1] eqn:Hmx; cbn [bind] in He;
    [ destruct (one_side float_of_str less_key
                  (dict_get less_key req) (fun d => T - d)%float)
        as [mn|e2] eqn:Hmn; cbn [bind] in He;
      [ discriminate
      | inversion He; subst;
        rewrite (one_side_error _ _ _ _ (or_introl eq_refl) Hmn) in Hc;
        discriminate ]
    | inversion He; subst;
      rewrite (one_side_error _ _ _ _ (or_intror eq_refl) Hmx) in Hc;
      discriminate ].
Qed.
End RangeProperties.

Lemma symmetric_range_is_inclusive_witness :
  _get_min_max_value_from_expected_metrics no_float_of_str
    (VDict symmetric_requirement) (VDict [])
  = Ret (0.81, Some (0.81 - 0.005), Some (0.81 + 0.005))%float
  /\ (0.81 + 0.005 = 0.8150000000000001)%float
  /\ _compare 0.8150000000000001 "metrics.accuracy.f-measure" 0.81
       (Some (0.81 - 0.005)%float) (Some (0.81 + 0.005)%float)
     = Ret (true, None).
Proof.
  destruct (symmetric_range_is_inclusive no_float_of_str
              symmetric_requirement (VDict []) 0.81 0.005 0.8
              "metrics.accuracy.f-measure"
              eq_refl eq_refl eq_refl eq_refl eq_refl eq_refl eq_refl)
    as [H1 [H2 _]].
  destruct (H2 eq_refl) as [_ [_ [_ H4]]].
  split; [exact H1|]. split; [reflexivity | exact H4].
Defined.

(** C4 as stated fails where the floats leave the numbers:
    [{'target_value': inf, 'max_diff': inf}] is of the symmetric shape with
    a tolerance that is not negative, and its bounds are (NaN, inf); an
    observed value of inf equals the upper bound, yet the comparison does not
    pass: it fails the assertion of [_compare]. *)
Lemma infinite_target_fails_the_assertion :
  (0 <=? infinity)%float = true
  /\ exists mn mx,
       _get_min_max_value_from_expected_metrics no_float_of_str
         (VDict infinite_requirement) (VDict [])
       = Ret (infinity, Some mn, Some mx)
       /\ (infinity =? mx)%float = true
       /\ _compare infinity "metrics.accuracy.f-measure" infinity
            (Some mn) (Some mx)
          = Raise (Exc AssertionError [] None).
Proof.
  split; [reflexivity|].
  eexists. eexists. repeat split; reflexivity.
Qed.

(** C6 as stated fails when both threshold values are [None] and the target
    does not convert: [{'target_value': None, 'max_diff_if_less_threshold':
    None}] has no tolerance shape, yet the conversion fails with the
    [TypeError] of [float(None)], not with the configuration error. *)
Lemma none_target_is_not_a_config_error :
  thresholds_none none_requirement = true
  /\ exists e,
       _get_min_max_value_from_expected_metrics no_float_of_str
         (VDict none_requirement) (VDict [])
       = Raise e
       /\ exc_class e = TypeError
       /\ is_config_error e = false.
Proof.
  split; [reflexivity|].
  eexists. repeat split; reflexivity.
Qed.

(** ** Validator.validate *)

Section ValidateProperties.
Variable float_of_str : string -> option float.

Lemma _compare_failure (obs : float) (addr : string) (T : float)
    (mn mx : option float) (r : option Msg) :
  _compare obs addr T mn mx = Ret (false, r) ->
  exists reason, r = Some reason /\ In (Interp (VStr addr)) reason.
Proof.
  unfold _compare. destruct mn as [mn|], mx as [mx|].
  - destruct (negb ((mn <=? T) && (T <=? mx))%float); [discriminate|].
    destruct ((mn <=? obs) && (obs <=? mx))%float; intros H; inversion H.
    eexists. split; [reflexivity|]. simpl. tauto.
  - destruct (mn <=? obs)%float; intros H; inversion H.
    eexists. split; [reflexivity|]. simpl. tauto.
  - destruct (obs <=? mx)%float; intros H; inversion H.
    eexists. split; [reflexivity|]. simpl. tauto.
  - discriminate.
Qed.

Lemma check_metric_failure (result storage : PyVal) (k : string)
    (req : PyVal) (r : option Msg) :
  check_metric float_of_str result storage k req = Ret (false, r) ->
  exists reason, r = Some reason /\ In (Interp (VStr k)) reason.
Proof.
  unfold check_metric.
  destruct (reraise_as_ValueError _ _) as [obs|e]; [|discriminate].
  cbn [bind].
  destruct (reraise_as_ValueError _ _) as [[[T mn] mx]|e]; [|discriminate].
  cbn [bind]. apply _compare_failure.
Qed.

Lemma join_contains (sep : string) (parts : list Msg) (m : Msg) :
  In m parts -> exists pre post, join sep parts = (pre ++ m ++ post)%list.
Proof.
  induction parts as [|p parts IH]; intros Hin; [contradiction|].
  destruct Hin as [Heq|Hin].
  - subst p. destruct parts as [|q parts].
    + exists [], []. simpl. rewrite app_nil_r. reflexivity.
    + exists [], (Lit sep :: join sep (q :: parts)). reflexivity.
  - destruct (IH Hin) as [pre [post Hj]].
    destruct parts as [|q parts]; [contradiction|].
    exists (p ++ Lit sep :: pre)%list, post.
    change (join sep (p :: q :: parts))
      with (p ++ Lit sep :: join sep (q :: parts))%list.
    rewrite Hj, <- app_assoc. reflexivity.
Qed.

Lemma validate_loop_accumulates (result storage : PyVal) (items : Dict) :
  (forall k req, In (k, req) items ->
     exists out, check_metric float_of_str result storage k req = Ret out) ->
  forall is_passed fail_reasons,
    validate_loop float_of_str result storage items is_passed fail_reasons
    = Ret (is_passed && is_nil (failures float_of_str result storage items),
           (fail_reasons ++ failures float_of_str result storage items)%list).
Proof.
  induction items as [|[k req] items IH]; intros Hok is_passed acc.
  - simpl. rewrite andb_true_r, app_nil_r. reflexivity.
  - destruct (Hok k req (or_introl eq_refl)) as [[passed reason] Hout].
    assert (Hrest : forall k' req', In (k', req') items ->
              exists out,
                check_metric float_of_str result storage k' req' = Ret out)
      by (intros k' req' Hin; apply Hok; right; exact Hin).
    cbn [validate_loop]. rewrite Hout. cbn [bind].
    unfold failures. cbn [flat_map]. unfold failure_of at 1 3.
    cbn [fst snd]. rewrite Hout.
    destruct passed; cbn [negb].
    + rewrite (IH Hrest). reflexivity.
    + rewrite (IH Hrest). unfold append_reason.
      rewrite andb_false_r, <- app_assoc. reflexivity.
Qed.

(** C3. When every expected metric can be compared (none of them stops the
    validation with an error of its own), [validate] compares all of them:
    it returns normally if no comparison failed, and otherwise raises one
    failure whose message is the heading followed by the reasons of all the
    failed comparisons, in order, joined by newlines. The reason of each
    failed metric is in that message, and it names the metric's address. *)
Theorem validate_reports_every_failure
    (v : Validator) (result storage : PyVal) (items : Dict) :
  cur_test_expected_metrics_callback v = Some (Ret (VDict items)) ->
  (forall k req, In (k, req) items ->
     exists out, check_metric float_of_str result storage k req = Ret out) ->
  validate float_of_str v result storage
  = match failures float_of_str result storage items with
    | [] => Ret tt
    | reasons =>
        Raise (Exc Failed
                 (Lit ("Validation failed:" ++ newline)
                  :: join newline (map reason_text reasons)) None)
    end
  /\ forall k req r,
       In (k, req) items ->
       check_metric float_of_str result storage k req = Ret (false, r) ->
       exists reason pre post,
         r = Some reason
         /\ In (Interp (VStr k)) reason
         /\ validate float_of_str v result storage
            = Raise (Exc Failed
                       (Lit ("Validation failed:" ++ newline)
                        :: pre ++ reason ++ post)%list None).
Proof.
  intros Hcb Hok.
  assert (Hval :
    validate float_of_str v result storage
    = match failures float_of_str result storage items with
      | [] => Ret tt
      | reasons => Raise (validation_failed reasons)
      end).
  { unfold validate. rewrite Hcb. cbn [bind].
    rewrite (validate_loop_accumulates result storage items Hok).
    cbn [bind andb].
    destruct (failures float_of_str result storage items); reflexivity. }
  split; [exact Hval|].
  intros k req r Hin Hfail.
  destruct (check_metric_failure _ _ _ _ _ Hfail) as [reason [-> Hk]].
  assert (Hmem : In (Some reason) (failures float_of_str result storage items)).
  { unfold failures. apply in_flat_map. exists (k, req). split; [exact Hin|].
    unfold failure_of. cbn [fst snd]. rewrite Hfail. left. reflexivity. }
  assert (Hmem' : In reason
                    (map reason_text
                       (failures float_of_str result storage items)))
    by (apply in_map_iff; exists (Some reason); split;
        [reflexivity | exact Hmem]).
  destruct (join_contains newline _ _ Hmem') as [pre [post Hj]].
  exists reason, pre, post. split; [reflexivity|]. split; [exact Hk|].
  rewrite Hval.
  destruct (failures float_of_str result storage items) eqn:Hf;
    [contradiction|].
  unfold validation_failed. rewrite Hj. reflexivity.
Qed.
End ValidateProperties.

Lemma validate_reports_every_failure_witness :
  exists msg,
    validate no_float_of_str two_metrics_validator low_result (VDict [])
    = Raise (Exc Failed msg None)
    /\ In (Interp (VStr "metrics.accuracy.f-measure")) msg
    /\ In (Interp (VStr "metrics.accuracy.recall")) msg.
Proof.
  assert (Hok : forall k req, In (k, req) two_expected_metrics ->
            exists out,
              check_metric no_float_of_str low_result (VDict []) k req
              = Ret out).
  { intros k req [H|[H|[]]]; inversion H; subst; eexists; reflexivity. }
  destruct (validate_reports_every_failure no_float_of_str
              two_metrics_validator low_result (VDict [])
              two_expected_metrics eq_refl Hok) as [Hval _].
  eexists. split; [exact Hval|]. split; simpl; tauto.
Defined.

(** C3 as stated fails when a metric cannot be read. Of three expected
    metrics, the first and the third fail their comparison with
    [low_result] and the second is absent from it: [validate] stops at the
    second with the [ValueError] "Cannot get metric", chained from the error
    of the address. This is not the aggregate failure: the failure of the
    first metric is not reported, and the third metric is not compared. *)
Lemma unreadable_metric_hides_the_failures :
  (exists reason,
     check_metric no_float_of_str low_result (VDict [])
       "metrics.accuracy.f-measure"
       (VDict [("target_value", VFloat 0.81); ("max_diff", VFloat 0.005)])
     = Ret (false, Some reason))
  /\ (exists reason,
        check_metric no_float_of_str low_result (VDict [])
          "metrics.accuracy.recall"
          (VDict [("target_value", VFloat 0.9); (less_key, VFloat 0.01)])
        = Ret (false, Some reason))
  /\ exists cause,
       validate no_float_of_str three_metrics_validator low_result (VDict [])
       = Raise (Exc ValueError
                  [Lit "Cannot get metric ";
                   Interp (VStr "metrics.accuracy.precision");
                   Lit " from the current result "; Interp low_result]
                  (Some cause))
       /\ is_address_error cause = true.
Proof.
  split; [eexists; reflexivity|].
  split; [eexists; reflexivity|].
  eexists. split; reflexivity.
Qed.

(** ** OTETestStage.run_once *)

Section StageProperties.
Variable float_of_str : string -> option float.
Variable E : Type.

Implicit Types (w : World E) (s : OTETestStage E) (v : option Validator).

Lemma stage_induction (P : OTETestStage E -> Prop) :
  (forall ref a deps, Forall P deps -> P (Stage ref a deps)) ->
  forall s, P s.
Proof.
  intros H. fix IH 1. intros [ref a deps]. apply H.
  induction deps as [|d deps IHdeps]; constructor; [apply IH | exact IHdeps].
Qed.

Lemma run_once_eq (ref : nat) (a : BaseOTETestAction E)
    (deps : list (OTETestStage E)) v w :
  run_once float_of_str (Stage ref a deps) v w
  = match run_dependencies float_of_str deps w with
    | (w', Raise e) => (w', Raise e)
    | (w', Ret _) => run_own float_of_str ref a v w'
    end.
Proof. reflexivity. Qed.

Lemma run_dependencies_cons (d : OTETestStage E)
    (deps : list (OTETestStage E)) w :
  run_dependencies float_of_str (d :: deps) w
  = match run_once float_of_str d None w with
    | (w', Ret _) => run_dependencies float_of_str deps w'
    | (w', Raise e) => (w', Raise e)
    end.
Proof. reflexivity. Qed.

Lemma calls_of_app (ref : nat) (l1 l2 : list Event) :
  calls_of ref (l1 ++ l2) = calls_of ref l1 + calls_of ref l2.
Proof.
  unfold calls_of. rewrite filter_app, length_app. reflexivity.
Qed.

Lemma extends_refl w : extends w w.
Proof. intros ref _. split; reflexivity. Qed.

Lemma extends_trans w1 w2 w3 :
  extends w1 w2 -> extends w2 w3 -> extends w1 w3.
Proof.
  intros H12 H23 ref Hp.
  destruct (H12 ref Hp) as [Hs Hc].
  assert (Hp2 : processed w2 ref) by (unfold processed; rewrite Hs; exact Hp).
  destruct (H23 ref Hp2) as [Hs' Hc'].
  split; congruence.
Qed.

Lemma _run_validation_state (ref : nat) (a : BaseOTETestAction E) v w :
  stage_state (fst (_run_validation float_of_str ref a v w)) = stage_state w
  /\ test_results_storage (fst (_run_validation float_of_str ref a v w))
     = test_results_storage w
  /\ ext (fst (_run_validation float_of_str ref a v w)) = ext w
  /\ forall r, calls_of r (log (fst (_run_validation float_of_str ref a v w)))
               = calls_of r (log w).
Proof.
  unfold _run_validation.
  destruct (negb (with_validation a)); [repeat split|].
  destruct v as [vd|]; [|repeat split].
  repeat split. intros r. cbn [fst log log_event].
  rewrite calls_of_app. cbn. lia.
Qed.

Lemma update_same {A : Type} (ref : nat) (a : A) (heap : nat -> A) :
  update ref a heap ref = a.
Proof. unfold update. rewrite Nat.eqb_refl. reflexivity. Qed.

Lemma update_other {A : Type} (ref r : nat) (a : A) (heap : nat -> A) :
  r <> ref -> update ref a heap r = heap r.
Proof.
  intros H. unfold update. apply Nat.eqb_neq in H. rewrite H. reflexivity.
Qed.

Lemma calls_of_other (ref r : nat) (events : list Event) :
  r <> ref ->
  calls_of r (events ++ [ActionCalled ref]) = calls_of r events.
Proof.
  intros H. rewrite calls_of_app. simpl.
  assert (Hne : Nat.eqb ref r = false) by (apply Nat.eqb_neq; congruence).
  unfold calls_of. simpl. rewrite Hne. simpl. lia.
Qed.

Lemma run_own_extends (ref : nat) (a : BaseOTETestAction E) v w :
  extends w (fst (run_own float_of_str ref a v w)).
Proof.
  intros r Hp. unfold processed in Hp. unfold run_own.
  destruct (was_processed (stage_state w ref)) eqn:Hproc.
  - destruct (stored_exception (stage_state w ref)).
    + split; reflexivity.
    + destruct (_run_validation_state ref a v w) as [Hs [_ [_ Hc]]].
      rewrite Hs, Hc. split; reflexivity.
  - assert (Hne : r <> ref) by (intros ->; congruence).
    destruct (dict_mem (name a) (test_results_storage w));
      [split; reflexivity|].
    cbn [log_event test_results_storage ext log stage_state].
    destruct (call a (Some (test_results_storage w)) (ext w)) as [x [res|e]].
    + match goal with
      | |- context [_run_validation float_of_str ref a v ?w0] =>
          destruct (_run_validation_state ref a v w0) as [Hs [_ [_ Hc]]]
      end.
      rewrite Hs, Hc. simpl. rewrite update_other by exact Hne.
      rewrite calls_of_other by exact Hne. split; reflexivity.
    + destruct (is_Exception e); simpl.
      * rewrite update_other by exact Hne.
        rewrite calls_of_other by exact Hne. split; reflexivity.
      * rewrite calls_of_other by exact Hne. split; reflexivity.
Qed.

Lemma run_dependencies_extends (deps : list (OTETestStage E)) :
  Forall (fun d => forall v w, extends w (fst (run_once float_of_str d v w)))
    deps ->
  forall w, extends w (fst (run_dependencies float_of_str deps w)).
Proof.
  induction 1 as [|d deps Hd _ IH]; intros w.
  - apply extends_refl.
  - rewrite run_dependencies_cons.
    pose proof (Hd None w) as H1.
    destruct (run_once float_of_str d None w) as [w' [[]|e]]; simpl in *.
    + eapply extends_trans; [exact H1 | apply IH].
    + exact H1.
Qed.

Lemma run_once_extends s :
  forall v w, extends w (fst (run_once float_of_str s v w)).
Proof.
  induction s as [ref a deps IH] using stage_induction. intros v w.
  rewrite run_once_eq.
  pose proof (run_dependencies_extends deps IH w) as Hdeps.
  destruct (run_dependencies float_of_str deps w) as [w' [[]|e]];
    simpl in *.
  - eapply extends_trans; [exact Hdeps | apply run_own_extends].
  - exact Hdeps.
Qed.

Lemma later_extends w w' : later float_of_str w w' -> extends w w'.
Proof.
  induction 1 as [|w' s v _ IH|w' storage x _ IH].
  - apply extends_refl.
  - eapply extends_trans; [exact IH | apply run_once_extends].
  - intros ref Hp. apply (IH ref Hp).
Qed.

Lemma fresh_world_clean (x : E) : clean (fresh_world x).
Proof. intros ref _. reflexivity. Qed.

Lemma run_own_clean (ref : nat) (a : BaseOTETestAction E) v w :
  clean w -> clean (fst (run_own float_of_str ref a v w)).
Proof.
  intros Hclean r. unfold run_own.
  destruct (was_processed (stage_state w ref)) eqn:Hproc.
  - destruct (stored_exception (stage_state w ref)).
    + apply Hclean.
    + destruct (_run_validation_state ref a v w) as [Hs _].
      rewrite Hs. apply Hclean.
  - destruct (dict_mem (name a) (test_results_storage w)); [apply Hclean|].
    cbn [log_event test_results_storage ext log stage_state].
    destruct (call a (Some (test_results_storage w)) (ext w)) as [x [res|e]].
    + match goal with
      | |- context [_run_validation float_of_str ref a v ?w0] =>
          destruct (_run_validation_state ref a v w0) as [Hs _]
      end.
      rewrite Hs. cbn [stage_state]. unfold update.
      destruct (Nat.eqb r ref); [discriminate | apply Hclean].
    + destruct (is_Exception e); cbn [fst stage_state]; [|apply Hclean].
      unfold update. destruct (Nat.eqb r ref); [discriminate | apply Hclean].
Qed.

Lemma run_dependencies_clean (deps : list (OTETestStage E)) :
  Forall (fun d => forall v w,
            clean w -> clean (fst (run_once float_of_str d v w))) deps ->
  forall w, clean w -> clean (fst (run_dependencies float_of_str deps w)).
Proof.
  induction 1 as [|d deps Hd _ IH]; intros w Hclean.
  - exact Hclean.
  - rewrite run_dependencies_cons.
    pose proof (Hd None w Hclean) as H1.
    destruct (run_once float_of_str d None w) as [w' [[]|e]]; simpl in *.
    + apply IH, H1.
    + exact H1.
Qed.

Lemma run_once_clean s :
  forall v w, clean w -> clean (fst (run_once float_of_str s v w)).
Proof.
  induction s as [ref a deps IH] using stage_induction. intros v w Hclean.
  rewrite run_once_eq.
  pose proof (run_dependencies_clean deps IH w Hclean) as Hdeps.
  destruct (run_dependencies float_of_str deps w) as [w' [[]|e]];
    simpl in *.
  - apply run_own_clean, Hdeps.
  - exact Hdeps.
Qed.

Lemma settled_eq (ref : nat) (a : BaseOTETestAction E)
    (deps : list (OTETestStage E)) (state : nat -> StageState) :
  settled state (Stage ref a deps) = true
  <-> (was_processed (state ref) = true
       /\ stored_exception (state ref) = None
       /\ forallb (settled state) deps = true).
Proof.
  cbn [settled]. rewrite !andb_true_iff.
  destruct (stored_exception (state ref)); split; intros H;
    repeat split; try tauto; try (destruct H as [_ [H _]]; discriminate H).
  destruct H as [[_ H] _]. discriminate H.
Qed.

Lemma settled_extends s :
  forall w w',
    extends w w' ->
    settled (stage_state w) s = true -> settled (stage_state w') s = true.
Proof.
  induction s as [ref a deps IH] using stage_induction.
  intros w w' Hext Hs. apply settled_eq in Hs. destruct Hs as [Hp [He Hd]].
  apply settled_eq. destruct (Hext ref Hp) as [Hst _]. rewrite Hst.
  repeat split; try assumption.
  rewrite forallb_forall in *. rewrite Forall_forall in IH.
  intros d Hin. apply (IH d Hin w w' Hext), Hd, Hin.
Qed.

Lemma run_own_ret_succeeded (ref : nat) (a : BaseOTETestAction E) v w w' :
  clean w ->
  run_own float_of_str ref a v w = (w', Ret tt) ->
  succeeded w' ref.
Proof.
  intros Hclean. unfold run_own, succeeded.
  destruct (was_processed (stage_state w ref)) eqn:Hproc.
  - destruct (stored_exception (stage_state w ref)) eqn:Hexc;
      [discriminate|].
    intros H. destruct (_run_validation_state ref a v w) as [Hs _].
    rewrite H in Hs. cbn [fst] in Hs. rewrite Hs. split; assumption.
  - destruct (dict_mem (name a) (test_results_storage w)); [discriminate|].
    cbn [log_event test_results_storage ext log stage_state].
    destruct (call a (Some (test_results_storage w)) (ext w)) as [x [res|e]].
    + intros H.
      match type of H with
      | _run_validation float_of_str ref a v ?w0 = _ =>
          destruct (_run_validation_state ref a v w0) as [Hs _]
      end.
      rewrite H in Hs. cbn [fst stage_state] in Hs. rewrite Hs.
      rewrite update_same. cbn. split; [reflexivity | apply Hclean, Hproc].
    + destruct (is_Exception e); discriminate.
Qed.

Lemma run_dependencies_ret_settled (deps : list (OTETestStage E)) :
  Forall (fun d => forall v w w',
            clean w ->
            run_once float_of_str d v w = (w', Ret tt) ->
            settled (stage_state w') d = true) deps ->
  forall w w',
    clean w ->
    run_dependencies float_of_str deps w = (w', Ret tt) ->
    forallb (settled (stage_state w')) deps = true.
Proof.
  induction 1 as [|d deps Hd _ IH]; intros w w' Hclean Hrun.
  - reflexivity.
  - rewrite run_dependencies_cons in Hrun.
    destruct (run_once float_of_str d None w) as [w1 [[]|e]] eqn:Hd1;
      [|discriminate].
    cbn [forallb]. apply andb_true_iff. split.
    + apply (settled_extends d w1 w').
      * replace w' with (fst (run_dependencies float_of_str deps w1))
          by (rewrite Hrun; reflexivity).
        apply run_dependencies_extends.
        apply Forall_forall. intros d' _ v0 w0. apply run_once_extends.
      * apply (Hd None w w1 Hclean Hd1).
    + apply (IH w1 w'); [|exact Hrun].
      replace w1 with (fst (run_once float_of_str d None w))
        by (rewrite Hd1; reflexivity).
      apply run_once_clean, Hclean.
Qed.

Lemma run_once_ret_settled s :
  forall v w w',
    clean w ->
    run_once float_of_str s v w = (w', Ret tt) ->
    settled (stage_state w') s = true.
Proof.
  induction s as [ref a deps IH] using stage_induction.
  intros v w w' Hclean Hrun. rewrite run_once_eq in Hrun.
  destruct (run_dependencies float_of_str deps w) as [wd [[]|e]] eqn:Hdeps;
    [|discriminate].
  assert (Hcd : clean wd).
  { replace wd with (fst (run_dependencies float_of_str deps w))
      by (rewrite Hdeps; reflexivity).
    apply run_dependencies_clean; [|exact Hclean].
    apply Forall_forall. intros d _ v0 w0. apply run_once_clean. }
  destruct (run_own_ret_succeeded ref a v wd w' Hcd Hrun) as [Hp He].
  apply settled_eq. repeat split; try assumption.
  pose proof (run_dependencies_ret_settled deps IH w wd Hclean Hdeps) as Hs.
  rewrite forallb_forall in *. intros d Hin.
  apply (settled_extends d wd w'); [|apply Hs, Hin].
  replace w' with (fst (run_own float_of_str ref a v wd))
    by (rewrite Hrun; reflexivity).
  apply run_own_extends.
Qed.

Lemma dependencies_settled (deps : list (OTETestStage E)) w w' :
  clean w ->
  run_dependencies float_of_str deps w = (w', Ret tt) ->
  forallb (settled (stage_state w')) deps = true.
Proof.
  apply run_dependencies_ret_settled.
  apply Forall_forall. intros d _. apply run_once_ret_settled.
Qed.

Lemma settled_replays s :
  forall w,
    settled (stage_state w) s = true ->
    run_once float_of_str s None w = (w, Ret tt).
Proof.
  induction s as [ref a deps IH] using stage_induction.
  intros w Hs. apply settled_eq in Hs. destruct Hs as [Hp [He Hd]].
  rewrite run_once_eq.
  assert (Hdeps : run_dependencies float_of_str deps w = (w, Ret tt)).
  { clear Hp He. induction deps as [|d deps IHd]; [reflexivity|].
    cbn [forallb] in Hd. apply andb_true_iff in Hd. destruct Hd as [H1 H2].
    rewrite run_dependencies_cons.
    rewrite (Forall_inv IH w H1). apply IHd; [|exact H2].
    apply (Forall_inv_tail IH). }
  rewrite Hdeps. unfold run_own. rewrite Hp, He.
  unfold _run_validation. destruct (negb (with_validation a)); reflexivity.
Qed.

Lemma dependencies_replay (deps : list (OTETestStage E)) w :
  forallb (settled (stage_state w)) deps = true ->
  run_dependencies float_of_str deps w = (w, Ret tt).
Proof.
  induction deps as [|d deps IH]; intros Hd; [reflexivity|].
  cbn [forallb] in Hd. apply andb_true_iff in Hd. destruct Hd as [H1 H2].
  rewrite run_dependencies_cons, (settled_replays d w H1). apply IH, H2.
Qed.

Lemma run_own_success (ref : nat) (a : BaseOTETestAction E) v w
    (x : E) (results : PyVal) :
  was_processed (stage_state w ref) = false ->
  dict_mem (name a) (test_results_storage w) = false ->
  call a (Some (test_results_storage w)) (ext w) = (x, Ret results) ->
  run_own float_of_str ref a v w
  = _run_validation float_of_str ref a v (after_success ref a results x w).
Proof.
  intros Hnp Hname Hcall. unfold run_own. rewrite Hnp, Hname.
  cbn [log_event test_results_storage ext log stage_state].
  rewrite Hcall. reflexivity.
Qed.

Lemma run_own_failure (ref : nat) (a : BaseOTETestAction E) v w
    (x : E) (e : PyExc) :
  was_processed (stage_state w ref) = false ->
  dict_mem (name a) (test_results_storage w) = false ->
  call a (Some (test_results_storage w)) (ext w) = (x, Raise e) ->
  is_Exception e = true ->
  run_own float_of_str ref a v w = (after_failure ref e x w, Raise e).
Proof.
  intros Hnp Hname Hcall Hexc. unfold run_own. rewrite Hnp, Hname.
  cbn [log_event test_results_storage ext log stage_state].
  rewrite Hcall, Hexc. reflexivity.
Qed.

Lemma calls_of_own (ref : nat) (events : list Event) :
  calls_of ref (events ++ [ActionCalled ref]) = calls_of ref events + 1.
Proof.
  rewrite calls_of_app. unfold calls_of at 2. cbn. rewrite Nat.eqb_refl.
  reflexivity.
Qed.

Lemma replay (ref : nat) (a : BaseOTETestAction E)
    (deps : list (OTETestStage E)) w1 w2 v :
  processed w1 ref ->
  forallb (settled (stage_state w1)) deps = true ->
  later float_of_str w1 w2 ->
  run_once float_of_str (Stage ref a deps) v w2
  = run_own float_of_str ref a v w2
  /\ stage_state w2 ref = stage_state w1 ref
  /\ calls_of ref (log w2) = calls_of ref (log w1).
Proof.
  intros Hp Hs Hlater. pose proof (later_extends _ _ Hlater) as Hext.
  destruct (Hext ref Hp) as [Hst Hc]. repeat split; try assumption.
  rewrite run_once_eq, dependencies_replay; [reflexivity|].
  rewrite forallb_forall in *. intros d Hin.
  apply (settled_extends d w1 w2 Hext), Hs, Hin.
Qed.

Lemma dependencies_clean (deps : list (OTETestStage E)) w w' (r : Res unit) :
  clean w -> run_dependencies float_of_str deps w = (w', r) -> clean w'.
Proof.
  intros Hclean Hrun.
  replace w' with (fst (run_dependencies float_of_str deps w))
    by (rewrite Hrun; reflexivity).
  apply run_dependencies_clean; [|exact Hclean].
  apply Forall_forall. intros d _ v0 w0. apply run_once_clean.
Qed.

(** C1, as the code has it. Take a call of [run_once] that gets to the
    action: the stages it depends on have run without an exception, the
    stage was not processed, and its name is not in the storage. It calls
    the action once. If the action returns a result or raises an
    [Exception], the stage is from then on succeeded with that result, or
    failed with that exception, which the call raises. In every later
    world the action has not been called again and the attributes of the
    stage are the same; a later [run_once] on the stage does not call the
    action: after a failure it raises the stored exception, after a
    success it goes to the validation with the cached result. *)
Theorem action_runs_once_then_replays
    (ref : nat) (a : BaseOTETestAction E) (deps : list (OTETestStage E))
    v w wd (x : E) (outcome : Res PyVal) :
  clean w ->
  run_dependencies float_of_str deps w = (wd, Ret tt) ->
  was_processed (stage_state wd ref) = false ->
  dict_mem (name a) (test_results_storage wd) = false ->
  call a (Some (test_results_storage wd)) (ext wd) = (x, outcome) ->
  (forall e, outcome = Raise e -> is_Exception e = true) ->
  let self := Stage ref a deps in
  let w1 := fst (run_once float_of_str self v w) in
  calls_of ref (log w1) = calls_of ref (log wd) + 1
  /\ match outcome with
     | Ret results =>
         succeeded w1 ref /\ stage_results (stage_state w1 ref) = results
     | Raise e =>
         failed_with w1 ref e
         /\ snd (run_once float_of_str self v w) = Raise e
     end
  /\ forall w2 v',
       later float_of_str w1 w2 ->
       let r2 := run_once float_of_str self v' w2 in
       calls_of ref (log w2) = calls_of ref (log w1)
       /\ calls_of ref (log (fst r2)) = calls_of ref (log w1)
       /\ stage_state (fst r2) ref = stage_state w1 ref
       /\ match outcome with
          | Ret results =>
              r2 = _run_validation float_of_str ref a v' w2
              /\ stage_results (stage_state (fst r2) ref) = results
          | Raise e => r2 = (w2, Raise e)
          end.
Proof.
  intros Hclean Hdeps Hnp Hname Hcall Hexc self w1.
  pose proof (dependencies_clean deps w wd _ Hclean Hdeps) as Hcd.
  pose proof (dependencies_settled deps w wd Hclean Hdeps) as Hsd.
  assert (Hrun : run_once float_of_str self v w
                 = run_own float_of_str ref a v wd)
    by (unfold self; rewrite run_once_eq, Hdeps; reflexivity).
  assert (Hs1 : forallb (settled (stage_state w1)) deps = true).
  { rewrite forallb_forall in *. intros d Hin.
    apply (settled_extends d wd w1); [|apply Hsd, Hin].
    unfold w1. rewrite Hrun. apply run_own_extends. }
  destruct outcome as [results|e].
  - rewrite (run_own_success ref a v wd x results Hnp Hname Hcall) in Hrun.
    destruct (_run_validation_state ref a v
                (after_success ref a results x wd)) as [Hst [_ [_ Hc]]].
    assert (Hstate : stage_state w1 ref
                     = {| was_processed := true;
                          stored_exception := None;
                          stage_results := results |}).
    { unfold w1. rewrite Hrun, Hst. cbn [after_success stage_state].
      rewrite update_same, (Hcd ref Hnp). reflexivity. }
    assert (Hcalls : calls_of ref (log w1) = calls_of ref (log wd) + 1).
    { unfold w1. rewrite Hrun, Hc. cbn [after_success log].
      apply calls_of_own. }
    split; [exact Hcalls|]. split.
    + unfold succeeded. rewrite Hstate. repeat split.
    + intros w2 v' Hlater r2.
      assert (Hp : processed w1 ref)
        by (unfold processed; rewrite Hstate; reflexivity).
      destruct (replay ref a deps w1 w2 v' Hp Hs1 Hlater) as [Hr [Hst2 Hc2]].
      assert (Hr2 : r2 = _run_validation float_of_str ref a v' w2).
      { unfold r2, self. rewrite Hr. unfold run_own.
        rewrite Hst2, Hstate. reflexivity. }
      destruct (_run_validation_state ref a v' w2) as [Hst3 [_ [_ Hc3]]].
      rewrite Hr2, Hst3, Hc3, Hst2, Hstate.
      repeat split; assumption || reflexivity.
  - pose proof (Hexc e eq_refl) as He.
    rewrite (run_own_failure ref a v wd x e Hnp Hname Hcall He) in Hrun.
    assert (Hstate : stage_state w1 ref
                     = {| was_processed := true;
                          stored_exception := Some e;
                          stage_results := stage_results (stage_state wd ref) |}).
    { unfold w1. rewrite Hrun. cbn [fst after_failure stage_state].
      apply update_same. }
    split; [unfold w1; rewrite Hrun; apply calls_of_own|]. split.
    + split; [|rewrite Hrun; reflexivity].
      unfold failed_with. rewrite Hstate. split; reflexivity.
    + intros w2 v' Hlater r2.
      assert (Hp : processed w1 ref)
        by (unfold processed; rewrite Hstate; reflexivity).
      destruct (replay ref a deps w1 w2 v' Hp Hs1 Hlater) as [Hr [Hst2 Hc2]].
      assert (Hr2 : r2 = (w2, Raise e)).
      { unfold r2, self. rewrite Hr. unfold run_own.
        rewrite Hst2, Hstate. reflexivity. }
      rewrite Hr2. cbn [fst]. repeat split; assumption.
Qed.

Lemma dict_mem_set_same {V : Type} (k : string) (x : V)
    (d : list (string * V)) :
  dict_mem k (dict_set k x d) = true.
Proof.
  induction d as [|[k' x'] d IH]; cbn.
  - rewrite String.eqb_refl. reflexivity.
  - destruct (String.eqb k k') eqn:Hk; cbn; rewrite Hk; auto.
Qed.

Lemma dict_mem_set_other {V : Type} (k k' : string) (x : V)
    (d : list (string * V)) :
  k' <> k -> dict_mem k' (dict_set k x d) = dict_mem k' d.
Proof.
  intros Hne. induction d as [|[k0 x0] d IH]; cbn.
  - apply String.eqb_neq in Hne. rewrite Hne. reflexivity.
  - destruct (String.eqb k k0) eqn:Hk; cbn.
    + reflexivity.
    + rewrite IH. reflexivity.
Qed.

Lemma dict_lookup_set_same {V : Type} (k : string) (x : V)
    (d : list (string * V)) :
  dict_lookup k (dict_set k x d) = Some x.
Proof.
  induction d as [|[k' x'] d IH]; cbn.
  - rewrite String.eqb_refl. reflexivity.
  - destruct (String.eqb k k') eqn:Hk; cbn; rewrite Hk; auto.
Qed.

(** C10. When the action of a stage returns and the validation that
    follows raises, [run_once] raises the failure of the validation, yet
    the stage is succeeded (processed, no stored exception), with its
    result in [stage_results] and under its name in the storage. A later
    [run_once] on the stage does not call the action and keeps the stage
    succeeded with the same result: without a validator it returns, with
    one it runs the validation again on the cached result and gives what
    that validation gives. *)
Theorem validation_failure_keeps_stage_succeeded
    (ref : nat) (a : BaseOTETestAction E) (deps : list (OTETestStage E))
    w wd (x : E) (results : PyVal) (vd : Validator) (ev : PyExc) :
  clean w ->
  run_dependencies float_of_str deps w = (wd, Ret tt) ->
  was_processed (stage_state wd ref) = false ->
  dict_mem (name a) (test_results_storage wd) = false ->
  call a (Some (test_results_storage wd)) (ext wd) = (x, Ret results) ->
  with_validation a = true ->
  validate float_of_str vd results
    (VDict (dict_set (name a) results (test_results_storage wd)))
  = Raise ev ->
  let self := Stage ref a deps in
  let r1 := run_once float_of_str self (Some vd) w in
  snd r1 = Raise ev
  /\ succeeded (fst r1) ref
  /\ stage_results (stage_state (fst r1) ref) = results
  /\ dict_lookup (name a) (test_results_storage (fst r1)) = Some results
  /\ forall w2 v',
       later float_of_str (fst r1) w2 ->
       let r2 := run_once float_of_str self v' w2 in
       calls_of ref (log (fst r2)) = calls_of ref (log (fst r1))
       /\ succeeded (fst r2) ref
       /\ stage_results (stage_state (fst r2) ref) = results
       /\ match v' with
          | None => r2 = (w2, Ret tt)
          | Some vd' =>
              r2 = (log_event (ValidateCalled ref) w2,
                    validate float_of_str vd' results
                      (VDict (test_results_storage w2)))
          end.
Proof.
  intros Hclean Hdeps Hnp Hname Hcall Hwv Hval self r1.
  pose proof (dependencies_clean deps w wd _ Hclean Hdeps) as Hcd.
  pose proof (dependencies_settled deps w wd Hclean Hdeps) as Hsd.
  assert (Hrun : r1 = _run_validation float_of_str ref a (Some vd)
                        (after_success ref a results x wd)).
  { unfold r1, self. rewrite run_once_eq, Hdeps.
    apply run_own_success; assumption. }
  assert (Hr1 : r1 = (log_event (ValidateCalled ref)
                        (after_success ref a results x wd), Raise ev)).
  { rewrite Hrun. unfold _run_validation. rewrite Hwv. cbn [negb].
    cbn [after_success stage_state test_results_storage].
    rewrite update_same. cbn [stage_results]. rewrite Hval. reflexivity. }
  assert (Hstate : stage_state (fst r1) ref
                   = {| was_processed := true;
                        stored_exception := None;
                        stage_results := results |}).
  { rewrite Hr1. cbn [fst log_event after_success stage_state].
    rewrite update_same, (Hcd ref Hnp). reflexivity. }
  assert (Hs1 : forallb (settled (stage_state (fst r1))) deps = true).
  { rewrite forallb_forall in *. intros d Hin.
    apply (settled_extends d wd (fst r1)); [|apply Hsd, Hin].
    replace r1 with (run_own float_of_str ref a (Some vd) wd).
    - apply run_own_extends.
    - rewrite Hrun. apply run_own_success; assumption. }
  split; [rewrite Hr1; reflexivity|].
  split; [unfold succeeded; rewrite Hstate; split; reflexivity|].
  split; [rewrite Hstate; reflexivity|].
  split.
  { rewrite Hr1. cbn [fst log_event after_success test_results_storage].
    apply dict_lookup_set_same. }
  intros w2 v' Hlater r2.
  assert (Hp : processed (fst r1) ref)
    by (unfold processed; rewrite Hstate; reflexivity).
  destruct (replay ref a deps (fst r1) w2 v' Hp Hs1 Hlater)
    as [Hr [Hst2 Hc2]].
  assert (Hr2 : r2 = _run_validation float_of_str ref a v' w2).
  { unfold r2, self. rewrite Hr. unfold run_own.
    rewrite Hst2, Hstate. reflexivity. }
  destruct (_run_validation_state ref a v' w2) as [Hst3 [_ [_ Hc3]]].
  rewrite <- Hr2 in Hst3, Hc3.
  split; [rewrite Hc3; exact Hc2|].
  split; [unfold succeeded; rewrite Hst3, Hst2, Hstate; split; reflexivity|].
  split; [rewrite Hst3, Hst2, Hstate; reflexivity|].
  rewrite Hr2. unfold _run_validation. rewrite Hwv. cbn [negb].
  destruct v' as [vd'|]; [|reflexivity].
  rewrite Hst2, Hstate. reflexivity.
Qed.

Lemma nodes_self s : In s (nodes s).
Proof. destruct s. left. reflexivity. Qed.

Lemma nodes_dependency (ref : nat) (a : BaseOTETestAction E)
    (deps : list (OTETestStage E)) (d : OTETestStage E) :
  In d deps -> In d (nodes (Stage ref a deps)).
Proof.
  intros Hin. right. apply in_flat_map. exists d. split; [exact Hin|].
  apply nodes_self.
Qed.

Lemma nodes_trans (root : OTETestStage E) :
  forall t d, In t (nodes root) -> In d (nodes t) -> In d (nodes root).
Proof.
  induction root as [ref a deps IH] using stage_induction.
  intros t d [Ht|Ht] Hd.
  - subst t. exact Hd.
  - right. apply in_flat_map in Ht. destruct Ht as [dep [Hdep Ht]].
    apply in_flat_map. exists dep. split; [exact Hdep|].
    rewrite Forall_forall in IH. apply (IH dep Hdep t d Ht Hd).
Qed.

Lemma run_own_matches (root : OTETestStage E) (ref : nat)
    (a : BaseOTETestAction E) (deps : list (OTETestStage E)) v w :
  unique_names root ->
  In (Stage ref a deps) (nodes root) ->
  clean w ->
  store_matches root w ->
  store_matches root (fst (run_own float_of_str ref a v w)).
Proof.
  intros Huniq Hself Hclean Hm. unfold run_own.
  destruct (was_processed (stage_state w ref)) eqn:Hproc.
  - destruct (stored_exception (stage_state w ref)); [exact Hm|].
    destruct (_run_validation_state ref a v w) as [Hs [Ht _]].
    intros s' Hin. unfold succeeded. rewrite Hs, Ht. apply Hm, Hin.
  - destruct (dict_mem (name a) (test_results_storage w)) eqn:Hname;
      [exact Hm|].
    cbn [log_event test_results_storage ext log stage_state].
    destruct (call a (Some (test_results_storage w)) (ext w)) as [x [res|e]].
    + match goal with
      | |- context [_run_validation float_of_str ref a v ?w0] =>
          destruct (_run_validation_state ref a v w0) as [Hs [Ht _]]
      end.
      intros s' Hin. unfold succeeded. rewrite Hs, Ht.
      cbn [stage_state test_results_storage].
      destruct (Nat.eq_dec (stage_ref s') ref) as [Heq|Hne].
      * assert (Hn : stage_name s' = name a)
          by (apply (Huniq s' (Stage ref a deps) Hin Hself); exact Heq).
        rewrite Hn, Heq, dict_mem_set_same, update_same. cbn.
        rewrite (Hclean ref Hproc). tauto.
      * assert (Hn : stage_name s' <> name a).
        { intros Hn. apply Hne.
          apply (Huniq s' (Stage ref a deps) Hin Hself). exact Hn. }
        rewrite dict_mem_set_other by exact Hn.
        rewrite update_other by exact Hne. apply Hm, Hin.
    + destruct (is_Exception e); cbn [fst].
      * intros s' Hin. unfold succeeded.
        cbn [stage_state test_results_storage].
        destruct (Nat.eq_dec (stage_ref s') ref) as [Heq|Hne].
        -- assert (Hn : stage_name s' = name a)
             by (apply (Huniq s' (Stage ref a deps) Hin Hself); exact Heq).
           rewrite Hn, Heq, Hname, update_same. cbn.
           split; [discriminate | intros [_ H]; discriminate H].
        -- rewrite update_other by exact Hne. apply Hm, Hin.
      * exact Hm.
Qed.

Lemma run_once_matches (root : OTETestStage E) s :
  unique_names root ->
  forall v w,
    In s (nodes root) ->
    clean w -> store_matches root w ->
    clean (fst (run_once float_of_str s v w))
    /\ store_matches root (fst (run_once float_of_str s v w)).
Proof.
  intros Huniq.
  induction s as [ref a deps IH] using stage_induction.
  intros v w Hin Hclean Hm. split; [apply run_once_clean, Hclean|].
  rewrite run_once_eq.
  assert (Hdeps : forall w0,
            clean w0 -> store_matches root w0 ->
            clean (fst (run_dependencies float_of_str deps w0))
            /\ store_matches root
                 (fst (run_dependencies float_of_str deps w0))).
  { assert (Hsub : forall d, In d deps -> In d (nodes root)).
    { intros d Hd. apply (nodes_trans root (Stage ref a deps) d Hin).
      apply nodes_dependency, Hd. }
    clear Hin. induction deps as [|d deps IHd]; intros w0 Hc0 Hm0.
    - split; assumption.
    - rewrite run_dependencies_cons.
      destruct (Forall_inv IH None w0 (Hsub d (or_introl eq_refl)) Hc0 Hm0)
        as [Hc1 Hm1].
      destruct (run_once float_of_str d None w0) as [w1 [[]|e]];
        cbn [fst] in *.
      + apply IHd; try assumption.
        * apply (Forall_inv_tail IH).
        * intros d' Hd'. apply Hsub. right. exact Hd'.
      + split; assumption. }
  destruct (Hdeps w Hclean Hm) as [Hc1 Hm1].
  destruct (run_dependencies float_of_str deps w) as [wd [[]|e]];
    cbn [fst] in *.
  - apply (run_own_matches root ref a deps); assumption.
  - exact Hm1.
Qed.

Lemma reached_matches (root : OTETestStage E) w :
  unique_names root ->
  reached float_of_str root w -> clean w /\ store_matches root w.
Proof.
  intros Huniq. induction 1 as [x|w s v _ [Hc Hm] Hin|w x _ [Hc Hm]].
  - split; [apply fresh_world_clean|].
    intros s _. unfold succeeded. cbn. split; [discriminate|].
    intros [H _]. discriminate H.
  - apply run_once_matches; assumption.
  - split; [exact Hc | exact Hm].
Qed.

Lemma run_own_uncaught (ref : nat) (a : BaseOTETestAction E) v w
    (x : E) (e : PyExc) :
  was_processed (stage_state w ref) = false ->
  dict_mem (name a) (test_results_storage w) = false ->
  call a (Some (test_results_storage w)) (ext w) = (x, Raise e) ->
  is_Exception e = false ->
  run_own float_of_str ref a v w
  = ({| stage_state := stage_state w;
        test_results_storage := test_results_storage w;
        ext := x;
        log := (log w ++ [ActionCalled ref])%list |},
     Raise e).
Proof.
  intros Hnp Hname Hcall Hexc. unfold run_own. rewrite Hnp, Hname.
  cbn [log_event test_results_storage ext log stage_state].
  rewrite Hcall, Hexc. reflexivity.
Qed.

(** C7, as the code has it. When the action of a stage raises, the storage
    is as the action found it, without an entry of the stage's name, and
    [run_once] raises what the action raised; when what it raised is an
    [Exception], the stage is processed and failed, with this exception
    stored. And in every world a test case goes through, stage names being
    unique, the name of a stage is in the storage if and only if the stage
    succeeded. *)
Theorem failed_action_stores_nothing :
  (forall (ref : nat) (a : BaseOTETestAction E)
          (deps : list (OTETestStage E)) v w wd (x : E) (e : PyExc),
     run_dependencies float_of_str deps w = (wd, Ret tt) ->
     was_processed (stage_state wd ref) = false ->
     dict_mem (name a) (test_results_storage wd) = false ->
     call a (Some (test_results_storage wd)) (ext wd) = (x, Raise e) ->
     let r1 := run_once float_of_str (Stage ref a deps) v w in
     test_results_storage (fst r1) = test_results_storage wd
     /\ dict_mem (name a) (test_results_storage (fst r1)) = false
     /\ snd r1 = Raise e
     /\ (is_Exception e = true -> failed_with (fst r1) ref e))
  /\ (forall (root : OTETestStage E) w s,
        unique_names root ->
        reached float_of_str root w ->
        In s (nodes root) ->
        (dict_mem (stage_name s) (test_results_storage w) = true
         <-> succeeded w (stage_ref s))).
Proof.
  split.
  - intros ref a deps v w wd x e Hdeps Hnp Hname Hcall r1.
    destruct (is_Exception e) eqn:He.
    + assert (Hr1 : r1 = (after_failure ref e x wd, Raise e)).
      { unfold r1. rewrite run_once_eq, Hdeps.
        apply run_own_failure; assumption. }
      rewrite Hr1. unfold failed_with.
      cbn [fst snd after_failure test_results_storage stage_state].
      rewrite update_same.
      repeat split; assumption.
    + assert (Hr1 : r1 = ({| stage_state := stage_state wd;
                             test_results_storage := test_results_storage wd;
                             ext := x;
                             log := (log wd ++ [ActionCalled ref])%list |},
                          Raise e)).
      { unfold r1. rewrite run_once_eq, Hdeps.
        apply run_own_uncaught; assumption. }
      rewrite Hr1. cbn [fst snd test_results_storage].
      split; [reflexivity|]. split; [exact Hname|].
      split; [reflexivity | discriminate].
  - intros root w s Huniq Hreached Hin.
    destruct (reached_matches root w Huniq Hreached) as [_ Hm].
    apply Hm, Hin.
Qed.

Lemma validations_app (l1 l2 : list Event) :
  validations (l1 ++ l2) = (validations l1 ++ validations l2)%list.
Proof. apply filter_app. Qed.

Lemma _run_validation_log (ref : nat) (a : BaseOTETestAction E) v w :
  log (fst (_run_validation float_of_str ref a v w))
  = (log w ++ validation_events ref a v)%list.
Proof.
  unfold _run_validation, validation_events.
  destruct (with_validation a); cbn [negb fst].
  - destruct v; cbn [fst log_event log]; [reflexivity|].
    rewrite app_nil_r. reflexivity.
  - rewrite app_nil_r. reflexivity.
Qed.

Lemma run_own_validations (ref : nat) (a : BaseOTETestAction E) v w :
  exists events,
    validations (log (fst (run_own float_of_str ref a v w)))
    = (validations (log w) ++ events)%list
    /\ (events = [] \/ events = validation_events ref a v).
Proof.
  unfold run_own.
  destruct (was_processed (stage_state w ref)).
  - destruct (stored_exception (stage_state w ref)).
    + exists []. rewrite app_nil_r. split; [reflexivity | left; reflexivity].
    + exists (validation_events ref a v).
      rewrite _run_validation_log, validations_app.
      split; [|right; reflexivity].
      unfold validation_events.
      destruct (with_validation a); [destruct v|]; reflexivity.
  - destruct (dict_mem (name a) (test_results_storage w)).
    + exists []. rewrite app_nil_r. split; [reflexivity | left; reflexivity].
    + cbn [log_event test_results_storage ext log stage_state].
      destruct (call a (Some (test_results_storage w)) (ext w))
        as [x [res|e]].
      * exists (validation_events ref a v).
        rewrite _run_validation_log. cbn [log].
        rewrite !validations_app. cbn. rewrite app_nil_r.
        split; [|right; reflexivity].
        unfold validation_events.
        destruct (with_validation a); [destruct v|]; reflexivity.
      * exists []. rewrite app_nil_r. split; [|left; reflexivity].
        destruct (is_Exception e); cbn [fst log];
          rewrite validations_app; cbn; apply app_nil_r.
Qed.

Lemma run_once_without_validator s :
  forall w,
    validations (log (fst (run_once float_of_str s None w)))
    = validations (log w).
Proof.
  induction s as [ref a deps IH] using stage_induction. intros w.
  rewrite run_once_eq.
  assert (Hdeps : forall w0,
            validations (log (fst (run_dependencies float_of_str deps w0)))
            = validations (log w0)).
  { induction deps as [|d deps IHd]; intros w0; [reflexivity|].
    rewrite run_dependencies_cons.
    pose proof (Forall_inv IH w0) as H1.
    destruct (run_once float_of_str d None w0) as [w1 [[]|e]];
      cbn [fst] in *.
    - rewrite (IHd (Forall_inv_tail IH)). exact H1.
    - exact H1. }
  specialize (Hdeps w).
  destruct (run_dependencies float_of_str deps w) as [wd [[]|e]];
    cbn [fst] in *; [|exact Hdeps].
  destruct (run_own_validations ref a None wd) as [events [Hv Hevents]].
  rewrite Hv, Hdeps.
  assert (He : events = []).
  { destruct Hevents as [->| ->]; [reflexivity|].
    unfold validation_events. destruct (with_validation a); reflexivity. }
  rewrite He. apply app_nil_r.
Qed.

Lemma run_dependencies_without_validation (deps : list (OTETestStage E)) :
  forall w,
    validations (log (fst (run_dependencies float_of_str deps w)))
    = validations (log w).
Proof.
  induction deps as [|d deps IH]; intros w; [reflexivity|].
  rewrite run_dependencies_cons.
  pose proof (run_once_without_validator d w) as H1.
  destruct (run_once float_of_str d None w) as [w1 [[]|e]]; cbn [fst] in *.
  - rewrite IH. exact H1.
  - exact H1.
Qed.

Lemma run_once_validates_itself_only (ref : nat) (a : BaseOTETestAction E)
    (deps : list (OTETestStage E)) v w :
  exists events,
    validations (log (fst (run_once float_of_str (Stage ref a deps) v w)))
    = (validations (log w) ++ events)%list
    /\ (events = [] \/ events = validation_events ref a v).
Proof.
  rewrite run_once_eq.
  pose proof (run_dependencies_without_validation deps w) as Hdeps.
  destruct (run_dependencies float_of_str deps w) as [wd [[]|e]];
    cbn [fst] in *.
  - destruct (run_own_validations ref a v wd) as [events [Hv Hevents]].
    exists events. rewrite Hv, Hdeps. split; [reflexivity | exact Hevents].
  - exists []. rewrite app_nil_r. split; [exact Hdeps | left; reflexivity].
Qed.
End StageProperties.

(** ** The dependencies of a stage *)

Section GraphProperties.
Variable float_of_str : string -> option float.
Variable E : Type.
Variable run_ote :
  ActionClass -> Dict -> Dict -> E -> E * Res (string -> PyVal).
Variable run_ote_evaluation :
  ActionClass -> Dict -> Dict -> E -> E * Res (string * PyVal).

Ltac run_action H :=
  match goal with
  | |- context [run_ote ?a ?i ?k ?x] =>
      let x' := fresh "x" in
      let self := fresh "self" in
      let Heq := fresh "Heq" in
      destruct (H a i k x) as [x' [self Heq]]; rewrite Heq; clear Heq
  end.

Ltac run_evaluation H :=
  match goal with
  | |- context [run_ote_evaluation ?a ?i ?k ?x] =>
      let x' := fresh "x" in
      let score := fresh "score" in
      let Heq := fresh "Heq" in
      destruct (H a i k x) as [x' [score Heq]]; rewrite Heq; clear Heq
  end.

Lemma pot_evaluation_log
    (dp tp iters batch : PyVal) (x : E) (vd : Validator) :
  (forall a init kwargs x0,
     exists x1 self, run_ote a init kwargs x0 = (x1, Ret self)) ->
  (forall a init kwargs x0,
     exists x1 score,
       run_ote_evaluation a init kwargs x0 = (x1, Ret score)) ->
  log (fst (run_once float_of_str
              (pot_evaluation_stage E run_ote run_ote_evaluation
                 dp tp iters batch)
              (Some vd) (fresh_world x)))
  = [ActionCalled 0; ActionCalled 2; ActionCalled 4; ActionCalled 1;
     ActionCalled 5; ValidateCalled 5].
Proof.
  intros Hote Heval.
  unfold pot_evaluation_stage, pot_stage, training_evaluation_stage,
    export_stage, training_stage, new_action, action, fresh_world.
  cbn -[validate].
  run_action Hote. cbn -[validate].
  run_action Hote. cbn -[validate].
  run_action Hote. cbn -[validate].
  run_evaluation Heval. cbn -[validate].
  run_evaluation Heval. cbn -[validate].
  reflexivity.
Qed.

Ltac run_call H :=
  match goal with
  | |- context [@action_call ?E0 ?ro ?re ?a ?i ?p ?x] =>
      rewrite (H : @action_call E0 ro re a i p x = _)
  end.

Lemma pot_evaluation_run
    (dp tp iters batch : PyVal) (vd : Validator)
    (x0 x1 x2 x3 x4 x5 : E) (r1 r2 r3 r4 r5 : PyVal) :
  action_call run_ote run_ote_evaluation OTETestTrainingAction
    [("dataset_params", dp); ("template_file_path", tp);
     ("num_training_iters", iters); ("batch_size", batch)]
    (Some []) x0
  = (x1, Ret r1) ->
  action_call run_ote run_ote_evaluation OTETestExportAction []
    (Some [("training", r1)]) x1
  = (x2, Ret r2) ->
  action_call run_ote run_ote_evaluation OTETestPotAction []
    (Some [("training", r1); ("export", r2)]) x2
  = (x3, Ret r3) ->
  action_call run_ote run_ote_evaluation OTETestTrainingEvaluationAction []
    (Some [("training", r1); ("export", r2); ("pot", r3)]) x3
  = (x4, Ret r4) ->
  action_call run_ote run_ote_evaluation OTETestPotEvaluationAction []
    (Some [("training", r1); ("export", r2); ("pot", r3);
           ("training_evaluation", r4)]) x4
  = (x5, Ret r5) ->
  run_once float_of_str
    (pot_evaluation_stage E run_ote run_ote_evaluation dp tp iters batch)
    (Some vd) (fresh_world x0)
  = ({| stage_state :=
          update 5 (processed_with r5)
            (update 1 (processed_with r4)
               (update 4 (processed_with r3)
                  (update 2 (processed_with r2)
                     (update 0 (processed_with r1) (fun _ => new_stage)))));
        test_results_storage :=
          [("training", r1); ("export", r2); ("pot", r3);
           ("training_evaluation", r4); ("pot_evaluation", r5)];
        ext := x5;
        log := [ActionCalled 0; ActionCalled 2; ActionCalled 4;
                ActionCalled 1; ActionCalled 5; ValidateCalled 5] |},
     validate float_of_str vd r5
       (VDict [("training", r1); ("export", r2); ("pot", r3);
               ("training_evaluation", r4); ("pot_evaluation", r5)])).
Proof.
  intros H1 H2 H3 H4 H5.
  unfold pot_evaluation_stage, pot_stage, training_evaluation_stage,
    export_stage, training_stage, new_action, action, fresh_world,
    processed_with.
  cbn -[validate action_call]. run_call H1.
  cbn -[validate action_call]. run_call H2.
  cbn -[validate action_call]. run_call H3.
  cbn -[validate action_call]. run_call H4.
  cbn -[validate action_call]. run_call H5.
  cbn -[validate action_call]. reflexivity.
Qed.

(** C2. [run_once] first runs the stages of [depends_stages], in order and
    each with [validator = None], and goes on to its own part only when
    none of them raised; by then every stage it depends on, directly or
    not, has succeeded. The runs of the dependencies call no validation:
    the only validation a call of [run_once] can make is the one of the
    stage it was called on, and only with a validator. In the graph of the
    test case, [run_once] on [pot_evaluation] in a new test case calls the
    actions of training, export, pot, training_evaluation and then
    pot_evaluation, each once: when these calls return, each is made on the
    outside as the call before it left it and with the results of the
    stages before it, the results are kept and stored in this order, and
    pot_evaluation alone is validated, on the results of its own action. *)
Theorem dependencies_run_first_without_validator :
  (forall (ref : nat) (a : BaseOTETestAction E)
          (deps : list (OTETestStage E)) v w,
     run_once float_of_str (Stage ref a deps) v w
     = match
         for_each (fun dep_stage => run_once float_of_str dep_stage None)
           deps w
       with
       | (wd, Raise e) => (wd, Raise e)
       | (wd, Ret _) => run_own float_of_str ref a v wd
       end)
  /\ (forall (deps : list (OTETestStage E)) w wd,
        clean w ->
        run_dependencies float_of_str deps w = (wd, Ret tt) ->
        forallb (settled (stage_state wd)) deps = true)
  /\ (forall (deps : list (OTETestStage E)) w,
        validations (log (fst (run_dependencies float_of_str deps w)))
        = validations (log w))
  /\ (forall (ref : nat) (a : BaseOTETestAction E)
             (deps : list (OTETestStage E)) v w,
        exists events,
          validations
            (log (fst (run_once float_of_str (Stage ref a deps) v w)))
          = (validations (log w) ++ events)%list
          /\ (events = []
              \/ (events = [ValidateCalled ref]
                  /\ v <> None /\ with_validation a = true)))
  /\ (forall (dp tp iters batch : PyVal) (x : E) (vd : Validator),
        (forall a init kwargs x0,
           exists x1 self, run_ote a init kwargs x0 = (x1, Ret self)) ->
        (forall a init kwargs x0,
           exists x1 score,
             run_ote_evaluation a init kwargs x0 = (x1, Ret score)) ->
        log (fst (run_once float_of_str
                    (pot_evaluation_stage E run_ote run_ote_evaluation
                       dp tp iters batch)
                    (Some vd) (fresh_world x)))
        = [ActionCalled 0; ActionCalled 2; ActionCalled 4; ActionCalled 1;
           ActionCalled 5; ValidateCalled 5])
  /\ (forall (dp tp iters batch : PyVal) (vd : Validator)
             (x0 x1 x2 x3 x4 x5 : E) (r1 r2 r3 r4 r5 : PyVal),
        action_call run_ote run_ote_evaluation OTETestTrainingAction
          [("dataset_params", dp); ("template_file_path", tp);
           ("num_training_iters", iters); ("batch_size", batch)]
          (Some []) x0
        = (x1, Ret r1) ->
        action_call run_ote run_ote_evaluation OTETestExportAction []
          (Some [("training", r1)]) x1
        = (x2, Ret r2) ->
        action_call run_ote run_ote_evaluation OTETestPotAction []
          (Some [("training", r1); ("export", r2)]) x2
        = (x3, Ret r3) ->
        action_call run_ote run_ote_evaluation
          OTETestTrainingEvaluationAction []
          (Some [("training", r1); ("export", r2); ("pot", r3)]) x3
        = (x4, Ret r4) ->
        action_call run_ote run_ote_evaluation OTETestPotEvaluationAction []
          (Some [("training", r1); ("export", r2); ("pot", r3);
                 ("training_evaluation", r4)]) x4
        = (x5, Ret r5) ->
        run_once float_of_str
          (pot_evaluation_stage E run_ote run_ote_evaluation
             dp tp iters batch)
          (Some vd) (fresh_world x0)
        = ({| stage_state :=
                update 5 (processed_with r5)
                  (update 1 (processed_with r4)
                     (update 4 (processed_with r3)
                        (update 2 (processed_with r2)
                           (update 0 (processed_with r1)
                              (fun _ => new_stage)))));
              test_results_storage :=
                [("training", r1); ("export", r2); ("pot", r3);
                 ("training_evaluation", r4); ("pot_evaluation", r5)];
              ext := x5;
              log := [ActionCalled 0; ActionCalled 2; ActionCalled 4;
                      ActionCalled 1; ActionCalled 5; ValidateCalled 5] |},
           validate float_of_str vd r5
             (VDict [("training", r1); ("export", r2); ("pot", r3);
                     ("training_evaluation", r4);
                     ("pot_evaluation", r5)]))).
Proof.
  split; [reflexivity|].
  split; [intros deps w wd; apply dependencies_settled|].
  split; [apply run_dependencies_without_validation|].
  split; [|split; [apply pot_evaluation_log | apply pot_evaluation_run]].
  intros ref a deps v w.
  destruct (run_once_validates_itself_only float_of_str E ref a deps v w)
    as [events [Hv Hevents]].
  exists events. split; [exact Hv|].
  destruct Hevents as [->|Hevents]; [left; reflexivity|].
  unfold validation_events in Hevents.
  destruct (with_validation a); [|left; exact Hevents].
  destruct v; [|left; exact Hevents].
  right. repeat split; [exact Hevents | discriminate].
Qed.
End GraphProperties.

(** ** The prior results an action needs *)

Section ActionProperties.
Variable E : Type.
Variable run_ote :
  ActionClass -> Dict -> Dict -> E -> E * Res (string -> PyVal).
Variable run_ote_evaluation :
  ActionClass -> Dict -> Dict -> E -> E * Res (string * PyVal).

Lemma _check_result_prev_stages_raises (name : string)
    (prior : option Dict) (required : list string) (stage : string) :
  In stage required ->
  absent_in stage prior = true ->
  exists missing,
    _check_result_prev_stages name prior required
    = Raise (missing_results name missing).
Proof.
  induction required as [|r required IH]; intros Hin Habs; [contradiction|].
  cbn [_check_result_prev_stages].
  destruct (falsy prior || absent_in r prior) eqn:Hr.
  - exists r. reflexivity.
  - destruct Hin as [->|Hin].
    + rewrite Habs, orb_true_r in Hr. discriminate Hr.
    + apply IH; assumption.
Qed.

(** All the classes but [OTETestPotAction] check every stage they read. *)
Lemma checked_action_raises_missing_results (a : ActionClass) (init : Dict)
    (prior : option Dict) (x : E) (stage : string) :
  a <> OTETestPotAction ->
  In stage (needed_stages a) ->
  absent_in stage prior = true ->
  exists e,
    action_call run_ote run_ote_evaluation a init prior x = (x, Raise e)
    /\ is_missing_results e = true.
Proof.
  intros Hpot Hin Habs.
  assert (Hchecked : In stage (checked_stages a)).
  { destruct a; cbn in Hin |- *; try tauto; contradiction Hpot; reflexivity. }
  destruct (_check_result_prev_stages_raises (_name a) prior
              (checked_stages a) stage Hchecked Habs) as [missing Hm].
  eexists. unfold action_call. rewrite Hm. split; reflexivity.
Qed.

(** C8 at the POT action. It reads the results of the training stage and
    of the export stage, but checks the export stage only: called with the
    results of export and without those of training, it gets through the
    check and fails with a [KeyError] at [results_prev_stages['training']],
    not with the error of the check. *)
Theorem pot_action_does_not_check_training (init : Dict) (x : E) :
  In "training" (needed_stages OTETestPotAction)
  /\ In "export" (needed_stages OTETestPotAction)
  /\ checked_stages OTETestPotAction = ["export"]
  /\ absent_in "training" export_results_only = true
  /\ action_call run_ote run_ote_evaluation OTETestPotAction init
       export_results_only x
     = (x, Raise (Exc KeyError [Interp (VStr "training")] None))
  /\ is_missing_results (Exc KeyError [Interp (VStr "training")] None)
     = false.
Proof.
  repeat split; cbn; tauto.
Qed.
End ActionProperties.

(** ** The cache of test cases *)

Section CacheProperties.
Variable osp_join : string -> string -> string.

Lemma clear_cache {V : Type} (c : list (string * V)) :
  fold_left (fun c0 k => dict_del k c0) (dict_keys c) c = [].
Proof.
  induction c as [|[k x] c IH]; [reflexivity|].
  cbn. rewrite String.eqb_refl. exact IH.
Qed.

Lemma parameters_unchanged_all (c : Cache) (params : Dict) :
  parameters_unchanged c params
  = forallb (fun kv => cached_equals c (fst kv) (snd kv)) params.
Proof.
  unfold parameters_unchanged.
  assert (H : forall b,
            fold_left
              (fun is_ok kv => is_ok && cached_equals c (fst kv) (snd kv))
              params b
            = b && forallb (fun kv => cached_equals c (fst kv) (snd kv))
                     params).
  { induction params as [|kv params IH]; intros b; cbn.
    - rewrite andb_true_r. reflexivity.
    - rewrite IH, andb_assoc. reflexivity. }
  apply H.
Qed.

(** C9. Let the next test come with its four parameters, the dataset
    definitions being there. If each of the four equals what the cache
    holds for it and the cache holds a test case, the session is left as it
    is and that test case is returned. If one of them differs, and the
    test case can be made, the cache is emptied and filled with the four
    parameters and one new test case, which is returned: an object that
    was not there before, with an empty storage and stages that have not
    run. *)
Theorem cache_keeps_or_rebuilds_test_case
    (s : Session) (test_parameters dataset_definitions template_paths : PyVal)
    (model_name dataset_name iters batch : PyVal) :
  is_none dataset_definitions = false ->
  subscript test_parameters "model_name" = Ret model_name ->
  subscript test_parameters "dataset_name" = Ret dataset_name ->
  subscript test_parameters "num_training_iters" = Ret iters ->
  subscript test_parameters "batch_size" = Ret batch ->
  let unchanged :=
    cached_equals (cache s) "model_name" model_name
    && cached_equals (cache s) "dataset_name" dataset_name
    && cached_equals (cache s) "num_training_iters" iters
    && cached_equals (cache s) "batch_size" batch in
  (unchanged = true ->
   forall cached,
     dict_lookup "_test_case_" (cache s) = Some cached ->
     _update_test_case_in_cache osp_join s test_parameters
       dataset_definitions template_paths
     = (s, Ret cached))
  /\ (unchanged = false ->
      forall dataset_params template root template_path,
        _get_dataset_params_from_dataset_definitions osp_join
          dataset_definitions dataset_name = Ret dataset_params ->
        subscript_by template_paths model_name = Ret template ->
        subscript template_paths ROOT_PATH_KEY = Ret root ->
        _make_path_be_abs osp_join template root = Ret template_path ->
        let ref := List.length (test_cases s) in
        let test_case :=
          new_test_case dataset_params template_path iters batch in
        _update_test_case_in_cache osp_join s test_parameters
          dataset_definitions template_paths
        = ({| test_cases := (test_cases s ++ [test_case])%list;
              cache := [("model_name", Param model_name);
                        ("dataset_name", Param dataset_name);
                        ("num_training_iters", Param iters);
                        ("batch_size", Param batch);
                        ("_test_case_", TestCaseRef ref)] |},
           Ret (TestCaseRef ref))
        /\ nth_error (test_cases s) ref = None
        /\ nth_error (test_cases s ++ [test_case]) ref = Some test_case
        /\ results_storage test_case = []
        /\ forall r, stages_state test_case r = new_stage).
Proof.
  intros Hdd Hm Hd Hi Hb unchanged.
  assert (Hsel : select_parameters test_parameters
                   TEST_PARAMETERS_DEFINING_IMPL_BEHAVIOR []
                 = Ret [("model_name", model_name);
                        ("dataset_name", dataset_name);
                        ("num_training_iters", iters);
                        ("batch_size", batch)]).
  { cbn [select_parameters TEST_PARAMETERS_DEFINING_IMPL_BEHAVIOR].
    rewrite Hm. cbn [bind]. rewrite Hd. cbn [bind]. rewrite Hi. cbn [bind].
    rewrite Hb. reflexivity. }
  assert (Hunch : parameters_unchanged (cache s)
                    [("model_name", model_name);
                     ("dataset_name", dataset_name);
                     ("num_training_iters", iters);
                     ("batch_size", batch)]
                  = unchanged).
  { rewrite parameters_unchanged_all. unfold unchanged. cbn.
    rewrite andb_true_r, !andb_assoc. reflexivity. }
  split.
  - intros Hsame cached Hcached.
    unfold _update_test_case_in_cache. rewrite Hdd, Hsel.
    cbn [dict_mem String.eqb Ascii.eqb Bool.eqb].
    unfold _clean_cache_if_parameters_changed. rewrite Hunch, Hsame.
    rewrite Hcached. destruct s. reflexivity.
  - intros Hdiff dataset_params template root template_path
      Hdp Htemplate Hroot Habs ref test_case.
    split.
    + unfold _update_test_case_in_cache. rewrite Hdd, Hsel.
      cbn [dict_mem String.eqb Ascii.eqb Bool.eqb].
      unfold _clean_cache_if_parameters_changed. rewrite Hunch, Hdiff.
      rewrite clear_cache. cbn [fold_left fst snd dict_set String.eqb
                                Ascii.eqb Bool.eqb dict_lookup].
      rewrite Hm. cbn [bind]. rewrite Hd. cbn [bind]. rewrite Hi.
      cbn [bind]. rewrite Hb. cbn [bind]. rewrite Hdp. cbn [bind].
      rewrite Htemplate. cbn [bind]. rewrite Hroot. cbn [bind].
      rewrite Habs. reflexivity.
    + split; [apply nth_error_None; apply Nat.le_refl|].
      split; [|split; [reflexivity | intros r; reflexivity]].
      unfold ref. rewrite nth_error_app2 by apply Nat.le_refl.
      rewrite Nat.sub_diag. reflexivity.
Qed.
End CacheProperties.

(** ** The properties at sample stages *)

Lemma action_runs_once_then_replays_witness :
  let w1 :=
    fst (run_once no_float_of_str sample_training_stage None (fresh_world 0)) in
  calls_of 0 (log w1) = 1%nat
  /\ succeeded w1 0
  /\ forall w2 v',
       later no_float_of_str w1 w2 ->
       calls_of 0
         (log (fst (run_once no_float_of_str sample_training_stage v' w2)))
       = 1%nat.
Proof.
  intros w1.
  assert (Hexc : forall e,
            snd (call (stage_action sample_training_stage) (Some []) 0)
            = Raise e ->
            is_Exception e = true)
    by (intros e H; cbn in H; discriminate H).
  pose proof (action_runs_once_then_replays no_float_of_str nat 0
                (stage_action sample_training_stage) [] None
                (fresh_world 0) (fresh_world 0) 1%nat
                (snd (call (stage_action sample_training_stage) (Some []) 0))
                (fresh_world_clean nat 0) eq_refl eq_refl eq_refl eq_refl
                Hexc) as H.
  cbv zeta in H. destruct H as [Hcalls [[Hs _] Hlater]].
  split; [exact Hcalls|]. split; [exact Hs|].
  intros w2 v' Hl. destruct (Hlater w2 v' Hl) as [_ [Hc _]].
  exact (eq_trans Hc Hcalls).
Defined.

(** C1 as stated fails for an action that ends in [pytest.skip], as the NNCF
    action does for a template without NNCF: the exception [Skipped] is not
    an [Exception], [run_once] does not catch it, the stage stays unprocessed
    and the next [run_once] calls the action again. *)
Lemma skipped_action_is_called_again :
  let w1 :=
    fst (run_once no_float_of_str skipping_nncf_stage None (fresh_world 0)) in
  let w2 := fst (run_once no_float_of_str skipping_nncf_stage None w1) in
  was_processed (stage_state w1 6) = false
  /\ log w2 = [ActionCalled 0; ActionCalled 6; ActionCalled 6]
  /\ calls_of 6 (log w2) = 2%nat
  /\ ~ (calls_of 6 (log w2) <= 1)%nat.
Proof.
  cbv zeta. repeat split; try reflexivity.
  vm_compute. intros H. inversion H as [|n H' Hn]. inversion H'.
Qed.

Lemma dependencies_run_first_without_validator_witness :
  log (fst (run_once no_float_of_str sample_pot_evaluation_stage
              (Some two_metrics_validator) (fresh_world 0)))
  = [ActionCalled 0; ActionCalled 2; ActionCalled 4; ActionCalled 1;
     ActionCalled 5; ValidateCalled 5]
  /\ forallb (settled (stage_state
                         (fst (run_dependencies no_float_of_str
                                 (stage_depends sample_pot_evaluation_stage)
                                 (fresh_world 0)))))
       (stage_depends sample_pot_evaluation_stage)
     = true
  /\ ext (fst (run_once no_float_of_str sample_pot_evaluation_stage
                 (Some two_metrics_validator) (fresh_world 0)))
     = 5
  /\ dict_keys
       (test_results_storage
          (fst (run_once no_float_of_str sample_pot_evaluation_stage
                  (Some two_metrics_validator) (fresh_world 0))))
     = ["training"; "export"; "pot"; "training_evaluation";
        "pot_evaluation"].
Proof.
  destruct (dependencies_run_first_without_validator no_float_of_str nat
              returning_run_ote returning_run_ote_evaluation)
    as [_ [Hsettled [_ [_ [Hlog Hrun]]]]].
  split; [|split].
  - apply (Hlog VNone VNone (VInt 1) (VInt 2) 0 two_metrics_validator).
    + intros a init kwargs x0. eexists. eexists. reflexivity.
    + intros a init kwargs x0. eexists. eexists. reflexivity.
  - apply (Hsettled _ (fresh_world 0)).
    + apply fresh_world_clean.
    + vm_compute. reflexivity.
  - unfold sample_pot_evaluation_stage.
    rewrite (Hrun VNone VNone (VInt 1) (VInt 2) two_metrics_validator
               0 1 2 3 4 5 _ _ _ _ _
               eq_refl eq_refl eq_refl eq_refl eq_refl).
    split; reflexivity.
Defined.

Lemma failing_stage_unique_names : unique_names failing_stage.
Proof.
  intros s1 s2 [<-|[]] [<-|[]]. split; reflexivity.
Qed.

(** C7 as stated fails for what is raised without being an [Exception]: when
    the NNCF action ends in [pytest.skip], [run_once] raises [Skipped], but
    the stage is not marked processed and no exception is stored. *)
Lemma skipped_action_is_not_marked_failed :
  let r1 := run_once no_float_of_str skipping_nncf_stage None (fresh_world 0) in
  (exists e, snd r1 = Raise e /\ exc_class e = Skipped)
  /\ was_processed (stage_state (fst r1) 6) = false
  /\ stored_exception (stage_state (fst r1) 6) = None
  /\ forall e, ~ failed_with (fst r1) 6 e.
Proof.
  cbv zeta. split; [eexists; split; reflexivity|].
  split; [reflexivity|]. split; [reflexivity|].
  intros e [H _]. vm_compute in H. discriminate H.
Qed.

Lemma failed_action_stores_nothing_witness :
  let r1 := run_once no_float_of_str failing_stage None (fresh_world 0) in
  test_results_storage (fst r1) = []
  /\ failed_with (fst r1) 0 training_failed
  /\ snd r1 = Raise training_failed
  /\ (dict_mem "training" (test_results_storage (fst r1)) = true
      <-> succeeded (fst r1) 0).
Proof.
  intros r1.
  destruct (failed_action_stores_nothing no_float_of_str nat) as [Hfail Hiff].
  pose proof (Hfail 0 failing_action [] None (fresh_world 0) (fresh_world 0)
                1%nat training_failed eq_refl eq_refl eq_refl eq_refl)
    as H.
  cbv zeta in H. destruct H as [Hstore [_ [Hraise Hfailed]]].
  specialize (Hfailed eq_refl).
  split; [exact Hstore|]. split; [exact Hfailed|]. split; [exact Hraise|].
  apply (Hiff failing_stage (fst r1) failing_stage failing_stage_unique_names).
  - apply reached_run_once; [apply reached_fresh | left; reflexivity].
  - left. reflexivity.
Defined.

Lemma validation_failure_keeps_stage_succeeded_witness :
  let r1 :=
    run_once no_float_of_str low_evaluation_stage
      (Some two_metrics_validator) (fresh_world 0) in
  (exists ev, snd r1 = Raise ev /\ exc_class ev = Failed)
  /\ succeeded (fst r1) 0
  /\ dict_lookup "training_evaluation" (test_results_storage (fst r1))
     = Some low_result
  /\ run_once no_float_of_str low_evaluation_stage None (fst r1)
     = (fst r1, Ret tt).
Proof.
  intros r1.
  pose proof (validation_failure_keeps_stage_succeeded no_float_of_str nat 0
                low_evaluation_action [] (fresh_world 0) (fresh_world 0)
                1%nat low_result two_metrics_validator _
                (fresh_world_clean nat 0) eq_refl eq_refl eq_refl eq_refl
                eq_refl eq_refl) as H.
  cbv zeta in H. destruct H as [Hraise [Hs [_ [Hstore Hlater]]]].
  split; [eexists; split; [exact Hraise | reflexivity]|].
  split; [exact Hs|]. split; [exact Hstore|].
  destruct (Hlater (fst r1) None (later_now _ _ _)) as [_ [_ [_ Hreplay]]].
  exact Hreplay.
Defined.

Lemma cache_keeps_or_rebuilds_test_case_witness :
  _update_test_case_in_cache sample_osp_join sample_session
    (sample_parameters 2) sample_dataset_definitions sample_template_paths
  = (sample_session, Ret (TestCaseRef 0))
  /\ snd (_update_test_case_in_cache sample_osp_join sample_session
            (sample_parameters 4) sample_dataset_definitions
            sample_template_paths)
     = Ret (TestCaseRef 1)
  /\ dict_lookup "_test_case_"
       (cache (fst (_update_test_case_in_cache sample_osp_join sample_session
                      (sample_parameters 4) sample_dataset_definitions
                      sample_template_paths)))
     = Some (TestCaseRef 1).
Proof.
  pose proof (cache_keeps_or_rebuilds_test_case sample_osp_join sample_session
                (sample_parameters 2) sample_dataset_definitions
                sample_template_paths _ _ _ _
                eq_refl eq_refl eq_refl eq_refl eq_refl) as Hsame.
  pose proof (cache_keeps_or_rebuilds_test_case sample_osp_join sample_session
                (sample_parameters 4) sample_dataset_definitions
                sample_template_paths _ _ _ _
                eq_refl eq_refl eq_refl eq_refl eq_refl) as Hdiff.
  cbv zeta in Hsame, Hdiff.
  destruct Hsame as [Hsame _]. destruct Hdiff as [_ Hdiff].
  split; [apply (Hsame eq_refl (TestCaseRef 0) eq_refl)|].
  destruct (Hdiff eq_refl _ _ _ _ eq_refl eq_refl eq_refl eq_refl)
    as [Hupdate _].
  split; [exact (f_equal snd Hupdate)|].
  exact (f_equal (fun r => dict_lookup "_test_case_" (cache (fst r))) Hupdate).
Defined.

(** * Further properties *)

(** ** Bounds and comparison *)

Section BoundsProperties.
Variable float_of_str : string -> option float.

Local Open Scope float_scope.

Lemma one_side_cases (name : string) (threshold : PyVal)
    (bound : float -> float) (o : option float) :
  one_side float_of_str name threshold bound = Ret o ->
  (o = None /\ threshold = VNone)
  \/ (exists d, (0 <=? d) = true /\ o = Some (bound d)
                /\ threshold_is float_of_str threshold (Some d)).
Proof.
  unfold one_side. destruct (is_none threshold) eqn:Hn.
  - intros H. inversion H. left. split; [reflexivity|].
    destruct threshold; try discriminate Hn. reflexivity.
  - destruct (py_float float_of_str threshold) as [d|e] eqn:Hd; cbn [bind];
      [|discriminate].
    destruct (0 <=? d) eqn:Hpos; cbn [negb]; [|discriminate].
    intros H. inversion H. right. exists d.
    split; [exact Hpos|]. split; [reflexivity|].
    split; assumption.
Qed.

Lemma bounds_cases (req : Dict) (storage : PyVal) (T : float)
    (mn mx : option float) :
  _get_min_max_value_from_expected_metrics float_of_str (VDict req) storage
  = Ret (T, mn, mx) ->
  malformed_keys req = false
  /\ target_value_of float_of_str req storage = Ret T
  /\ ((dict_mem "max_diff" req = true
       /\ exists d, (0 <=? d) = true
                    /\ py_float float_of_str (dict_get "max_diff" req) = Ret d
                    /\ mn = Some (T - d) /\ mx = Some (T + d))
      \/ (dict_mem "max_diff" req = false
          /\ thresholds_none req = false
          /\ one_side float_of_str less_key (dict_get less_key req)
               (fun d => T - d) = Ret mn
          /\ one_side float_of_str greater_key (dict_get greater_key req)
               (fun d => T + d) = Ret mx)).
Proof.
  unfold _get_min_max_value_from_expected_metrics, malformed_keys,
    thresholds_none.
  destruct (dict_mem "target_value" req), (dict_mem "base" req),
           (dict_mem "max_diff" req), (dict_mem less_key req),
           (dict_mem greater_key req);
    cbn [negb andb orb]; try discriminate.
  all: destruct (target_value_of float_of_str req storage) as [T0|e0];
    cbn [bind]; [|discriminate].
  all: try (destruct (py_float float_of_str (dict_get "max_diff" req))
              as [d|e1]; cbn [bind]; [|discriminate];
            destruct (0 <=? d) eqn:Hpos; cbn [negb]; [|discriminate];
            intros H; inversion H; subst;
            split; [reflexivity|]; split; [reflexivity|]; left;
            split; [reflexivity|]; exists d;
            split; [exact Hpos|];
            repeat split; reflexivity).
  all: destruct (is_none (dict_get less_key req)
                 && is_none (dict_get greater_key req)) eqn:Hnone;
    [discriminate|].
  all: destruct (one_side float_of_str greater_key
                   (dict_get greater_key req) (fun d => T0 + d))
         as [mx0|e1] eqn:Hmx; cbn [bind]; [|discriminate].
  all: destruct (one_side float_of_str less_key
                   (dict_get less_key req) (fun d => T0 - d))
         as [mn0|e2] eqn:Hmn; cbn [bind]; [|discriminate].
  all: intros H; inversion H; subst.
  all: split; [reflexivity|]; split; [reflexivity|]; right;
    repeat split; assumption.
Qed.

Lemma _compare_cases (obs : float) (addr : string) (T : float)
    (mn mx : option float) :
  (mn <> None \/ mx <> None) ->
  match mn, mx with
  | Some a, Some b =>
      if (a <=? T) && (T <=? b) then
        exists passed reason,
          _compare obs addr T mn mx = Ret (passed, reason)
      else _compare obs addr T mn mx = Raise (Exc AssertionError [] None)
  | _, _ =>
      exists passed reason, _compare obs addr T mn mx = Ret (passed, reason)
  end.
Proof.
  intros Hsome. unfold _compare. destruct mn as [a|], mx as [b|].
  - destruct ((a <=? T) && (T <=? b)); cbn [negb]; [|reflexivity].
    destruct ((a <=? obs) && (obs <=? b)); eexists; eexists; reflexivity.
  - destruct (a <=? obs); eexists; eexists; reflexivity.
  - destruct (obs <=? b); eexists; eexists; reflexivity.
  - destruct Hsome as [H|H]; contradiction H; reflexivity.
Qed.

(** X1. Whatever requirement is converted, the bounds that come out have at
    least one side, and each side that is there is the target less, or
    plus, a tolerance that is not negative and not NaN. So of the assertions
    of [_compare] only one can fail on them, that the target is within two
    bounds: with one bound the comparison always gives a verdict, and with
    two it gives a verdict exactly when the floats put the target within
    them, which they do not when the target is NaN. *)
Theorem computed_bounds_have_a_side_and_a_tolerance
    (req storage : PyVal) (T : float) (mn mx : option float) :
  _get_min_max_value_from_expected_metrics float_of_str req storage
  = Ret (T, mn, mx) ->
  (mn <> None \/ mx <> None)
  /\ (forall a, mn = Some a -> exists d, (0 <=? d) = true /\ a = T - d)
  /\ (forall b, mx = Some b -> exists d, (0 <=? d) = true /\ b = T + d)
  /\ forall (obs : float) (addr : string),
       match mn, mx with
       | Some a, Some b =>
           if (a <=? T) && (T <=? b) then
             exists passed reason,
               _compare obs addr T mn mx = Ret (passed, reason)
           else
             _compare obs addr T mn mx = Raise (Exc AssertionError [] None)
       | _, _ =>
           exists passed reason,
             _compare obs addr T mn mx = Ret (passed, reason)
       end.
Proof.
  intros H.
  destruct req as [| | | |items|]; try discriminate H.
  assert (Hsides : (mn <> None \/ mx <> None)
                   /\ (forall a, mn = Some a ->
                                 exists d, (0 <=? d) = true /\ a = T - d)
                   /\ (forall b, mx = Some b ->
                                 exists d, (0 <=? d) = true /\ b = T + d)).
  { destruct (bounds_cases items storage T mn mx H)
      as [_ [_ [[_ [d [Hd [_ [-> ->]]]]]|[Hmd [Hnone [Hmn Hmx]]]]]].
    - split; [left; discriminate|].
      split; intros x Hx; inversion Hx; exists d; split;
        (exact Hd || reflexivity).
    - destruct (one_side_cases _ _ _ _ Hmn) as [[-> Hl]|[l [Hl [-> _]]]];
        destruct (one_side_cases _ _ _ _ Hmx) as [[-> Hg]|[g [Hg [-> _]]]].
      + exfalso. unfold thresholds_none in Hnone.
        rewrite Hmd, Hl, Hg in Hnone. discriminate Hnone.
      + split; [right; discriminate|].
        split; intros x Hx; inversion Hx. exists g. split;
          (exact Hg || reflexivity).
      + split; [left; discriminate|].
        split; intros x Hx; inversion Hx. exists l. split;
          (exact Hl || reflexivity).
      + split; [left; discriminate|].
        split; intros x Hx; inversion Hx; [exists l | exists g]; split;
          (assumption || reflexivity). }
  destruct Hsides as [Hsome [Hlow Hup]].
  split; [exact Hsome|]. split; [exact Hlow|]. split; [exact Hup|].
  intros obs addr. apply _compare_cases, Hsome.
Qed.

Lemma one_side_of_threshold (name : string) (v : PyVal)
    (bound : float -> float) (t : option float) :
  threshold_is float_of_str v t ->
  (forall d, t = Some d -> (0 <=? d) = true) ->
  one_side float_of_str name v bound = Ret (option_map bound t).
Proof.
  unfold one_side. destruct t as [d|]; cbn [threshold_is option_map].
  - intros [Hn Hd] Hpos. rewrite Hn, Hd. cbn [bind].
    rewrite (Hpos d eq_refl). reflexivity.
  - intros -> _. reflexivity.
Qed.

(** X2. A requirement of the asymmetric shape, with its thresholds [l] and [g]
    (each a float that is not negative, or [None], not both [None]) and
    target T, is converted to (T, T - l, T + g), the difference and the sum
    being those of the floats, a side being [None] where its threshold
    is. *)
Theorem asymmetric_range_bounds
    (req : Dict) (storage : PyVal) (T : float) (l g : option float) :
  malformed_keys req = false ->
  dict_mem "max_diff" req = false ->
  target_value_of float_of_str req storage = Ret T ->
  threshold_is float_of_str (dict_get less_key req) l ->
  threshold_is float_of_str (dict_get greater_key req) g ->
  (l <> None \/ g <> None) ->
  (forall d, l = Some d -> (0 <=? d) = true) ->
  (forall d, g = Some d -> (0 <=? d) = true) ->
  _get_min_max_value_from_expected_metrics float_of_str (VDict req) storage
  = Ret (T, option_map (fun d => T - d) l, option_map (fun d => T + d) g).
Proof.
  intros Hkeys Hmd HT Hl Hg Hsome Hlpos Hgpos.
  unfold _get_min_max_value_from_expected_metrics.
  unfold malformed_keys in Hkeys. rewrite Hmd in *.
  destruct (dict_mem "target_value" req), (dict_mem "base" req),
           (dict_mem less_key req), (dict_mem greater_key req);
    cbn [negb andb orb] in *; try discriminate Hkeys.
  all: rewrite HT; cbn [bind].
  all: assert (Hnone : is_none (dict_get less_key req)
                       && is_none (dict_get greater_key req) = false)
         by (destruct l as [dl|], g as [dg|]; cbn [threshold_is] in Hl, Hg;
             [ destruct Hl as [-> _]; reflexivity
             | destruct Hl as [-> _]; reflexivity
             | destruct Hg as [-> _]; apply andb_false_r
             | destruct Hsome as [H|H]; contradiction H; reflexivity ]).
  all: rewrite Hnone.
  all: rewrite (one_side_of_threshold greater_key _ _ g Hg Hgpos); cbn [bind].
  all: rewrite (one_side_of_threshold less_key _ _ l Hl Hlpos); reflexivity.
Qed.

(** X3. With at least one bound, and the target within the bounds, [_compare]
    passes exactly the observed values that respect every bound that is
    there, a value on a bound included; any other value fails with a reason
    that names the metric address. *)
Theorem compare_decides_interval
    (obs : float) (addr : string) (T : float) (mn mx : option float) :
  (mn <> None \/ mx <> None) ->
  lower_ok mn T ->
  upper_ok mx T ->
  (_compare obs addr T mn mx = Ret (true, None)
   <-> (lower_ok mn obs /\ upper_ok mx obs))
  /\ (~ (lower_ok mn obs /\ upper_ok mx obs) ->
      exists reason,
        _compare obs addr T mn mx = Ret (false, Some reason)
        /\ In (Interp (VStr addr)) reason)
  /\ (forall a, mn = Some a -> (a =? obs) = true -> lower_ok mn obs)
  /\ (forall b, mx = Some b -> (obs =? b) = true -> upper_ok mx obs).
Proof.
  intros Hsome Hlo Hhi.
  split; [|split; [|split]].
  - unfold _compare.
    destruct mn as [a|], mx as [b|]; cbn [lower_ok upper_ok] in *.
    + rewrite Hlo, Hhi. cbn [andb negb].
      destruct (a <=? obs), (obs <=? b); cbn [andb]; split;
        (tauto || discriminate || (intros [H1 H2]; discriminate)).
    + destruct (a <=? obs); split;
        (tauto || discriminate || (intros [H1 H2]; discriminate)).
    + destruct (obs <=? b); split;
        (tauto || discriminate || (intros [H1 H2]; discriminate)).
    + destruct Hsome as [H|H]; contradiction H; reflexivity.
  - unfold _compare.
    destruct mn as [a|], mx as [b|]; cbn [lower_ok upper_ok] in *.
    + rewrite Hlo, Hhi. cbn [andb negb].
      destruct (a <=? obs), (obs <=? b); cbn [andb]; intros Hout;
        try (exfalso; apply Hout; split; reflexivity);
        eexists; (split; [reflexivity|]); cbn; tauto.
    + destruct (a <=? obs); intros Hout;
        try (exfalso; apply Hout; split; [reflexivity | exact I]);
        eexists; (split; [reflexivity|]); cbn; tauto.
    + destruct (obs <=? b); intros Hout;
        try (exfalso; apply Hout; split; [exact I | reflexivity]);
        eexists; (split; [reflexivity|]); cbn; tauto.
    + destruct Hsome as [H|H]; contradiction H; reflexivity.
  - intros a -> Heq. cbn [lower_ok]. apply eqb_leb. exact Heq.
  - intros b -> Heq. cbn [upper_ok]. apply eqb_leb. exact Heq.
Qed.

(** X4. A tolerance that converts to a float that is negative (or NaN) is
    rejected with a [ValueError] that names its key: [max_diff] in the
    symmetric shape; in the asymmetric shape the greater threshold, which is
    looked at first, and then the less threshold. *)
Theorem negative_tolerance_is_rejected
    (req : Dict) (storage : PyVal) (T d : float) :
  malformed_keys req = false ->
  target_value_of float_of_str req storage = Ret T ->
  ((d <? 0) = true \/ PrimFloat.is_nan d = true) ->
  (dict_mem "max_diff" req = true ->
   py_float float_of_str (dict_get "max_diff" req) = Ret d ->
   _get_min_max_value_from_expected_metrics float_of_str (VDict req) storage
   = Raise (wrong_diff "max_diff" d))
  /\ (dict_mem "max_diff" req = false ->
      threshold_is float_of_str (dict_get greater_key req) (Some d) ->
      _get_min_max_value_from_expected_metrics float_of_str (VDict req) storage
      = Raise (wrong_diff greater_key d))
  /\ (dict_mem "max_diff" req = false ->
      forall g,
        threshold_is float_of_str (dict_get greater_key req) g ->
        (forall dg, g = Some dg -> (0 <=? dg) = true) ->
        threshold_is float_of_str (dict_get less_key req) (Some d) ->
        _get_min_max_value_from_expected_metrics float_of_str (VDict req)
          storage
        = Raise (wrong_diff less_key d)).
Proof.
  intros Hkeys HT Hneg.
  assert (Hd : (0 <=? d) = false).
  { destruct Hneg as [Hneg|Hnan];
      [apply ltb_not_leb, Hneg | apply nan_not_leb, Hnan]. }
  unfold _get_min_max_value_from_expected_metrics.
  unfold malformed_keys in Hkeys.
  split; [|split].
  - intros Hmd Hfloat. rewrite Hmd in *.
    destruct (dict_mem "target_value" req), (dict_mem "base" req),
             (dict_mem less_key req), (dict_mem greater_key req);
      cbn [negb andb orb] in *; try discriminate Hkeys.
    all: rewrite HT; cbn [bind]; rewrite Hfloat; cbn [bind]; rewrite Hd;
      reflexivity.
  - intros Hmd [Hn Hfloat]. rewrite Hmd in *.
    destruct (dict_mem "target_value" req), (dict_mem "base" req),
             (dict_mem less_key req), (dict_mem greater_key req);
      cbn [negb andb orb] in *; try discriminate Hkeys.
    all: rewrite HT; cbn [bind]; rewrite Hn, andb_false_r;
      unfold one_side; rewrite Hn, Hfloat; cbn [bind]; rewrite Hd;
      reflexivity.
  - intros Hmd g Hg Hgpos [Hn Hfloat]. rewrite Hmd in *.
    destruct (dict_mem "target_value" req), (dict_mem "base" req),
             (dict_mem less_key req), (dict_mem greater_key req);
      cbn [negb andb orb] in *; try discriminate Hkeys.
    all: rewrite HT; cbn [bind]; rewrite Hn; cbn [andb];
      rewrite (one_side_of_threshold greater_key _ _ g Hg Hgpos);
      cbn [bind]; unfold one_side; rewrite Hn, Hfloat; cbn [bind];
      rewrite Hd; reflexivity.
Qed.
End BoundsProperties.

(** ** Addresses and hard errors of the validation *)

Section AddressProperties.
Variable float_of_str : string -> option float.

Lemma concat_cons (k k' : string) (keys : list string) :
  String.concat "." (k :: k' :: keys)
  = k ++ String dot (String.concat "." (k' :: keys)).
Proof. reflexivity. Qed.

Lemma split_concat (keys : list string) :
  keys <> [] ->
  Forall (fun k => has_char dot k = false) keys ->
  split dot (String.concat "." keys) = keys.
Proof.
  induction keys as [|k keys IH]; intros Hne Hfree; [contradiction|].
  destruct keys as [|k' keys].
  - cbn [String.concat]. apply split_without_sep. apply (Forall_inv Hfree).
  - rewrite concat_cons, split_at_sep by apply (Forall_inv Hfree).
    rewrite IH; [reflexivity | discriminate | apply (Forall_inv_tail Hfree)].
Qed.

(** X5. Joining keys that hold no dot with dots gives an address that [split]
    takes apart into the same keys, so resolving it in a struct gives what
    the descent along these keys finds. *)
Theorem joined_address_resolves_along_its_keys
    (struct : PyVal) (keys : list string) :
  keys <> [] ->
  Forall (fun k => has_char dot k = false) keys ->
  split dot (String.concat "." keys) = keys
  /\ forall v,
       descend struct keys = Found v ->
       get_value_from_dict_by_dot_separated_address struct
         (VStr (String.concat "." keys))
       = Ret v.
Proof.
  intros Hne Hfree. pose proof (split_concat keys Hne Hfree) as Hsplit.
  split; [exact Hsplit|]. intros v Hv.
  unfold get_value_from_dict_by_dot_separated_address. rewrite Hsplit.
  pose proof (_get_descend struct (String.concat "." keys) keys struct) as H.
  rewrite Hv in H. exact H.
Qed.

Lemma py_float_raises (v : PyVal) (e : PyExc) :
  py_float float_of_str v = Raise e ->
  match v with
  | VInt _ => exc_class e = OverflowError
  | _ => is_ValueError_or_TypeError e = true
  end.
Proof.
  destruct v; cbn [py_float]; try (intros H; inversion H; reflexivity).
  - destruct (PrimFloat.is_infinity (float_of_Z z)); intros H; inversion H.
    reflexivity.
  - destruct (float_of_str s); intros H; inversion H; reflexivity.
Qed.

(** X6. How a metric that cannot be read stops the validation: an address that
    leads to an absent key gives the [ValueError] "Cannot get metric" with
    the address error as its cause, and so does a value that [float] refuses
    with a [ValueError] or a [TypeError]; but a value on the way that is not
    a mapping gives the bare [AssertionError] of the resolver, and an [int]
    beyond the range of the floats the bare [OverflowError] of [float]. *)
Theorem unreadable_metric_errors
    (current_result storage : PyVal) (k : string) (req : PyVal) :
  match descend current_result (split dot k) with
  | AbsentKey =>
      exists cause,
        check_metric float_of_str current_result storage k req
        = Raise (cannot_get_metric k current_result cause)
        /\ is_address_error cause = true
  | NotMapping =>
      check_metric float_of_str current_result storage k req
      = Raise (Exc AssertionError [] None)
  | Found v =>
      forall e,
        py_float float_of_str v = Raise e ->
        match v with
        | VInt _ =>
            exc_class e = OverflowError
            /\ check_metric float_of_str current_result storage k req
               = Raise e
        | _ =>
            check_metric float_of_str current_result storage k req
            = Raise (cannot_get_metric k current_result e)
        end
  end.
Proof.
  pose proof (_get_descend current_result k (split dot k) current_result)
    as H.
  unfold check_metric, get_value_from_dict_by_dot_separated_address.
  destruct (descend current_result (split dot k)) as [v| |].
  - intros e He. rewrite H. cbn [bind]. rewrite He.
    cbn [reraise_as_ValueError]. pose proof (py_float_raises v e He) as Hc.
    destruct v; try (rewrite Hc; reflexivity).
    split; [exact Hc|]. unfold is_ValueError_or_TypeError. rewrite Hc.
    reflexivity.
  - destruct H as [cause [Hc Ha]]. exists cause. rewrite Hc.
    split; [|exact Ha].
    destruct cause as [[] [|[s| |] msg] c]; try discriminate Ha. reflexivity.
  - rewrite H. reflexivity.
Qed.

Lemma _get_class (struct : PyVal) (address : string) (keys : list string) :
  forall cur e,
    _get struct address cur keys = Raise e ->
    exc_class e = ValueError \/ exc_class e = AssertionError.
Proof.
  induction keys as [|k keys IH]; intros cur e; cbn.
  - discriminate.
  - destruct cur; try (intros H; inversion H; right; reflexivity).
    destruct (dict_lookup k items) as [v|].
    + apply IH.
    + intros H; inversion H. left. reflexivity.
Qed.

Lemma reraise_class {A : Type} (msg : Msg) (m : Res A) (e : PyExc) :
  (forall e0, m = Raise e0 ->
     is_ValueError_or_TypeError e0 = true
     \/ is_hard_error_class (exc_class e0) = true) ->
  reraise_as_ValueError msg m = Raise e ->
  is_hard_error_class (exc_class e) = true.
Proof.
  intros Hm. unfold reraise_as_ValueError.
  destruct m as [a|e0]; [discriminate|].
  destruct (is_ValueError_or_TypeError e0) eqn:Hv; intros H; inversion H; subst.
  - reflexivity.
  - destruct (Hm _ eq_refl) as [H0|H0]; [congruence | exact H0].
Qed.

Lemma resolve_class (struct address : PyVal) (e : PyExc) :
  get_value_from_dict_by_dot_separated_address struct address = Raise e ->
  is_hard_error_class (exc_class e) = true.
Proof.
  unfold get_value_from_dict_by_dot_separated_address.
  destruct address; try (intros H; inversion H; reflexivity).
  intros H. destruct (_get_class _ _ _ _ _ H) as [-> | ->]; reflexivity.
Qed.

Lemma py_float_class (v : PyVal) (e : PyExc) :
  py_float float_of_str v = Raise e ->
  is_ValueError_or_TypeError e = true
  \/ is_hard_error_class (exc_class e) = true.
Proof.
  intros H. pose proof (py_float_raises v e H) as Hc.
  destruct v; try (left; exact Hc). right. rewrite Hc. reflexivity.
Qed.

Lemma target_value_of_class (req : Dict) (storage : PyVal) (e : PyExc) :
  (dict_mem "target_value" req || dict_mem "base" req) = true ->
  target_value_of float_of_str req storage = Raise e ->
  is_ValueError_or_TypeError e = true
  \/ is_hard_error_class (exc_class e) = true.
Proof.
  unfold target_value_of. intros Hkeys.
  destruct (dict_mem "target_value" req); [apply py_float_class|].
  destruct (dict_mem "base" req); [|discriminate Hkeys].
  destruct (get_value_from_dict_by_dot_separated_address storage
              (dict_get "base" req)) as [v|e0] eqn:Hr; cbn [bind].
  - apply py_float_class.
  - intros H; inversion H; subst. right. apply (resolve_class _ _ _ Hr).
Qed.

Lemma one_side_class (name : string) (threshold : PyVal)
    (bound : float -> float) (e : PyExc) :
  one_side float_of_str name threshold bound = Raise e ->
  is_ValueError_or_TypeError e = true
  \/ is_hard_error_class (exc_class e) = true.
Proof.
  unfold one_side. destruct (is_none threshold); [discriminate|].
  destruct (py_float float_of_str threshold) as [d|e0] eqn:Hd; cbn [bind].
  - destruct (negb (0 <=? d)%float); intros H; inversion H. left.
    reflexivity.
  - intros H; inversion H; subst. apply (py_float_class _ _ Hd).
Qed.

Lemma bounds_class (req storage : PyVal) (e : PyExc) :
  _get_min_max_value_from_expected_metrics float_of_str req storage = Raise e ->
  is_ValueError_or_TypeError e = true
  \/ is_hard_error_class (exc_class e) = true.
Proof.
  unfold _get_min_max_value_from_expected_metrics.
  destruct req as [| | | |items|];
    try (intros H; inversion H; right; reflexivity).
  destruct (dict_mem "target_value" items) eqn:Htv,
           (dict_mem "base" items) eqn:Hb,
           (dict_mem "max_diff" items), (dict_mem less_key items),
           (dict_mem greater_key items);
    cbn [negb andb orb];
    try (intros H; inversion H; left; reflexivity).
  all: destruct (target_value_of float_of_str items storage) as [T|e0] eqn:HT;
    cbn [bind];
    [| intros H; inversion H; subst;
       apply (target_value_of_class items storage); [|exact HT];
       rewrite Htv, Hb; reflexivity ].
  all: try (destruct (py_float float_of_str (dict_get "max_diff" items))
              as [d|e1] eqn:Hd; cbn [bind];
            [ destruct (negb (0 <=? d)%float);
              intros H; inversion H; left; reflexivity
            | intros H; inversion H; subst;
              apply (py_float_class _ _ Hd) ]).
  all: destruct (is_none (dict_get less_key items)
                 && is_none (dict_get greater_key items));
    [intros H; inversion H; left; reflexivity|].
  all: destruct (one_side float_of_str greater_key
                   (dict_get greater_key items) (fun d => T + d)%float)
         as [mx|e1] eqn:Hmx; cbn [bind];
    [| intros H; inversion H; subst; apply (one_side_class _ _ _ _ Hmx)].
  all: destruct (one_side float_of_str less_key
                   (dict_get less_key items) (fun d => T - d)%float)
         as [mn|e2] eqn:Hmn; cbn [bind];
    [ discriminate
    | intros H; inversion H; subst; apply (one_side_class _ _ _ _ Hmn)].
Qed.

Lemma _compare_class (obs : float) (addr : string) (T : float)
    (mn mx : option float) (e : PyExc) :
  _compare obs addr T mn mx = Raise e ->
  is_hard_error_class (exc_class e) = true.
Proof.
  unfold _compare. destruct mn as [a|], mx as [b|].
  - destruct (negb ((a <=? T) && (T <=? b))%float).
    + intros H; inversion H; reflexivity.
    + destruct ((a <=? obs) && (obs <=? b))%float; discriminate.
  - destruct (a <=? obs)%float; discriminate.
  - destruct (obs <=? b)%float; discriminate.
  - intros H; inversion H; reflexivity.
Qed.

Lemma check_metric_class (result storage : PyVal) (k : string) (req : PyVal)
    (e : PyExc) :
  check_metric float_of_str result storage k req = Raise e ->
  is_hard_error_class (exc_class e) = true.
Proof.
  unfold check_metric.
  destruct (reraise_as_ValueError _ _) as [obs|e0] eqn:Hobs at 1;
    cbn [bind].
  - destruct (reraise_as_ValueError _ _) as [[[T mn] mx]|e1] eqn:Hb at 1;
      cbn [bind].
    + apply _compare_class.
    + intros H; inversion H; subst.
      apply (reraise_class _ _ _ (bounds_class req storage) Hb).
  - intros H; inversion H; subst.
    refine (reraise_class _ _ _ _ Hobs).
    intros e1.
    destruct (get_value_from_dict_by_dot_separated_address result (VStr k))
      as [v|e2] eqn:Hr; cbn [bind].
    + apply py_float_class.
    + intros H1; inversion H1; subst. right. apply (resolve_class _ _ _ Hr).
Qed.

Lemma validate_loop_stops (result storage : PyVal) (pre : Dict) (k : string)
    (req : PyVal) (post : Dict) (e : PyExc) :
  (forall k' req', In (k', req') pre ->
     exists out, check_metric float_of_str result storage k' req' = Ret out) ->
  check_metric float_of_str result storage k req = Raise e ->
  forall is_passed fail_reasons,
    validate_loop float_of_str result storage (pre ++ (k, req) :: post)%list
      is_passed fail_reasons
    = Raise e.
Proof.
  intros Hpre He. induction pre as [|[k' req'] pre IH];
    intros is_passed fail_reasons; cbn [app validate_loop].
  - rewrite He. reflexivity.
  - destruct (Hpre k' req' (or_introl eq_refl)) as [[passed reason] Hout].
    rewrite Hout. cbn [bind].
    assert (Hrest : forall k0 req0, In (k0, req0) pre ->
              exists out,
                check_metric float_of_str result storage k0 req0 = Ret out)
      by (intros k0 req0 Hin; apply Hpre; right; exact Hin).
    destruct (negb passed); apply (IH Hrest).
Qed.

(** X7. An expected metric that cannot be checked stops [validate] at once: it
    raises the error of that metric, a [ValueError], [AssertionError],
    [AttributeError] or [OverflowError], and not the aggregate failure; the
    comparisons that failed before it are not reported, and the metrics
    after it are not looked at. *)
Theorem validate_stops_at_first_error
    (v : Validator) (result storage : PyVal) (pre : Dict) (k : string)
    (req : PyVal) (post : Dict) (e : PyExc) :
  cur_test_expected_metrics_callback v
  = Some (Ret (VDict (pre ++ (k, req) :: post)%list)) ->
  (forall k' req', In (k', req') pre ->
     exists out, check_metric float_of_str result storage k' req' = Ret out) ->
  check_metric float_of_str result storage k req = Raise e ->
  validate float_of_str v result storage = Raise e
  /\ is_hard_error_class (exc_class e) = true
  /\ exc_class e <> Failed.
Proof.
  intros Hcb Hpre He.
  pose proof (check_metric_class result storage k req e He) as Hclass.
  split; [|split; [exact Hclass|]].
  - unfold validate. rewrite Hcb. cbn [bind].
    rewrite (validate_loop_stops result storage pre k req post e Hpre He).
    reflexivity.
  - intros Hf. rewrite Hf in Hclass. discriminate Hclass.
Qed.

Lemma joined_keys_resolve (struct : PyVal) (keys : list string) :
  keys <> [] ->
  Forall (fun k => has_char dot k = false) keys ->
  forall v,
    descend struct keys = Found v ->
    get_value_from_dict_by_dot_separated_address struct
      (VStr (String.concat "." keys))
    = Ret v.
Proof.
  intros Hne Hfree v Hv.
  unfold get_value_from_dict_by_dot_separated_address.
  rewrite (split_concat keys Hne Hfree).
  pose proof (_get_descend struct (String.concat "." keys) keys struct) as H.
  rewrite Hv in H. exact H.
Qed.

Lemma dict_mem_true_iff {V : Type} (k : string) (d : list (string * V)) :
  dict_mem k d = true <-> exists x, dict_lookup k d = Some x.
Proof.
  induction d as [|[k' x'] d IH]; cbn.
  - split; [discriminate | intros [x H]; discriminate H].
  - destruct (String.eqb k k'); [|exact IH].
    split; [intros _; exists x'; reflexivity | reflexivity].
Qed.
End AddressProperties.

(** ** More on run_once *)

Section RunProperties.
Variable float_of_str : string -> option float.
Variable E : Type.

Implicit Types (w : World E) (s : OTETestStage E) (v : option Validator).

(** X8. A stage that is not processed and finds its name in the storage is
    refused with the error of a duplicate stage: its action is not called
    and nothing changes after the stages it depends on have run; asking
    again gives the same error, for this error is not stored. *)
Theorem duplicate_name_is_refused
    (ref : nat) (a : BaseOTETestAction E) (deps : list (OTETestStage E))
    v v' w wd :
  clean w ->
  run_dependencies float_of_str deps w = (wd, Ret tt) ->
  was_processed (stage_state wd ref) = false ->
  dict_mem (name a) (test_results_storage wd) = true ->
  run_once float_of_str (Stage ref a deps) v w
  = (wd, Raise (duplicate_stage (name a)))
  /\ run_once float_of_str (Stage ref a deps) v' wd
     = (wd, Raise (duplicate_stage (name a))).
Proof.
  intros Hclean Hdeps Hnp Hname.
  assert (Hown : forall v0,
            run_own float_of_str ref a v0 wd
            = (wd, Raise (duplicate_stage (name a))))
    by (intros v0; unfold run_own; rewrite Hnp, Hname; reflexivity).
  split.
  - rewrite run_once_eq, Hdeps. apply Hown.
  - rewrite run_once_eq.
    rewrite (dependencies_replay float_of_str E deps wd
               (dependencies_settled float_of_str E deps w wd Hclean Hdeps)).
    apply Hown.
Qed.

Lemma run_dependencies_app (before after : list (OTETestStage E)) w :
  run_dependencies float_of_str (before ++ after) w
  = match run_dependencies float_of_str before w with
    | (w', Ret _) => run_dependencies float_of_str after w'
    | (w', Raise e) => (w', Raise e)
    end.
Proof.
  revert w. induction before as [|d before IH]; intros w.
  - reflexivity.
  - cbn [app]. rewrite !run_dependencies_cons.
    destruct (run_once float_of_str d None w) as [w1 [[]|e]];
      [apply IH | reflexivity].
Qed.

(** X9. When a stage it depends on raises, [run_once] stops there: it raises
    the same exception, the stages later in [depends_stages] are not run,
    the action of the stage itself is not called, and the world is the one
    the failed dependency left. *)
Theorem failed_dependency_stops_the_stage
    (ref : nat) (a : BaseOTETestAction E)
    (before after : list (OTETestStage E)) (d : OTETestStage E)
    v w wb wd (e : PyExc) :
  run_dependencies float_of_str before w = (wb, Ret tt) ->
  run_once float_of_str d None wb = (wd, Raise e) ->
  run_once float_of_str (Stage ref a (before ++ d :: after)) v w
  = (wd, Raise e).
Proof.
  intros Hbefore Hd.
  rewrite run_once_eq, run_dependencies_app, Hbefore.
  rewrite run_dependencies_cons, Hd. reflexivity.
Qed.

Lemma dict_set_new {V : Type} (k : string) (x : V) (d : list (string * V)) :
  dict_mem k d = false -> dict_set k x d = (d ++ [(k, x)])%list.
Proof.
  induction d as [|[k' x'] d IH]; cbn; intros H; [reflexivity|].
  destruct (String.eqb k k'); [discriminate H|].
  rewrite (IH H). reflexivity.
Qed.

Lemma dict_lookup_app {V : Type} (k : string) (x : V)
    (d d' : list (string * V)) :
  dict_lookup k d = Some x -> dict_lookup k (d ++ d') = Some x.
Proof.
  induction d as [|[k' x'] d IH]; cbn; intros H; [discriminate H|].
  destruct (String.eqb k k'); [exact H | apply IH, H].
Qed.

Lemma run_own_appends (ref : nat) (a : BaseOTETestAction E) v w :
  exists added,
    test_results_storage (fst (run_own float_of_str ref a v w))
    = (test_results_storage w ++ added)%list.
Proof.
  unfold run_own.
  destruct (was_processed (stage_state w ref)).
  - destruct (stored_exception (stage_state w ref)).
    + exists []. symmetry. apply app_nil_r.
    + destruct (_run_validation_state float_of_str E ref a v w)
        as [_ [Ht _]].
      rewrite Ht. exists []. symmetry. apply app_nil_r.
  - destruct (dict_mem (name a) (test_results_storage w)) eqn:Hname.
    + exists []. symmetry. apply app_nil_r.
    + cbn [log_event test_results_storage ext log stage_state].
      destruct (call a (Some (test_results_storage w)) (ext w))
        as [x [res|e]].
      * match goal with
        | |- context [_run_validation float_of_str ref a v ?w0] =>
            destruct (_run_validation_state float_of_str E ref a v w0)
              as [_ [Ht _]]
        end.
        rewrite Ht. cbn [test_results_storage].
        exists [(name a, res)]. apply dict_set_new, Hname.
      * exists []. destruct (is_Exception e); symmetry; apply app_nil_r.
Qed.

Lemma run_once_appends s :
  forall v w,
    exists added,
      test_results_storage (fst (run_once float_of_str s v w))
      = (test_results_storage w ++ added)%list.
Proof.
  induction s as [ref a deps IH] using stage_induction. intros v w.
  rewrite run_once_eq.
  assert (Hdeps : forall w0,
            exists added,
              test_results_storage
                (fst (run_dependencies float_of_str deps w0))
              = (test_results_storage w0 ++ added)%list).
  { induction deps as [|d deps IHd]; intros w0.
    - exists []. symmetry. apply app_nil_r.
    - rewrite run_dependencies_cons.
      destruct (Forall_inv IH None w0) as [added1 H1].
      destruct (run_once float_of_str d None w0) as [w1 [[]|e]];
        cbn [fst] in *.
      + destruct (IHd (Forall_inv_tail IH) w1) as [added2 H2].
        exists (added1 ++ added2)%list. rewrite H2, H1. symmetry. apply app_assoc.
      + exists added1. exact H1. }
  destruct (Hdeps w) as [added1 H1].
  destruct (run_dependencies float_of_str deps w) as [wd [[]|e]];
    cbn [fst] in *.
  - destruct (run_own_appends ref a v wd) as [added2 H2].
    exists (added1 ++ added2)%list. rewrite H2, H1. symmetry. apply app_assoc.
  - exists added1. exact H1.
Qed.

(** X10. [run_once] only appends to the storage: what it holds afterwards is what
    it held before, in the same order, followed by the new entries; so an
    entry that is there stays, with the same results. *)
Theorem storage_is_only_appended_to s v w :
  (exists added,
     test_results_storage (fst (run_once float_of_str s v w))
     = (test_results_storage w ++ added)%list)
  /\ forall k results,
       dict_lookup k (test_results_storage w) = Some results ->
       dict_lookup k (test_results_storage (fst (run_once float_of_str s v w)))
       = Some results.
Proof.
  destruct (run_once_appends s v w) as [added H].
  split; [exists added; exact H|].
  intros k results Hk. rewrite H. apply dict_lookup_app, Hk.
Qed.

(** X11. After a [run_once] that returned, the stage and everything it depends
    on have succeeded, and running the stage again without a validator
    returns at once and leaves the world exactly as it is. *)
Theorem successful_run_is_replayed_unchanged s v w w' :
  clean w ->
  run_once float_of_str s v w = (w', Ret tt) ->
  settled (stage_state w') s = true
  /\ run_once float_of_str s None w' = (w', Ret tt).
Proof.
  intros Hclean Hrun.
  pose proof (run_once_ret_settled float_of_str E s v w w' Hclean Hrun) as Hs.
  split; [exact Hs | apply settled_replays, Hs].
Qed.

Lemma run_once_preserves (root : OTETestStage E) (P : World E -> Prop) :
  (forall ref a deps v w,
     In (Stage ref a deps) (nodes root) ->
     P w -> P (fst (run_own float_of_str ref a v w))) ->
  forall s,
    In s (nodes root) ->
    forall v w, P w -> P (fst (run_once float_of_str s v w)).
Proof.
  intros Hown.
  induction s as [ref a deps IH] using stage_induction.
  intros Hin v w HP. rewrite run_once_eq.
  assert (Hdeps : forall w0,
            P w0 -> P (fst (run_dependencies float_of_str deps w0))).
  { assert (Hsub : forall d, In d deps -> In d (nodes root)).
    { intros d Hd.
      apply (nodes_trans E root (Stage ref a deps) d Hin).
      apply nodes_dependency, Hd. }
    clear Hin. induction deps as [|d deps IHd]; intros w0 HP0; [exact HP0|].
    rewrite run_dependencies_cons.
    pose proof (Forall_inv IH (Hsub d (or_introl eq_refl)) None w0 HP0) as H1.
    destruct (run_once float_of_str d None w0) as [w1 [[]|e]];
      cbn [fst] in *; [|exact H1].
    apply IHd; [apply (Forall_inv_tail IH) | | exact H1].
    intros d' Hd'. apply Hsub. right. exact Hd'. }
  specialize (Hdeps w HP).
  destruct (run_dependencies float_of_str deps w) as [wd [[]|e]];
    cbn [fst] in *; [|exact Hdeps].
  apply (Hown ref a deps); assumption.
Qed.

Lemma reached_preserves (root : OTETestStage E) (P : World E -> Prop) :
  (forall x, P (fresh_world x)) ->
  (forall w x,
     P w ->
     P {| stage_state := stage_state w;
          test_results_storage := test_results_storage w;
          ext := x;
          log := log w |}) ->
  (forall ref a deps v w,
     In (Stage ref a deps) (nodes root) ->
     P w -> P (fst (run_own float_of_str ref a v w))) ->
  forall w, reached float_of_str root w -> P w.
Proof.
  intros Hfresh Hout Hown w. induction 1 as [x|w s v _ IH Hin|w x _ IH].
  - apply Hfresh.
  - apply (run_once_preserves root P Hown s Hin), IH.
  - apply Hout, IH.
Qed.

Lemma run_own_called_at_most_once (ref : nat) (a : BaseOTETestAction E) v w :
  raises_only_exceptions a ->
  called_at_most_once w ->
  called_at_most_once (fst (run_own float_of_str ref a v w)).
Proof.
  intros Hwb Hw r. destruct (Hw r) as [Hle Hzero]. unfold run_own.
  destruct (was_processed (stage_state w ref)) eqn:Hproc.
  - destruct (stored_exception (stage_state w ref)); [split; assumption|].
    destruct (_run_validation_state float_of_str E ref a v w)
      as [Hs [_ [_ Hc]]].
    rewrite Hs, Hc. split; assumption.
  - destruct (dict_mem (name a) (test_results_storage w));
      [split; assumption|].
    cbn [log_event test_results_storage ext log stage_state].
    destruct (call a (Some (test_results_storage w)) (ext w))
      as [x [res|e]] eqn:Hcall.
    + match goal with
      | |- context [_run_validation float_of_str ref a v ?w0] =>
          destruct (_run_validation_state float_of_str E ref a v w0)
            as [Hs [_ [_ Hc]]]
      end.
      rewrite Hs, Hc. cbn [stage_state log].
      destruct (Nat.eq_dec r ref) as [->|Hne].
      * rewrite update_same, calls_of_own.
        destruct (Hw ref) as [_ Hz]. rewrite (Hz Hproc). cbn.
        split; [apply Nat.le_refl | discriminate].
      * rewrite update_other by assumption.
        rewrite (calls_of_other ref r) by exact Hne.
        split; assumption.
    + rewrite (Hwb _ _ _ _ Hcall). cbn [fst stage_state log].
      destruct (Nat.eq_dec r ref) as [->|Hne].
      * rewrite update_same, calls_of_own.
        destruct (Hw ref) as [_ Hz]. rewrite (Hz Hproc). cbn.
        split; [apply Nat.le_refl | discriminate].
      * rewrite update_other by assumption.
        rewrite (calls_of_other ref r) by exact Hne.
        split; assumption.
Qed.

Lemma reached_called_at_most_once (root : OTETestStage E) w :
  well_behaved root ->
  reached float_of_str root w ->
  called_at_most_once w.
Proof.
  intros Hwb Hreached.
  apply (reached_preserves root called_at_most_once); try assumption.
  - intros x r. cbn. split; [apply Nat.le_0_l | reflexivity].
  - intros w0 x H r. apply (H r).
  - intros ref0 a deps v w0 Hin.
    apply run_own_called_at_most_once. apply (Hwb _ Hin).
Qed.

(** X12. When the actions of a graph of stages raise nothing but [Exception]s,
    then in every world a test case goes through, however its stages were
    run and re-run, the action of each stage object has been called at most
    once, and not at all while the stage is not processed. *)
Theorem well_behaved_actions_run_at_most_once
    (root : OTETestStage E) w (ref : nat) :
  well_behaved root ->
  reached float_of_str root w ->
  (calls_of ref (log w) <= 1)%nat
  /\ (was_processed (stage_state w ref) = false ->
      calls_of ref (log w) = 0%nat).
Proof.
  intros Hwb Hreached.
  apply (reached_called_at_most_once root w Hwb Hreached).
Qed.

Lemma dict_lookup_set_other {V : Type} (k k' : string) (x : V)
    (d : list (string * V)) :
  k' <> k -> dict_lookup k' (dict_set k x d) = dict_lookup k' d.
Proof.
  intros Hne. induction d as [|[k0 x0] d IH]; cbn.
  - apply String.eqb_neq in Hne. rewrite Hne. reflexivity.
  - destruct (String.eqb k k0) eqn:Hk; cbn.
    + apply String.eqb_eq in Hk. subst k0.
      apply String.eqb_neq in Hne. rewrite Hne. reflexivity.
    + rewrite IH. reflexivity.
Qed.

Lemma run_own_holds_results (root : OTETestStage E) (ref : nat)
    (a : BaseOTETestAction E) (deps : list (OTETestStage E)) v w :
  unique_names root ->
  In (Stage ref a deps) (nodes root) ->
  clean w /\ store_holds_results root w ->
  clean (fst (run_own float_of_str ref a v w))
  /\ store_holds_results root (fst (run_own float_of_str ref a v w)).
Proof.
  intros Huniq Hself [Hclean Hh].
  split; [apply run_own_clean, Hclean|]. unfold run_own.
  destruct (was_processed (stage_state w ref)) eqn:Hproc.
  - destruct (stored_exception (stage_state w ref)); [exact Hh|].
    destruct (_run_validation_state float_of_str E ref a v w)
      as [Hs [Ht _]].
    intros s' Hin. unfold succeeded. rewrite Hs, Ht. apply Hh, Hin.
  - destruct (dict_mem (name a) (test_results_storage w)) eqn:Hname;
      [exact Hh|].
    cbn [log_event test_results_storage ext log stage_state].
    destruct (call a (Some (test_results_storage w)) (ext w)) as [x [res|e]].
    + match goal with
      | |- context [_run_validation float_of_str ref a v ?w0] =>
          destruct (_run_validation_state float_of_str E ref a v w0)
            as [Hs [Ht _]]
      end.
      intros s' Hin. unfold succeeded. rewrite Hs, Ht.
      cbn [stage_state test_results_storage].
      destruct (Nat.eq_dec (stage_ref s') ref) as [Heq|Hne].
      * assert (Hn : stage_name s' = name a)
          by (apply (Huniq s' (Stage ref a deps) Hin Hself); exact Heq).
        rewrite Hn, Heq, update_same. intros _.
        apply dict_lookup_set_same.
      * assert (Hn : stage_name s' <> name a).
        { intros Hn. apply Hne.
          apply (Huniq s' (Stage ref a deps) Hin Hself). exact Hn. }
        rewrite update_other by assumption.
        rewrite dict_lookup_set_other by exact Hn. apply Hh, Hin.
    + destruct (is_Exception e); cbn [fst]; [|exact Hh].
      intros s' Hin. unfold succeeded.
      cbn [stage_state test_results_storage].
      destruct (Nat.eq_dec (stage_ref s') ref) as [Heq|Hne].
      * rewrite Heq, update_same. cbn.
        intros [_ H]. discriminate H.
      * rewrite update_other by assumption. apply Hh, Hin.
Qed.

Lemma reached_holds_results (root : OTETestStage E) w :
  unique_names root ->
  reached float_of_str root w ->
  store_holds_results root w.
Proof.
  intros Huniq Hreached.
  assert (H : clean w /\ store_holds_results root w).
  { apply (reached_preserves root
             (fun w0 => clean w0 /\ store_holds_results root w0));
      try assumption.
    - intros x. split; [apply fresh_world_clean|].
      intros s0 _ [Hp _]. discriminate Hp.
    - intros w0 x H0. exact H0.
    - intros ref a deps v w0 Hin.
      apply (run_own_holds_results root ref a deps); assumption. }
  apply H.
Qed.

(** X13. In every world a test case goes through, stage names being unique, the
    storage holds under the name of each stage that succeeded exactly the
    results the stage object keeps in [stage_results]. *)
Theorem storage_holds_the_cached_results
    (root : OTETestStage E) w s :
  unique_names root ->
  reached float_of_str root w ->
  In s (nodes root) ->
  succeeded w (stage_ref s) ->
  dict_lookup (stage_name s) (test_results_storage w)
  = Some (stage_results (stage_state w (stage_ref s))).
Proof.
  intros Huniq Hreached. apply (reached_holds_results root w Huniq Hreached).
Qed.
End RunProperties.

(** ** The graph of the test case *)

Section TestCaseProperties.
Variable float_of_str : string -> option float.
Variable E : Type.
Variable run_ote :
  ActionClass -> Dict -> Dict -> E -> E * Res (string -> PyVal).
Variable run_ote_evaluation :
  ActionClass -> Dict -> Dict -> E -> E * Res (string * PyVal).

Ltac run_external Hote Heval :=
  match goal with
  | |- context [run_ote ?a ?i ?k ?x] =>
      let x' := fresh "x" in
      let self := fresh "self" in
      let Heq := fresh "Heq" in
      destruct (Hote a i k x) as [x' [self Heq]]; rewrite Heq; clear Heq
  | |- context [run_ote_evaluation ?a ?i ?k ?x] =>
      let x' := fresh "x" in
      let score := fresh "score" in
      let Heq := fresh "Heq" in
      destruct (Heval a i k x) as [x' [score Heq]]; rewrite Heq; clear Heq
  end.

(** X14. The graph supplies what the actions read. In a new test case, when the
    methods of the actions return, [run_once] on any of the ten stages
    returns: no action, the POT action with its missing check included,
    comes to read the results of a stage that has not run before it. *)
Theorem every_stage_finds_its_prior_results
    (dp tp iters batch : PyVal) (x : E) :
  (forall a init kwargs x0,
     exists x1 self, run_ote a init kwargs x0 = (x1, Ret self)) ->
  (forall a init kwargs x0,
     exists x1 score,
       run_ote_evaluation a init kwargs x0 = (x1, Ret score)) ->
  Forall (fun stage =>
            snd (run_once float_of_str stage None (fresh_world x)) = Ret tt)
    (list_all_stages E run_ote run_ote_evaluation dp tp iters batch).
Proof.
  intros Hote Heval.
  unfold list_all_stages, nncf_export_evaluation_stage, nncf_export_stage,
    nncf_evaluation_stage, nncf_stage, pot_evaluation_stage, pot_stage,
    export_evaluation_stage, export_stage, training_evaluation_stage,
    training_stage, new_action, action, fresh_world.
  repeat constructor.
  all: cbn -[validate]; repeat (run_external Hote Heval; cbn -[validate]).
  all: reflexivity.
Qed.

Lemma find_stage_absent (name : string)
    (stages : list (string * OTETestStage E)) :
  ~ In name (map fst stages) -> find_stage E name stages = None.
Proof.
  induction stages as [|[n s] stages IH]; cbn; intros H; [reflexivity|].
  destruct (String.eqb name n) eqn:Hn.
  - apply String.eqb_eq in Hn. exfalso. apply H. left. congruence.
  - apply IH. intros Hin. apply H. right. exact Hin.
Qed.

(** X15. The names under which a test case keeps its stages are those of
    [_TEST_STAGES], in this order, so the assertion at the end of
    [__init__] holds. [run_stage] finds for each of these names the stage of
    that name; for any other name it fails its assertion and leaves the
    test case, the outside and the log as they are. *)
Theorem run_stage_knows_the_test_stages
    (self : OTEIntegrationTestCase) (validator : Validator) (x : E)
    (events : list Event) :
  let stages :=
    _stages E run_ote run_ote_evaluation (dataset_params self)
      (template_file_path self) (num_training_iters self) (batch_size self) in
  map fst stages = _TEST_STAGES
  /\ (forall name,
        In name _TEST_STAGES ->
        exists stage,
          find_stage E name stages = Some stage
          /\ stage_name stage = name
          /\ run_stage float_of_str E run_ote run_ote_evaluation self name
               validator x events
             = (let '(w, r) :=
                  run_once float_of_str stage (Some validator)
                    {| stage_state := stages_state self;
                       test_results_storage := results_storage self;
                       ext := x;
                       log := events |} in
                ({| dataset_params := dataset_params self;
                    template_file_path := template_file_path self;
                    num_training_iters := num_training_iters self;
                    batch_size := batch_size self;
                    stages_state := stage_state w;
                    results_storage := test_results_storage w |},
                 ext w, log w, r)))
  /\ (forall name,
        ~ In name _TEST_STAGES ->
        exists e,
          run_stage float_of_str E run_ote run_ote_evaluation self name
            validator x events
          = (self, x, events, Raise e)
          /\ exc_class e = AssertionError).
Proof.
  intros stages.
  assert (Hkeys : map fst stages = _TEST_STAGES) by reflexivity.
  split; [exact Hkeys|]. split.
  - intros name Hin. unfold run_stage. fold stages.
    cbn in Hin.
    repeat (destruct Hin as [<-|Hin];
            [eexists; split; [reflexivity|]; split; reflexivity|]).
    contradiction.
  - intros name Hout. unfold run_stage. fold stages.
    rewrite find_stage_absent by (rewrite Hkeys; exact Hout).
    eexists. split; reflexivity.
Qed.

Lemma unique_names_by_tables (root : OTETestStage E) :
  Forall (fun s => stage_name s = name_of_ref (stage_ref s)
                   /\ stage_ref s = ref_of_name (stage_name s))
    (nodes root) ->
  unique_names root.
Proof.
  intros H s1 s2 H1 H2. rewrite Forall_forall in H.
  destruct (H s1 H1) as [Hn1 Hr1]. destruct (H s2 H2) as [Hn2 Hr2].
  split; intros Heq.
  - rewrite Hr1, Hr2, Heq. reflexivity.
  - rewrite Hn1, Hn2, Heq. reflexivity.
Qed.

Lemma whole_graph_unique_names (dp tp iters batch : PyVal) :
  unique_names (whole_graph E run_ote run_ote_evaluation dp tp iters batch).
Proof.
  apply unique_names_by_tables.
  unfold whole_graph, list_all_stages, nncf_export_evaluation_stage,
    nncf_export_stage, nncf_evaluation_stage, nncf_stage,
    pot_evaluation_stage, pot_stage, export_evaluation_stage, export_stage,
    training_evaluation_stage, training_stage, new_action, action.
  cbn [nodes flat_map app].
  repeat (constructor; [split; reflexivity|]). constructor.
Qed.

Lemma _check_result_prev_stages_class (name : string) (prior : option Dict)
    (required : list string) (e : PyExc) :
  _check_result_prev_stages name prior required = Raise e ->
  is_Exception e = true.
Proof.
  induction required as [|r required IH]; cbn; [discriminate|].
  destruct (falsy prior || absent_in r prior); [|exact IH].
  intros H; inversion H; reflexivity.
Qed.

Lemma subscript_class (v : PyVal) (k : string) (e : PyExc) :
  subscript v k = Raise e -> is_Exception e = true.
Proof.
  unfold subscript. destruct v; try (intros H; inversion H; reflexivity).
  destruct (dict_lookup k items); [discriminate|].
  intros H; inversion H; reflexivity.
Qed.

Lemma build_kwargs_class (prior : option Dict)
    (spec : list (string * (string * string))) (e : PyExc) :
  build_kwargs prior spec = Raise e -> is_Exception e = true.
Proof.
  induction spec as [|[kw [stage key]] spec IH]; cbn; [discriminate|].
  destruct (subscript (optional_dict prior) stage) as [r|e0] eqn:H1;
    cbn [bind]; [|intros H; inversion H; subst; apply (subscript_class _ _ _ H1)].
  destruct (subscript r key) as [v|e0] eqn:H2;
    cbn [bind]; [|intros H; inversion H; subst; apply (subscript_class _ _ _ H2)].
  destruct (build_kwargs prior spec) as [rest|e0]; cbn [bind];
    [discriminate|].
  intros H; inversion H; subst. apply IH. reflexivity.
Qed.

Lemma action_raises_only_exceptions (a : ActionClass) (init : Dict) :
  methods_raise_only_exceptions E run_ote run_ote_evaluation ->
  raises_only_exceptions (action run_ote run_ote_evaluation a init).
Proof.
  intros [Hote Heval] prior x x' e. cbn [call action]. unfold action_call.
  destruct (_check_result_prev_stages (_name a) prior (checked_stages a))
    as [[]|e0] eqn:Hcheck;
    [|intros H; inversion H; subst;
      apply (_check_result_prev_stages_class _ _ _ _ Hcheck)].
  destruct (build_kwargs prior (kwargs_of a)) as [kwargs|e0] eqn:Hkw;
    [|intros H; inversion H; subst; apply (build_kwargs_class _ _ _ Hkw)].
  destruct (_with_validation a).
  - destruct (run_ote_evaluation a init kwargs x) as [x1 [score|e1]] eqn:Hrun;
      cbn [bind]; intros H; inversion H; subst.
    apply (Heval _ _ _ _ _ _ Hrun).
  - destruct (run_ote a init kwargs x) as [x1 [self|e1]] eqn:Hrun;
      cbn [bind]; intros H; inversion H; subst.
    apply (Hote _ _ _ _ _ _ Hrun).
Qed.

Lemma whole_graph_well_behaved (dp tp iters batch : PyVal) :
  methods_raise_only_exceptions E run_ote run_ote_evaluation ->
  well_behaved (whole_graph E run_ote run_ote_evaluation dp tp iters batch).
Proof.
  intros Hm s Hin.
  assert (H : Forall (fun s0 => raises_only_exceptions (stage_action s0))
                (nodes (whole_graph E run_ote run_ote_evaluation
                          dp tp iters batch))).
  { unfold whole_graph, list_all_stages, nncf_export_evaluation_stage,
      nncf_export_stage, nncf_evaluation_stage, nncf_stage,
      pot_evaluation_stage, pot_stage, export_evaluation_stage, export_stage,
      training_evaluation_stage, training_stage, new_action.
    cbn [nodes flat_map app stage_action].
    constructor; [intros prior x x' e H; inversion H|].
    repeat (constructor; [apply action_raises_only_exceptions, Hm|]).
    constructor. }
  rewrite Forall_forall in H. apply H, Hin.
Qed.

Lemma list_all_stages_in_whole_graph (dp tp iters batch : PyVal)
    (stage : OTETestStage E) :
  In stage (list_all_stages E run_ote run_ote_evaluation dp tp iters batch) ->
  In stage (nodes (whole_graph E run_ote run_ote_evaluation dp tp iters batch)).
Proof. apply nodes_dependency. Qed.

Lemma find_stage_in (name : string) (stages : list (OTETestStage E))
    (stage : OTETestStage E) :
  find_stage E name (map (fun s => (stage_name s, s)) stages) = Some stage ->
  In stage stages.
Proof.
  induction stages as [|s stages IH]; cbn; [discriminate|].
  destruct (String.eqb name (stage_name s)).
  - intros H; inversion H. left. reflexivity.
  - intros H. right. apply IH, H.
Qed.

Lemma test_case_runs_reached (dp tp iters batch : PyVal)
    (st : OTEIntegrationTestCase * E * list Event) :
  test_case_runs float_of_str E run_ote run_ote_evaluation dp tp iters batch
    st ->
  (dataset_params (fst (fst st)) = dp
   /\ template_file_path (fst (fst st)) = tp
   /\ num_training_iters (fst (fst st)) = iters
   /\ batch_size (fst (fst st)) = batch)
  /\ reached float_of_str
       (whole_graph E run_ote run_ote_evaluation dp tp iters batch)
       (test_case_world E (fst (fst st)) (snd (fst st)) (snd st)).
Proof.
  induction 1 as [x|self x x' events name validator _ [[Hdp [Htp [Hi Hb]]] IH]].
  - split; [repeat split|]. apply reached_fresh.
  - cbn [fst snd] in *. unfold run_stage.
    rewrite Hdp, Htp, Hi, Hb. fold (_stages E run_ote run_ote_evaluation
                                       dp tp iters batch).
    pose proof (reached_outside float_of_str E _ _ x' IH) as Hout.
    cbn [test_case_world stage_state test_results_storage log] in Hout.
    destruct (find_stage E name
                (_stages E run_ote run_ote_evaluation dp tp iters batch))
      as [stage|] eqn:Hfind.
    + pose proof (reached_run_once float_of_str E _ _ stage (Some validator)
                    Hout) as Hrun.
      destruct (run_once float_of_str stage (Some validator) _) as [w r].
      cbn [fst snd] in *. split; [repeat split|].
      destruct w. apply Hrun.
      apply list_all_stages_in_whole_graph.
      apply (find_stage_in name). exact Hfind.
    + cbn [fst snd]. split; [repeat split; assumption|]. exact Hout.
Qed.

(** X16. The books of a test case. Whatever tests have called [run_stage] on a
    test case, for each of its ten stages: the name of the stage is in the
    storage if and only if the stage is processed without a stored
    exception; the storage then holds under this name the very results the
    stage keeps; and, if the methods of the actions raise nothing but
    [Exception]s, the action of the stage has been called at most once. *)
Theorem test_case_keeps_its_books
    (dp tp iters batch : PyVal) (self : OTEIntegrationTestCase) (x : E)
    (events : list Event) (stage : OTETestStage E) :
  test_case_runs float_of_str E run_ote run_ote_evaluation dp tp iters batch
    (self, x, events) ->
  In stage (list_all_stages E run_ote run_ote_evaluation dp tp iters batch) ->
  let state := stages_state self (stage_ref stage) in
  (dict_mem (stage_name stage) (results_storage self) = true
   <-> (was_processed state = true /\ stored_exception state = None))
  /\ (was_processed state = true ->
      stored_exception state = None ->
      dict_lookup (stage_name stage) (results_storage self)
      = Some (stage_results state))
  /\ (methods_raise_only_exceptions E run_ote run_ote_evaluation ->
      (calls_of (stage_ref stage) events <= 1)%nat).
Proof.
  intros Hruns Hin state.
  destruct (test_case_runs_reached dp tp iters batch _ Hruns) as [_ Hreached].
  cbn [fst snd] in Hreached.
  pose proof (list_all_stages_in_whole_graph dp tp iters batch stage Hin)
    as Hnode.
  pose proof (whole_graph_unique_names dp tp iters batch) as Huniq.
  split; [|split].
  - destruct (reached_matches float_of_str E _ _ Huniq Hreached) as [_ Hm].
    apply (Hm stage Hnode).
  - intros Hp He.
    apply (reached_holds_results float_of_str E _ _ Huniq Hreached stage
             Hnode).
    split; assumption.
  - intros Hm.
    apply (reached_called_at_most_once float_of_str E _ _
             (whole_graph_well_behaved dp tp iters batch Hm) Hreached).
Qed.
End TestCaseProperties.

(** ** More on the actions *)

Section MoreActionProperties.
Variable float_of_str : string -> option float.
Variable E : Type.
Variable run_ote :
  ActionClass -> Dict -> Dict -> E -> E * Res (string -> PyVal).
Variable run_ote_evaluation :
  ActionClass -> Dict -> Dict -> E -> E * Res (string * PyVal).

(** X17. [_check_result_prev_stages] returns exactly when every required stage is
    present in the prior results; otherwise its error names the first
    required stage, in the order of the list, that is not. *)
Theorem check_names_first_missing_stage
    (name : string) (prior : option Dict) (required : list string) :
  (_check_result_prev_stages name prior required = Ret tt
   <-> forallb (fun stage => present_in stage prior) required = true)
  /\ forall before stage after,
       required = (before ++ stage :: after)%list ->
       forallb (fun st => present_in st prior) before = true ->
       present_in stage prior = false ->
       _check_result_prev_stages name prior required
       = Raise (missing_results name stage).
Proof.
  split.
  - induction required as [|r required IH]; cbn [_check_result_prev_stages
                                                    forallb].
    + split; reflexivity.
    + unfold present_in at 1.
      destruct (falsy prior || absent_in r prior); cbn [negb andb].
      * split; discriminate.
      * exact IH.
  - intros before stage after -> Hbefore Hstage.
    induction before as [|b before IH]; cbn [app _check_result_prev_stages].
    + unfold present_in in Hstage. apply negb_false_iff in Hstage.
      rewrite Hstage. reflexivity.
    + cbn [forallb] in Hbefore. apply andb_true_iff in Hbefore.
      destruct Hbefore as [Hb Hrest]. unfold present_in in Hb.
      apply negb_true_iff in Hb. rewrite Hb. apply IH, Hrest.
Qed.

Lemma dict_mem_lookup {V : Type} (k : string) (d : list (string * V)) :
  dict_mem k d = false -> dict_lookup k d = None.
Proof.
  induction d as [|[k' x] d IH]; cbn; [reflexivity|].
  destruct (String.eqb k k'); [discriminate | exact IH].
Qed.

Lemma subscript_absent (prior : option Dict) (stage : string) :
  absent_in stage prior = true ->
  exists e, subscript (optional_dict prior) stage = Raise e.
Proof.
  destruct prior as [d|]; cbn.
  - intros H. apply negb_true_iff in H. rewrite (dict_mem_lookup _ _ H).
    eexists. reflexivity.
  - intros _. eexists. reflexivity.
Qed.

Lemma build_kwargs_absent (prior : option Dict)
    (spec : list (string * (string * string))) (stage : string) :
  In stage (map (fun kw => fst (snd kw)) spec) ->
  absent_in stage prior = true ->
  exists e, build_kwargs prior spec = Raise e.
Proof.
  intros Hin Habs. induction spec as [|[kw [stage0 key]] spec IH];
    [contradiction|].
  cbn [build_kwargs].
  destruct (subscript (optional_dict prior) stage0) as [r|e0] eqn:H0;
    cbn [bind]; [|eexists; reflexivity].
  destruct (subscript r key) as [v0|e1]; cbn [bind]; [|eexists; reflexivity].
  destruct Hin as [Heq|Hin].
  - cbn in Heq. subst stage0.
    destruct (subscript_absent prior stage Habs) as [e He]. congruence.
  - destruct (IH Hin) as [e He]. rewrite He. eexists. reflexivity.
Qed.

(** X18. No action of the ten classes starts its work without the results it
    reads: when the results of a prior stage it reads are absent, [__call__]
    raises an [Exception] and leaves the outside as it was; its [_run_ote_*]
    method is not called. (For all classes but the POT action, this is the
    error of the check.) *)
Theorem action_does_not_start_without_prior_results
    (a : ActionClass) (init : Dict) (prior : option Dict) (x : E)
    (stage : string) :
  In stage (needed_stages a) ->
  absent_in stage prior = true ->
  exists e,
    action_call run_ote run_ote_evaluation a init prior x = (x, Raise e)
    /\ is_Exception e = true.
Proof.
  intros Hin Habs. unfold action_call.
  destruct (_check_result_prev_stages (_name a) prior (checked_stages a))
    as [[]|e0] eqn:Hcheck.
  - destruct (build_kwargs_absent prior (kwargs_of a) stage Hin Habs)
      as [e He].
    rewrite He. exists e. split; [reflexivity|].
    apply (build_kwargs_class _ _ _ He).
  - exists e0. split; [reflexivity|].
    apply (_check_result_prev_stages_class _ _ _ _ Hcheck).
Qed.

Lemma evaluation_name_without_dot (a : ActionClass) :
  has_char dot (_name a) = false.
Proof. destruct a; reflexivity. Qed.

(** X19. What an evaluation writes, a requirement can refer to. When an
    evaluation action returns, its results are the nested mapping
    [{'metrics': {'accuracy': {score_name: score_value}}}]; once they are in
    the storage under the name of the stage, a requirement whose [base] is
    "<stage>.metrics.accuracy.<score_name>" (the score name holding no dot)
    takes as its target the float of that score. *)
Theorem base_reads_the_score_of_an_evaluation
    (a : ActionClass) (init : Dict) (prior : option Dict) (x x' : E)
    (results : PyVal) (storage req : Dict) :
  _with_validation a = true ->
  action_call run_ote run_ote_evaluation a init prior x = (x', Ret results) ->
  dict_lookup (_name a) storage = Some results ->
  exists score_name score_value,
    results = evaluation_results score_name score_value
    /\ (has_char dot score_name = false ->
        dict_mem "target_value" req = false ->
        dict_lookup "base" req
        = Some (VStr (String.concat "."
                        [_name a; "metrics"; "accuracy"; score_name])) ->
        target_value_of float_of_str req (VDict storage)
        = py_float float_of_str score_value).
Proof.
  intros Heval Hcall Hstored. unfold action_call in Hcall. rewrite Heval in Hcall.
  destruct (_check_result_prev_stages (_name a) prior (checked_stages a))
    as [[]|e0]; [|inversion Hcall].
  destruct (build_kwargs prior (kwargs_of a)) as [kwargs|e0];
    [|inversion Hcall].
  destruct (run_ote_evaluation a init kwargs x) as [x1 [[score_name score_value]|e1]];
    cbn [bind fst snd] in Hcall; inversion Hcall; subst.
  exists score_name, score_value. split; [reflexivity|].
  intros Hfree Htv Hbase. unfold target_value_of, dict_get.
  rewrite Htv. rewrite (proj2 (dict_mem_true_iff _ _) (ex_intro _ _ Hbase)).
  rewrite Hbase.
  assert (Hkeys : Forall (fun k => has_char dot k = false)
                    [_name a; "metrics"; "accuracy"; score_name]).
  { repeat constructor; [apply evaluation_name_without_dot | exact Hfree]. }
  rewrite (joined_keys_resolve (VDict storage)
             [_name a; "metrics"; "accuracy"; score_name]
             ltac:(discriminate) Hkeys score_value); [reflexivity|].
  cbn [descend]. rewrite Hstored. cbn. rewrite String.eqb_refl. reflexivity.
Qed.
End MoreActionProperties.

(** ** The fixtures of the expected metrics *)

Section FixtureProperties.
Variable float_of_str : string -> option float.

(** X20. A validator made from the callback fixture. For a test whose usecase is
    not "reallife" there is no callback, and [validate] returns whatever the
    result is. For a "reallife" test, either the callback raises a
    [ValueError] (no expected metrics at all, none for this test, or not a
    mapping), which [validate] raises whatever the result is; or it gives the
    mapping stored for this test, and so the assertion of [validate] on the
    type of the expected metrics cannot fail. *)
Theorem fixture_validator_skips_or_reads_expected_metrics
    (all_tests : option Dict) (id : string) (test_parameters : PyVal)
    (callback : option (Res PyVal)) :
  cur_test_expected_metrics_callback_fx all_tests id test_parameters
  = Ret callback ->
  let v := {| cur_test_expected_metrics_callback := callback |} in
  exists usecase,
    subscript test_parameters "usecase" = Ret usecase
    /\ match callback with
       | None =>
           py_eq (VStr "reallife") usecase = false
           /\ forall result storage,
                validate float_of_str v result storage = Ret tt
       | Some (Raise e) =>
           py_eq (VStr "reallife") usecase = true
           /\ exc_class e = ValueError
           /\ forall result storage,
                validate float_of_str v result storage = Raise e
       | Some (Ret expected) =>
           py_eq (VStr "reallife") usecase = true
           /\ exists d items,
                all_tests = Some d
                /\ dict_lookup id d = Some expected
                /\ expected = VDict items
       end.
Proof.
  unfold cur_test_expected_metrics_callback_fx.
  destruct (subscript test_parameters "usecase") as [usecase|e0];
    cbn [bind]; [|discriminate].
  unfold REALLIFE_USECASE_CONSTANT.
  destruct (py_eq (VStr "reallife") usecase) eqn:Hu; cbn [negb];
    intros H; inversion H; subst; cbv zeta; exists usecase;
    (split; [reflexivity|]).
  - unfold _get_expected_metrics_callback.
    destruct all_tests as [d|].
    + destruct (dict_lookup id d) as [expected|] eqn:Hid.
      * destruct expected as [| | | |items|]; cbn [is_dict negb];
          try (split; [exact Hu|]; split; [reflexivity|];
               intros result storage; reflexivity).
        split; [exact Hu|]. exists d, items. repeat split. exact Hid.
      * split; [exact Hu|]. split; [reflexivity|].
        intros result storage. reflexivity.
    + split; [exact Hu|]. split; [reflexivity|].
      intros result storage. reflexivity.
  - split; [exact Hu|]. intros result storage. reflexivity.
Qed.

Lemma find_char_app (c : ascii) (base rest : string) :
  has_char c base = false ->
  find_char c (base ++ String c rest) = Some (String.length base).
Proof.
  induction base as [|c' base IH]; cbn; intros H.
  - rewrite Ascii.eqb_refl. reflexivity.
  - apply orb_false_iff in H. destruct H as [Hc Hbase].
    rewrite Hc, (IH Hbase). reflexivity.
Qed.

Lemma find_char_none (c : ascii) (s : string) :
  has_char c s = false -> find_char c s = None.
Proof.
  induction s as [|c' s IH]; cbn; intros H; [reflexivity|].
  apply orb_false_iff in H. destruct H as [Hc Hs].
  rewrite Hc, (IH Hs). reflexivity.
Qed.

Lemma drop_app (base rest : string) (c : ascii) :
  drop (String.length base + 1) (base ++ String c rest) = rest.
Proof.
  induction base as [|c' base IH]; cbn; [reflexivity | exact IH].
Qed.

Lemma drop_last_app (s : string) (c : ascii) :
  drop_last (s ++ String c EmptyString) = s.
Proof.
  induction s as [|c' s IH]; cbn; [reflexivity|].
  rewrite IH. destruct s; reflexivity.
Qed.

Lemma ends_with_char_app (s : string) (c : ascii) :
  ends_with_char c (s ++ String c EmptyString) = true.
Proof.
  induction s as [|c' s IH]; cbn; [apply Ascii.eqb_refl|].
  rewrite IH. destruct s; reflexivity.
Qed.

Lemma append_assoc (s1 s2 s3 : string) :
  ((s1 ++ s2) ++ s3 = s1 ++ (s2 ++ s3))%string.
Proof.
  induction s1 as [|c s1 IH]; cbn; [reflexivity | rewrite IH; reflexivity].
Qed.

(** X21. From the name of a test node, a base without [[] followed by its
    parameters in brackets, the fixture gives back exactly the parameters,
    whatever characters they hold. A name without [[], or one that does not
    end with []], fails an assertion. *)
Theorem node_name_gives_back_the_parameters :
  (forall base id,
     has_char open_bracket base = false ->
     current_test_parameters_string_fx
       (base ++ String open_bracket (id ++ String close_bracket EmptyString))
     = Ret id)
  /\ (forall node_name,
        has_char open_bracket node_name = false ->
        exists e,
          current_test_parameters_string_fx node_name = Raise e
          /\ exc_class e = AssertionError)
  /\ (forall node_name,
        ends_with_char close_bracket node_name = false ->
        exists e,
          current_test_parameters_string_fx node_name = Raise e
          /\ exc_class e = AssertionError).
Proof.
  split; [|split].
  - intros base id Hbase. unfold current_test_parameters_string_fx.
    rewrite (find_char_app _ _ _ Hbase).
    assert (Hend : ends_with_char close_bracket
                     (base ++ String open_bracket
                        (id ++ String close_bracket EmptyString)) = true).
    { change (String open_bracket (id ++ String close_bracket EmptyString))
        with (String open_bracket id ++ String close_bracket EmptyString).
      rewrite <- append_assoc. apply ends_with_char_app. }
    rewrite Hend. cbn [negb]. rewrite drop_app, drop_last_app. reflexivity.
  - intros node_name H. unfold current_test_parameters_string_fx.
    rewrite (find_char_none _ _ H). eexists. split; reflexivity.
  - intros node_name H. unfold current_test_parameters_string_fx.
    destruct (find_char open_bracket node_name);
      [rewrite H|]; eexists; split; reflexivity.
Qed.
End FixtureProperties.

(** ** get_output *)

Section OutputProperties.
Variable get_ov_name_for_tensor : string -> Res string.

Lemma subscript_lookup (d : Dict) (k : string) (v : PyVal) :
  subscript (VDict d) k = Ret v <-> dict_lookup k d = Some v.
Proof.
  cbn. destruct (dict_lookup k d) as [x|]; split; intros H;
    inversion H; reflexivity.
Qed.

(** X22. [get_output] returns a value exactly when the net knows the tensor under
    a name that is among the outputs, and then it is the output of that
    name; or when the net raises a [KeyError] and the tensor name itself is
    among the outputs, and then it is the output of the tensor name. *)
Theorem get_output_reads_an_output
    (outputs : Dict) (name : string) (v : PyVal) :
  get_output get_ov_name_for_tensor outputs name = Ret v
  <-> ((exists key,
          get_ov_name_for_tensor name = Ret key
          /\ dict_lookup key outputs = Some v)
       \/ (exists e,
             get_ov_name_for_tensor name = Raise e
             /\ is_KeyError e = true
             /\ dict_lookup name outputs = Some v)).
Proof.
  unfold get_output.
  destruct (get_ov_name_for_tensor name) as [key|e].
  - destruct (dict_mem key outputs) eqn:Hmem.
    + rewrite subscript_lookup. split.
      * intros H. left. exists key. split; [reflexivity | exact H].
      * intros [[key' [Hk H]]|[e [He _]]]; [|discriminate He].
        inversion Hk. subst. exact H.
    + split; [discriminate|].
      intros [[key' [Hk H]]|[e [He _]]]; [|discriminate He].
      inversion Hk. subst. rewrite (dict_mem_lookup _ _ Hmem) in H.
      discriminate H.
  - destruct (is_KeyError e) eqn:Hkey.
    + destruct (dict_mem name outputs) eqn:Hmem; cbn [negb].
      * rewrite subscript_lookup. split.
        -- intros H. right. exists e. repeat split; assumption.
        -- intros [[key [Hk _]]|[e' [_ [_ H]]]]; [discriminate Hk | exact H].
      * split; [discriminate|].
        intros [[key [Hk _]]|[e' [_ [_ H]]]]; [discriminate Hk|].
        rewrite (dict_mem_lookup _ _ Hmem) in H. discriminate H.
    + split; [discriminate|].
      intros [[key [Hk _]]|[e' [He [Hk' _]]]]; [discriminate Hk|].
      inversion He. subst. congruence.
Qed.
End OutputProperties.

(** ** More on the cache of test cases *)

Section MoreCacheProperties.
Variable osp_join : string -> string -> string.

Lemma cached_equals_set_other (c : Cache) (k : string) (v : PyVal)
    (x : CacheVal) :
  k <> "_test_case_" ->
  cached_equals (dict_set "_test_case_" x c) k v = cached_equals c k v.
Proof.
  intros Hne. unfold cached_equals.
  rewrite dict_lookup_set_other by exact Hne. reflexivity.
Qed.

(** X23. Two tests in a row with the same parameters share one test case: when a
    call of [_update_test_case_in_cache] has returned a test case, the next
    call with the same arguments returns the same object and leaves the
    session as it is, provided each parameter of the test equals itself
    under [==] (as strings and numbers do). *)
Theorem same_parameters_return_the_same_test_case
    (s s1 : Session) (test_parameters dataset_definitions template_paths : PyVal)
    (c : CacheVal) :
  (forall k v, subscript test_parameters k = Ret v -> py_eq v v = true) ->
  _update_test_case_in_cache osp_join s test_parameters dataset_definitions
    template_paths
  = (s1, Ret c) ->
  _update_test_case_in_cache osp_join s1 test_parameters dataset_definitions
    template_paths
  = (s1, Ret c).
Proof.
  intros Hrefl. unfold _update_test_case_in_cache.
  destruct (is_none dataset_definitions); [discriminate|].
  cbn [select_parameters TEST_PARAMETERS_DEFINING_IMPL_BEHAVIOR].
  destruct (subscript test_parameters "model_name") as [v1|e1] eqn:H1;
    cbn [bind]; [|discriminate].
  destruct (subscript test_parameters "dataset_name") as [v2|e2] eqn:H2;
    cbn [bind]; [|discriminate].
  destruct (subscript test_parameters "num_training_iters") as [v3|e3] eqn:H3;
    cbn [bind]; [|discriminate].
  destruct (subscript test_parameters "batch_size") as [v4|e4] eqn:H4;
    cbn [bind]; [|discriminate].
  cbn [dict_set dict_mem String.eqb Ascii.eqb Bool.eqb].
  unfold _clean_cache_if_parameters_changed.
  rewrite !parameters_unchanged_all.
  cbn [forallb fst snd]. rewrite !andb_true_r.
  destruct (_get_dataset_params_from_dataset_definitions osp_join
              dataset_definitions v2) as [dsp|e5].
  2: { destruct (cached_equals (cache s) "model_name" v1
                 && (cached_equals (cache s) "dataset_name" v2
                     && (cached_equals (cache s) "num_training_iters" v3
                         && cached_equals (cache s) "batch_size" v4)))
         eqn:Hunch.
       - destruct (dict_lookup "_test_case_" (cache s)) as [cached|] eqn:Hc.
         + intros H; inversion H; subst. cbn [cache test_cases].
           rewrite Hunch, Hc. reflexivity.
         + cbn [bind]. discriminate.
       - rewrite clear_cache.
         cbn [fold_left fst snd dict_set dict_lookup String.eqb Ascii.eqb
                Bool.eqb bind].
         discriminate. }
  cbn [bind].
  destruct (subscript_by template_paths v1) as [template|e6]; cbn [bind].
  2: { destruct (cached_equals (cache s) "model_name" v1
                 && (cached_equals (cache s) "dataset_name" v2
                     && (cached_equals (cache s) "num_training_iters" v3
                         && cached_equals (cache s) "batch_size" v4)))
         eqn:Hunch.
       - destruct (dict_lookup "_test_case_" (cache s)) as [cached|] eqn:Hc.
         + intros H; inversion H; subst. cbn [cache test_cases].
           rewrite Hunch, Hc. reflexivity.
         + discriminate.
       - rewrite clear_cache.
         cbn [fold_left fst snd dict_set dict_lookup String.eqb Ascii.eqb
                Bool.eqb bind].
         discriminate. }
  destruct (subscript template_paths ROOT_PATH_KEY) as [root|e7]; cbn [bind].
  2: { destruct (cached_equals (cache s) "model_name" v1
                 && (cached_equals (cache s) "dataset_name" v2
                     && (cached_equals (cache s) "num_training_iters" v3
                         && cached_equals (cache s) "batch_size" v4)))
         eqn:Hunch.
       - destruct (dict_lookup "_test_case_" (cache s)) as [cached|] eqn:Hc.
         + intros H; inversion H; subst. cbn [cache test_cases].
           rewrite Hunch, Hc. reflexivity.
         + discriminate.
       - rewrite clear_cache.
         cbn [fold_left fst snd dict_set dict_lookup String.eqb Ascii.eqb
                Bool.eqb bind].
         discriminate. }
  destruct (_make_path_be_abs osp_join template root) as [path|e8];
    cbn [bind].
  2: { destruct (cached_equals (cache s) "model_name" v1
                 && (cached_equals (cache s) "dataset_name" v2
                     && (cached_equals (cache s) "num_training_iters" v3
                         && cached_equals (cache s) "batch_size" v4)))
         eqn:Hunch.
       - destruct (dict_lookup "_test_case_" (cache s)) as [cached|] eqn:Hc.
         + intros H; inversion H; subst. cbn [cache test_cases].
           rewrite Hunch, Hc. reflexivity.
         + discriminate.
       - rewrite clear_cache.
         cbn [fold_left fst snd dict_set dict_lookup String.eqb Ascii.eqb
                Bool.eqb bind].
         discriminate. }
  destruct (cached_equals (cache s) "model_name" v1
            && (cached_equals (cache s) "dataset_name" v2
                && (cached_equals (cache s) "num_training_iters" v3
                    && cached_equals (cache s) "batch_size" v4)))
    eqn:Hunch.
  - destruct (dict_lookup "_test_case_" (cache s)) as [cached|] eqn:Hc.
    + intros H; inversion H; subst. cbn [cache test_cases].
      rewrite Hunch, Hc. reflexivity.
    + intros H; inversion H; subst. cbn [cache test_cases].
      rewrite !cached_equals_set_other by discriminate.
      rewrite Hunch, dict_lookup_set_same. reflexivity.
  - rewrite clear_cache.
    cbn [fold_left fst snd dict_set dict_lookup String.eqb Ascii.eqb
           Bool.eqb].
    intros H; inversion H; subst. cbn [cache test_cases].
    cbn [cached_equals dict_lookup String.eqb Ascii.eqb Bool.eqb].
    rewrite (Hrefl _ _ H1), (Hrefl _ _ H2), (Hrefl _ _ H3), (Hrefl _ _ H4).
    reflexivity.
Qed.
End MoreCacheProperties.

(** ** The parameters of the dataset *)

Section DatasetProperties.
Variable osp_join : string -> string -> string.

Lemma dict_mem_keys {V : Type} (k : string) (d : list (string * V)) :
  dict_mem k d = true <-> In k (dict_keys d).
Proof.
  induction d as [|[k' x] d IH]; cbn.
  - split; [discriminate | contradiction].
  - destruct (String.eqb k k') eqn:Hk.
    + apply String.eqb_eq in Hk. split; [intros _; left; congruence | reflexivity].
    + apply String.eqb_neq in Hk. rewrite IH. split.
      * intros H. right. exact H.
      * intros [H|H]; [congruence | exact H].
Qed.

Lemma existsb_eqb_in (k : string) (l : list string) :
  existsb (String.eqb k) l = true <-> In k l.
Proof.
  rewrite existsb_exists. split.
  - intros [k' [Hin Hk]]. apply String.eqb_eq in Hk. congruence.
  - intros H. exists k. split; [exact H | apply String.eqb_refl].
Qed.

Lemma subset_of_incl (l1 l2 : list string) :
  subset_of l1 l2 = true <-> incl l1 l2.
Proof.
  unfold subset_of, incl. rewrite forallb_forall. split.
  - intros H k Hk. apply existsb_eqb_in, H, Hk.
  - intros H k Hk. apply existsb_eqb_in, H, Hk.
Qed.

Lemma dict_lookup_filter_keys {V : Type} (P : string -> bool) (k : string)
    (d : list (string * V)) :
  dict_lookup k (filter (fun kv => P (fst kv)) d)
  = if P k then dict_lookup k d else None.
Proof.
  induction d as [|[k' x] d IH]; cbn.
  - destruct (P k); reflexivity.
  - destruct (P k') eqn:Hk'; cbn; destruct (String.eqb k k') eqn:Hk.
    + apply String.eqb_eq in Hk. subst. rewrite Hk'. reflexivity.
    + exact IH.
    + apply String.eqb_eq in Hk. subst. rewrite IH, Hk'. reflexivity.
    + exact IH.
Qed.

Lemma dict_lookup_map_values {V W : Type} (g : V -> W) (k : string)
    (d : list (string * V)) :
  dict_lookup k (map (fun kv => (fst kv, g (snd kv))) d)
  = option_map g (dict_lookup k d).
Proof.
  induction d as [|[k' x] d IH]; cbn; [reflexivity|].
  destruct (String.eqb k k'); [reflexivity | exact IH].
Qed.

Lemma dict_lookup_in {V : Type} (k : string) (x : V)
    (d : list (string * V)) :
  dict_lookup k d = Some x -> In (k, x) d.
Proof.
  induction d as [|[k' x'] d IH]; cbn; [discriminate|].
  destruct (String.eqb k k') eqn:Hk.
  - apply String.eqb_eq in Hk. intros H. inversion H. subst. left. reflexivity.
  - intros H. right. apply IH, H.
Qed.

Lemma dict_lookup_table {V : Type} (g : string -> V) (k : string)
    (l : list string) :
  In k l -> dict_lookup k (map (fun f => (f, g f)) l) = Some (g k).
Proof.
  induction l as [|k' l IH]; cbn; [contradiction|].
  destruct (String.eqb k k') eqn:Hk.
  - apply String.eqb_eq in Hk. subst. reflexivity.
  - apply String.eqb_neq in Hk. intros [H|H]; [congruence | apply IH, H].
Qed.

(** What the checks of [_get_dataset_params_from_dataset_definitions] see:
    the entries of the definition under the required fields, each string
    joined to the root path. *)
Lemma joined_fields_entries (root : string) (definition : Dict) (k : string)
    (v : PyVal) :
  In (k, v)
    (map (fun kv => (fst kv, join_value osp_join root (snd kv)))
       (filter (fun kv => existsb (String.eqb (fst kv))
                            DATASET_PARAMETERS_FIELDS) definition))
  <-> exists v0,
        In (k, v0) definition
        /\ In k DATASET_PARAMETERS_FIELDS
        /\ v = join_value osp_join root v0.
Proof.
  rewrite in_map_iff. split.
  - intros [[k0 v0] [Heq Hin]]. cbn [fst snd] in Heq. inversion Heq. subst.
    apply filter_In in Hin. destruct Hin as [Hin Hk]. cbn [fst] in Hk.
    exists v0. split; [exact Hin|]. split; [|reflexivity].
    apply existsb_eqb_in, Hk.
  - intros [v0 [Hin [Hk Hv]]]. exists (k, v0). split.
    + cbn [fst snd]. congruence.
    + apply filter_In. split; [exact Hin|]. cbn [fst].
      apply existsb_eqb_in, Hk.
Qed.

(** X24. The parameters of a dataset. When
    [_get_dataset_params_from_dataset_definitions] returns, the definition
    of the dataset is a mapping and the root path is a string; the
    parameters have exactly the six required fields, in the order of
    [DATASET_PARAMETERS_FIELDS], and each holds the root path joined with the
    string the definition gives for this field, a path that is not empty. *)
Theorem dataset_parameters_are_the_joined_required_fields
    (dataset_definitions dataset_name params : PyVal) :
  _get_dataset_params_from_dataset_definitions osp_join dataset_definitions
    dataset_name
  = Ret params ->
  exists definition root fields,
    subscript_by dataset_definitions dataset_name = Ret (VDict definition)
    /\ subscript dataset_definitions ROOT_PATH_KEY = Ret (VStr root)
    /\ params = VDict fields
    /\ dict_keys fields = DATASET_PARAMETERS_FIELDS
    /\ forall f,
         In f DATASET_PARAMETERS_FIELDS ->
         exists path,
           dict_lookup f definition = Some (VStr path)
           /\ dict_lookup f fields = Some (VStr (osp_join root path))
           /\ osp_join root path <> "".
Proof.
  intros H. unfold _get_dataset_params_from_dataset_definitions in H.
  destruct (subscript_by dataset_definitions dataset_name) as [cur|e] eqn:Hcur;
    cbn [bind] in H; [|discriminate H].
  destruct cur as [| | | |definition|]; try discriminate H.
  destruct (subscript dataset_definitions ROOT_PATH_KEY) as [rootv|e]
    eqn:Hroot; cbn [bind] in H; [|discriminate H].
  unfold _make_path_be_abs in H.
  destruct rootv as [| | |root| |]; try discriminate H.
  set (kept := filter (fun kv => existsb (String.eqb (fst kv))
                                   DATASET_PARAMETERS_FIELDS) definition) in *.
  destruct (forallb is_str (map snd kept)) eqn:Hstr; cbn [bind] in H;
    [|discriminate H].
  set (fields0 := map (fun kv => (fst kv, join_value osp_join root (snd kv)))
                    kept) in *.
  destruct (subset_of DATASET_PARAMETERS_FIELDS (dict_keys fields0)
            && subset_of (dict_keys fields0) DATASET_PARAMETERS_FIELDS)
    eqn:Hsub; cbn [negb] in H; [|discriminate H].
  destruct (forallb truthy (map snd fields0)) eqn:Htruthy; cbn [negb] in H;
    [|discriminate H].
  inversion H. clear H.
  exists definition, root,
    (map (fun f => (f, dict_get f fields0)) DATASET_PARAMETERS_FIELDS).
  split; [reflexivity|]. split; [reflexivity|]. split; [reflexivity|].
  split; [reflexivity|].
  intros f Hf.
  apply andb_true_iff in Hsub. destruct Hsub as [Hsub _].
  rewrite subset_of_incl in Hsub.
  pose proof (proj2 (dict_mem_keys f fields0) (Hsub f Hf)) as Hmem.
  apply dict_mem_true_iff in Hmem. destruct Hmem as [v Hv].
  pose proof Hv as Hv0. unfold fields0 in Hv0.
  rewrite dict_lookup_map_values in Hv0.
  destruct (dict_lookup f kept) as [v0|] eqn:Hkept; [|discriminate Hv0].
  cbn [option_map] in Hv0. inversion Hv0 as [Hjoin]. clear Hv0.
  pose proof Hkept as Hdef. unfold kept in Hdef.
  rewrite (dict_lookup_filter_keys
             (fun k => existsb (String.eqb k) DATASET_PARAMETERS_FIELDS))
    in Hdef.
  destruct (existsb (String.eqb f) DATASET_PARAMETERS_FIELDS);
    [|discriminate Hdef].
  assert (Hs : is_str v0 = true).
  { rewrite forallb_forall in Hstr. apply Hstr.
    apply in_map_iff. exists (f, v0). split; [reflexivity|].
    apply dict_lookup_in, Hkept. }
  destruct v0 as [| | |path| |]; try discriminate Hs.
  exists path. split; [exact Hdef|]. split.
  - rewrite (dict_lookup_table (fun f => dict_get f fields0) f _ Hf).
    unfold dict_get. rewrite Hv, <- Hjoin. reflexivity.
  - rewrite forallb_forall in Htruthy.
    assert (Ht : truthy v = true).
    { apply Htruthy. apply in_map_iff. exists (f, v). split; [reflexivity|].
      apply dict_lookup_in, Hv. }
    rewrite <- Hjoin in Ht. cbn [join_value truthy] in Ht.
    apply negb_true_iff in Ht. apply String.eqb_neq in Ht. exact Ht.
Qed.

(** X25. The definitions that are accepted. With the definition of the dataset a
    mapping and the root path a string,
    [_get_dataset_params_from_dataset_definitions] returns exactly when the
    definition has every required field, every value under a required field
    is a string, and no such string joined to the root path is empty; what
    the definition holds under other keys plays no part. *)
Theorem dataset_definition_is_accepted_exactly_when_complete
    (dataset_definitions dataset_name : PyVal) (definition : Dict)
    (root : string) :
  subscript_by dataset_definitions dataset_name = Ret (VDict definition) ->
  subscript dataset_definitions ROOT_PATH_KEY = Ret (VStr root) ->
  ((exists params,
      _get_dataset_params_from_dataset_definitions osp_join
        dataset_definitions dataset_name
      = Ret params)
   <-> ((forall f, In f DATASET_PARAMETERS_FIELDS ->
                   dict_mem f definition = true)
        /\ (forall k v, In (k, v) definition ->
                        In k DATASET_PARAMETERS_FIELDS ->
                        exists path,
                          v = VStr path /\ osp_join root path <> ""))).
Proof.
  intros Hcur Hroot.
  unfold _get_dataset_params_from_dataset_definitions.
  rewrite Hcur. cbn [bind]. rewrite Hroot. cbn [bind].
  unfold _make_path_be_abs.
  set (kept := filter (fun kv => existsb (String.eqb (fst kv))
                                   DATASET_PARAMETERS_FIELDS) definition).
  assert (Hkeys : forall fields0 : Dict,
             fields0 = map (fun kv => (fst kv, join_value osp_join root (snd kv)))
                         kept ->
             forall k, In k (dict_keys fields0)
                       <-> (In k (dict_keys definition)
                            /\ In k DATASET_PARAMETERS_FIELDS)).
  { intros fields0 -> k. unfold dict_keys. rewrite !in_map_iff. split.
    - intros [[k0 v] [Heq Hin]]. cbn [fst] in Heq. subst k0.
      apply joined_fields_entries in Hin.
      destruct Hin as [v0 [Hin [Hk _]]].
      split; [exists (k, v0); split; [reflexivity | exact Hin] | exact Hk].
    - intros [[[k0 v0] [Heq Hin]] Hk]. cbn [fst] in Heq. subst k0.
      exists (k, join_value osp_join root v0). split; [reflexivity|].
      apply joined_fields_entries. exists v0. repeat split; assumption. }
  destruct (forallb is_str (map snd kept)) eqn:Hstr; cbn [bind].
  - set (fields0 := map (fun kv => (fst kv, join_value osp_join root (snd kv)))
                      kept) in *.
    specialize (Hkeys fields0 eq_refl).
    destruct (subset_of DATASET_PARAMETERS_FIELDS (dict_keys fields0)
              && subset_of (dict_keys fields0) DATASET_PARAMETERS_FIELDS)
      eqn:Hsub; cbn [negb].
    + apply andb_true_iff in Hsub. destruct Hsub as [Hsub _].
      rewrite subset_of_incl in Hsub.
      assert (Hall : forall f, In f DATASET_PARAMETERS_FIELDS ->
                               dict_mem f definition = true).
      { intros f Hf. apply dict_mem_keys. apply Hkeys, Hsub, Hf. }
      assert (Hstrings : forall k v, In (k, v) definition ->
                                     In k DATASET_PARAMETERS_FIELDS ->
                                     is_str v = true).
      { intros k v Hin Hk. rewrite forallb_forall in Hstr. apply Hstr.
        apply in_map_iff. exists (k, v). split; [reflexivity|].
        apply filter_In. split; [exact Hin|]. cbn [fst].
        apply existsb_eqb_in, Hk. }
      destruct (forallb truthy (map snd fields0)) eqn:Htruthy; cbn [negb].
      * split; [intros _ | intros _; eexists; reflexivity].
        split; [exact Hall|].
        intros k v Hin Hk. pose proof (Hstrings k v Hin Hk) as Hs.
        destruct v as [| | |path| |]; try discriminate Hs.
        exists path. split; [reflexivity|].
        rewrite forallb_forall in Htruthy.
        assert (Ht : truthy (VStr (osp_join root path)) = true).
        { apply Htruthy. apply in_map_iff.
          exists (k, VStr (osp_join root path)). split; [reflexivity|].
          apply joined_fields_entries. exists (VStr path).
          repeat split; assumption. }
        cbn [truthy] in Ht. apply negb_true_iff in Ht.
        apply String.eqb_neq in Ht. exact Ht.
      * split; [intros [params Hp]; discriminate Hp|].
        intros [_ Hvalues]. exfalso.
        assert (Ht : forallb truthy (map snd fields0) = true).
        { apply forallb_forall. intros v Hv.
          apply in_map_iff in Hv. destruct Hv as [[k v'] [Heq Hin]].
          cbn [snd] in Heq. subst v'.
          apply joined_fields_entries in Hin.
          destruct Hin as [v0 [Hin [Hk Hv]]].
          destruct (Hvalues k v0 Hin Hk) as [path [-> Hne]].
          subst v. cbn [join_value truthy].
          apply negb_true_iff, String.eqb_neq, Hne. }
        congruence.
    + split; [intros [params Hp]; discriminate Hp|].
      intros [Hall _]. exfalso.
      assert (Hs : subset_of DATASET_PARAMETERS_FIELDS (dict_keys fields0)
                   && subset_of (dict_keys fields0) DATASET_PARAMETERS_FIELDS
                   = true).
      { apply andb_true_iff. split; apply subset_of_incl; intros k Hk.
        - apply Hkeys. split; [|exact Hk]. apply dict_mem_keys, Hall, Hk.
        - apply Hkeys in Hk. apply Hk. }
      congruence.
  - split; [intros [params Hp]; discriminate Hp|].
    intros [_ Hvalues]. exfalso.
    assert (Hs : forallb is_str (map snd kept) = true).
    { apply forallb_forall. intros v Hv.
      apply in_map_iff in Hv. destruct Hv as [[k v'] [Heq Hin]].
      cbn [snd] in Heq. subst v'.
      apply filter_In in Hin. destruct Hin as [Hin Hk]. cbn [fst] in Hk.
      apply existsb_eqb_in in Hk.
      destruct (Hvalues k v Hin Hk) as [path [-> _]]. reflexivity. }
    congruence.
Qed.
End DatasetProperties.

(** ** The list of the tests *)

Section GenerationProperties.

Lemma for_in_cons {A S : Type} (x : A) (xs : list A)
    (body : A -> S -> Res S) (s : S) :
  for_in (x :: xs) body s = (s' <- body x s ;; for_in xs body s').
Proof. reflexivity. Qed.

Lemma get_list_of_tests_eq (bunches : list TestParameters)
    (usecase : option string) :
  get_list_of_tests bunches usecase
  = (lists <- for_in bunches (bunch_body usecase) ([], []) ;;
     Ret (["test_parameters"], fst lists, snd lists)).
Proof. reflexivity. Qed.

Lemma lookup_set_default (key k : string) (dv : PyVal)
    (tp : TestParameters) :
  dict_lookup key (__set_default_if_required k dv tp)
  = if String.eqb key k then
      (if default_is_required (dict_lookup k tp) then Some (Single dv)
       else dict_lookup k tp)
    else dict_lookup key tp.
Proof.
  unfold __set_default_if_required.
  destruct (String.eqb key k) eqn:Hk.
  - apply String.eqb_eq in Hk. subst key.
    destruct (default_is_required (dict_lookup k tp));
      [apply dict_lookup_set_same | reflexivity].
  - apply String.eqb_neq in Hk.
    destruct (default_is_required (dict_lookup k tp));
      [apply dict_lookup_set_other; exact Hk | reflexivity].
Qed.

Lemma lookup_filled (key : string) (tp : TestParameters) :
  dict_lookup key (_fill_test_parameters_default_values tp)
  = if String.eqb key "batch_size" then
      (if default_is_required (dict_lookup "batch_size" tp) then
         Some (Single DEFAULT_BATCH_SIZE)
       else dict_lookup "batch_size" tp)
    else if String.eqb key "num_training_iters" then
      (if default_is_required (dict_lookup "num_training_iters" tp) then
         Some (Single DEFAULT_NUM_ITERS)
       else dict_lookup "num_training_iters" tp)
    else dict_lookup key tp.
Proof.
  unfold _fill_test_parameters_default_values.
  rewrite !lookup_set_default.
  change (String.eqb "batch_size" "num_training_iters") with false.
  cbv iota. reflexivity.
Qed.

Ltac lookup_set :=
  repeat (rewrite dict_lookup_set_same
          || rewrite dict_lookup_set_other by discriminate).

Lemma lookups_of_test_parameters (el : TestParameters) (m d : PyVal)
    (test_stage : string) :
  dict_lookup "test_stage" (test_parameters_of el m d test_stage)
  = Some (Single (VStr test_stage))
  /\ dict_lookup "model_name" (test_parameters_of el m d test_stage)
     = Some (Single m)
  /\ dict_lookup "dataset_name" (test_parameters_of el m d test_stage)
     = Some (Single d)
  /\ dict_lookup "num_training_iters" (test_parameters_of el m d test_stage)
     = (if default_is_required (dict_lookup "num_training_iters" el) then
          Some (Single DEFAULT_NUM_ITERS)
        else dict_lookup "num_training_iters" el)
  /\ dict_lookup "batch_size" (test_parameters_of el m d test_stage)
     = (if default_is_required (dict_lookup "batch_size" el) then
          Some (Single DEFAULT_BATCH_SIZE)
        else dict_lookup "batch_size" el)
  /\ dict_lookup "usecase" (test_parameters_of el m d test_stage)
     = dict_lookup "usecase" el.
Proof.
  unfold test_parameters_of. rewrite !lookup_filled.
  cbn [String.eqb Ascii.eqb Bool.eqb]. lookup_set.
  repeat split; reflexivity.
Qed.

Lemma lookup_of_other_key (el : TestParameters) (m d : PyVal)
    (test_stage key : string) :
  ~ In key ["test_stage"; "model_name"; "dataset_name";
            "num_training_iters"; "batch_size"] ->
  dict_lookup key (test_parameters_of el m d test_stage)
  = dict_lookup key el.
Proof.
  intros Hkey. unfold test_parameters_of. rewrite lookup_filled.
  destruct (String.eqb key "batch_size") eqn:H1.
  { apply String.eqb_eq in H1. exfalso. apply Hkey. cbn. auto 10. }
  destruct (String.eqb key "num_training_iters") eqn:H2.
  { apply String.eqb_eq in H2. exfalso. apply Hkey. cbn. auto 10. }
  rewrite !dict_lookup_set_other; [reflexivity| | |];
    intros ->; apply Hkey; cbn; auto 10.
Qed.

Lemma filled_value_is_there (v : option BunchValue) (dv : PyVal) :
  exists x, (if default_is_required v then Some (Single dv) else v) = Some x.
Proof.
  destruct (default_is_required v) eqn:Hv.
  - exists (Single dv). reflexivity.
  - destruct v as [x|]; [|discriminate Hv]. exists x. reflexivity.
Qed.

Lemma generate_test_id_of (el : TestParameters) (m d : PyVal)
    (test_stage : string) :
  match dict_lookup "usecase" el with
  | Some _ =>
      exists id,
        _generate_test_id (test_parameters_of el m d test_stage) = Ret id
  | None =>
      _generate_test_id (test_parameters_of el m d test_stage)
      = Raise no_usecase
  end.
Proof.
  destruct (lookups_of_test_parameters el m d test_stage)
    as (Hs & Hm & Hd & Hn & Hb & Hu).
  destruct (filled_value_is_there (dict_lookup "num_training_iters" el)
              DEFAULT_NUM_ITERS) as [n Hn'].
  destruct (filled_value_is_there (dict_lookup "batch_size" el)
              DEFAULT_BATCH_SIZE) as [b Hb'].
  rewrite Hn' in Hn. rewrite Hb' in Hb.
  unfold _generate_test_id, SHORT_TEST_PARAMETERS_NAMES_FOR_GENERATING_ID.
  cbn [id_parts]. rewrite Hs, Hm, Hd, Hn, Hb, Hu.
  destruct (dict_lookup "usecase" el); cbn [bind];
    [eexists; reflexivity | reflexivity].
Qed.

Lemma stage_loop_returns (el : TestParameters) (md : PyVal * PyVal) :
  dict_mem "usecase" el = true ->
  forall stages lists,
    exists ids',
      for_in stages (stage_body el md) lists
      = Ret ((fst lists
              ++ map (test_parameters_of el (fst md) (snd md)) stages)%list,
             (snd lists ++ ids')%list)
      /\ Forall2 (fun tp id => _generate_test_id tp = Ret id)
           (map (test_parameters_of el (fst md) (snd md)) stages) ids'.
Proof.
  intros Hu stages. induction stages as [|s stages IH]; intros lists.
  - exists []. cbn [for_in map]. rewrite !app_nil_r. destruct lists.
    split; [reflexivity | constructor].
  - rewrite for_in_cons. unfold stage_body at 1.
    pose proof (generate_test_id_of el (fst md) (snd md) s) as Hid.
    destruct (proj1 (dict_mem_true_iff _ _) Hu) as [v Hv].
    rewrite Hv in Hid. destruct Hid as [id Hid]. rewrite Hid. cbn [bind].
    destruct (IH ((fst lists
                   ++ [test_parameters_of el (fst md) (snd md) s])%list,
                  (snd lists ++ [id])%list)) as [ids' [Hrun Hall]].
    rewrite Hrun. cbn [fst snd map]. exists (id :: ids'). split.
    + rewrite <- !app_assoc. reflexivity.
    + constructor; assumption.
Qed.

Lemma stage_loop_raises (el : TestParameters) (md : PyVal * PyVal)
    (s : string) (stages : list string)
    (lists : list TestParameters * list TestId) :
  dict_mem "usecase" el = false ->
  for_in (s :: stages) (stage_body el md) lists = Raise no_usecase.
Proof.
  intros Hu. rewrite for_in_cons. unfold stage_body at 1.
  pose proof (generate_test_id_of el (fst md) (snd md) s) as Hid.
  rewrite (dict_mem_lookup _ _ Hu) in Hid. rewrite Hid. reflexivity.
Qed.

Lemma pair_loop_returns (el : TestParameters) :
  dict_mem "usecase" el = true ->
  forall pairs lists,
    exists ids',
      for_in pairs (pair_body el) lists
      = Ret ((fst lists
              ++ List.concat
                   (map (fun md =>
                           map (test_parameters_of el (fst md) (snd md))
                             _TEST_STAGES) pairs))%list,
             (snd lists ++ ids')%list)
      /\ Forall2 (fun tp id => _generate_test_id tp = Ret id)
           (List.concat
              (map (fun md =>
                      map (test_parameters_of el (fst md) (snd md))
                        _TEST_STAGES) pairs)) ids'.
Proof.
  intros Hu pairs. induction pairs as [|md pairs IH]; intros lists.
  - exists []. cbn [for_in map List.concat]. rewrite !app_nil_r.
    destruct lists. split; [reflexivity | constructor].
  - rewrite for_in_cons. unfold pair_body at 1.
    destruct (stage_loop_returns el md Hu _TEST_STAGES lists)
      as [ids1 [H1 A1]].
    rewrite H1. cbn [bind].
    match goal with
    | |- context [for_in pairs (pair_body el) ?l] =>
        destruct (IH l) as [ids2 [H2 A2]]
    end.
    rewrite H2. cbn [fst snd map List.concat]. exists (ids1 ++ ids2)%list.
    split.
    + rewrite <- !app_assoc. reflexivity.
    + apply Forall2_app; assumption.
Qed.

Lemma pair_loop_raises (el : TestParameters) (md : PyVal * PyVal)
    (pairs : list (PyVal * PyVal))
    (lists : list TestParameters * list TestId) :
  dict_mem "usecase" el = false ->
  for_in (md :: pairs) (pair_body el) lists = Raise no_usecase.
Proof.
  intros Hu. rewrite for_in_cons. unfold pair_body at 1.
  unfold _TEST_STAGES. rewrite (stage_loop_raises el md _ _ lists Hu).
  reflexivity.
Qed.

Lemma bunch_body_returns (usecase : option string) (el : TestParameters)
    (lists : list TestParameters * list TestId) :
  negb (selected usecase el) || has_usecase_if_tests el = true ->
  exists ids',
    bunch_body usecase el lists
    = Ret ((fst lists
            ++ (if selected usecase el then tests_of_bunch el else []))%list,
           (snd lists ++ ids')%list)
    /\ Forall2 (fun tp id => _generate_test_id tp = Ret id)
         (if selected usecase el then tests_of_bunch el else []) ids'.
Proof.
  unfold bunch_body, selected.
  destruct (other_usecase usecase (dict_lookup "usecase" el));
    cbn [negb orb].
  - intros _. exists []. rewrite !app_nil_r. destruct lists.
    split; [reflexivity | constructor].
  - unfold has_usecase_if_tests, tests_of_bunch, runs_of_bunch.
    destruct (dict_mem "usecase" el) eqn:Hu.
    + intros _. apply (pair_loop_returns el Hu).
    + destruct (pairs_of el) as [|md pairs]; cbn [is_nil orb];
        [|discriminate].
      intros _. exists []. cbn [for_in map List.concat].
      rewrite !app_nil_r. destruct lists. split; [reflexivity | constructor].
Qed.

Lemma bunch_body_raises (usecase : option string) (el : TestParameters)
    (lists : list TestParameters * list TestId) :
  negb (selected usecase el) || has_usecase_if_tests el = false ->
  bunch_body usecase el lists = Raise no_usecase.
Proof.
  unfold bunch_body, selected, has_usecase_if_tests.
  destruct (other_usecase usecase (dict_lookup "usecase" el));
    cbn [negb orb]; [discriminate|].
  destruct (pairs_of el) as [|md pairs]; cbn [is_nil orb]; [discriminate|].
  intros Hu. apply pair_loop_raises, Hu.
Qed.

Lemma bunch_loop (usecase : option string) (bunches : list TestParameters) :
  forall lists,
    (forallb (fun el => negb (selected usecase el) || has_usecase_if_tests el)
       bunches = true
     /\ exists ids',
          for_in bunches (bunch_body usecase) lists
          = Ret ((fst lists
                  ++ flat_map tests_of_bunch
                       (filter (selected usecase) bunches))%list,
                 (snd lists ++ ids')%list)
          /\ Forall2 (fun tp id => _generate_test_id tp = Ret id)
               (flat_map tests_of_bunch (filter (selected usecase) bunches))
               ids')
    \/ (forallb (fun el => negb (selected usecase el)
                           || has_usecase_if_tests el) bunches = false
        /\ for_in bunches (bunch_body usecase) lists = Raise no_usecase).
Proof.
  induction bunches as [|el bunches IH]; intros lists.
  - left. split; [reflexivity|]. exists [].
    cbn [for_in filter flat_map]. rewrite !app_nil_r. destruct lists.
    split; [reflexivity | constructor].
  - cbn [forallb]. rewrite for_in_cons.
    destruct (negb (selected usecase el) || has_usecase_if_tests el) eqn:Hok.
    + destruct (bunch_body_returns usecase el lists Hok) as [ids1 [H1 A1]].
      rewrite H1. cbn [bind andb].
      match goal with
      | |- context [for_in bunches (bunch_body usecase) ?l] =>
          destruct (IH l) as [[Hall [ids2 [H2 A2]]]|[Hall Hr]]
      end.
      * left. split; [exact Hall|]. exists (ids1 ++ ids2)%list.
        rewrite H2. cbn [fst snd filter].
        destruct (selected usecase el); cbn [flat_map].
        -- split; [rewrite <- !app_assoc; reflexivity|].
           apply Forall2_app; assumption.
        -- inversion A1. subst. rewrite !app_nil_r. cbn [app].
           split; [reflexivity | exact A2].
      * right. split; [exact Hall|]. rewrite Hr. reflexivity.
    + right. cbn [andb]. split; [reflexivity|].
      rewrite (bunch_body_raises usecase el lists Hok). reflexivity.
Qed.

Lemma get_list_of_tests_cases (bunches : list TestParameters)
    (usecase : option string) :
  (forallb (fun el => negb (selected usecase el) || has_usecase_if_tests el)
     bunches = true
   /\ exists ids,
        get_list_of_tests bunches usecase
        = Ret (["test_parameters"],
               flat_map tests_of_bunch (filter (selected usecase) bunches),
               ids)
        /\ Forall2 (fun tp id => _generate_test_id tp = Ret id)
             (flat_map tests_of_bunch (filter (selected usecase) bunches))
             ids)
  \/ (forallb (fun el => negb (selected usecase el)
                         || has_usecase_if_tests el) bunches = false
      /\ get_list_of_tests bunches usecase = Raise no_usecase).
Proof.
  rewrite get_list_of_tests_eq.
  destruct (bunch_loop usecase bunches ([], []))
    as [[Hall [ids [H A]]]|[Hall H]].
  - left. split; [exact Hall|]. exists ids. rewrite H. cbn [bind fst snd app].
    split; [reflexivity | exact A].
  - right. split; [exact Hall|]. rewrite H. reflexivity.
Qed.

Lemma length_product {A B : Type} (xs : list A) (ys : list B) :
  List.length (product xs ys) = List.length xs * List.length ys.
Proof.
  unfold product. induction xs as [|x xs IH]; cbn [flat_map List.length];
    [reflexivity|].
  rewrite length_app, length_map, IH. reflexivity.
Qed.

Lemma length_tests_of_bunch (el : TestParameters) :
  List.length (tests_of_bunch el)
  = 10 * (List.length (names_under (dict_lookup "model_name" el))
          * List.length (names_under (dict_lookup "dataset_name" el))).
Proof.
  unfold tests_of_bunch, runs_of_bunch.
  rewrite <- (length_product (names_under (dict_lookup "model_name" el))
                (names_under (dict_lookup "dataset_name" el))).
  fold (pairs_of el).
  induction (pairs_of el) as [|md pairs IH].
  - reflexivity.
  - cbn [map List.concat]. rewrite length_app, IH, length_map.
    change (List.length _TEST_STAGES) with 10. cbn [List.length]. lia.
Qed.

Lemma length_tests (usecase : option string)
    (bunches : list TestParameters) :
  List.length (flat_map tests_of_bunch (filter (selected usecase) bunches))
  = number_of_tests usecase bunches.
Proof.
  unfold number_of_tests.
  induction (filter (selected usecase) bunches) as [|el sel IH].
  - reflexivity.
  - cbn [flat_map map list_sum]. rewrite length_app, IH, length_tests_of_bunch.
    reflexivity.
Qed.

(** X26. The tests and their ids. When [get_list_of_tests] returns, the names of
    the arguments are the one name [test_parameters]; there are ten tests
    for each pair of a model and a dataset of each bunch that passes the
    filter by usecase; and there are as many ids as tests, each id being the
    one [_generate_test_id] makes of the test at the same place. *)
Theorem every_test_has_its_id
    (bunches : list TestParameters) (usecase : option string)
    (argnames : list string) (argvalues : list TestParameters)
    (ids : list TestId) :
  get_list_of_tests bunches usecase = Ret (argnames, argvalues, ids) ->
  argnames = ["test_parameters"]
  /\ List.length argvalues = number_of_tests usecase bunches
  /\ List.length ids = List.length argvalues
  /\ Forall2 (fun tp id => _generate_test_id tp = Ret id) argvalues ids.
Proof.
  intros H.
  destruct (get_list_of_tests_cases bunches usecase)
    as [[_ [ids0 [H0 A]]]|[_ H0]]; rewrite H0 in H; [|discriminate H].
  inversion H. subst. split; [reflexivity|].
  split; [apply length_tests|].
  split; [symmetry; apply (Forall2_length A) | exact A].
Qed.

Lemma concat_flat_map {A B : Type} (f : A -> list (list B)) (l : list A) :
  List.concat (flat_map f l) = flat_map (fun x => List.concat (f x)) l.
Proof.
  induction l as [|x l IH]; cbn [flat_map]; [reflexivity|].
  rewrite concat_app, IH. reflexivity.
Qed.

Lemma nth_error_concat_runs {A : Type} (n : nat) (runs : list (list A)) :
  Forall (fun r => List.length r = n) runs ->
  forall k i,
    i < n ->
    nth_error (List.concat runs) (n * k + i)
    = match nth_error runs k with
      | Some r => nth_error r i
      | None => None
      end.
Proof.
  intros Hall. induction Hall as [|r runs Hr Hall IH]; intros k i Hi.
  - cbn [List.concat]. rewrite nth_error_nil. destruct k; reflexivity.
  - cbn [List.concat]. destruct k as [|k].
    + rewrite Nat.mul_0_r, Nat.add_0_l. cbn [nth_error].
      apply nth_error_app1. lia.
    + cbn [nth_error]. rewrite <- (IH k i Hi).
      rewrite Nat.mul_succ_r.
      rewrite nth_error_app2 by lia. f_equal. lia.
Qed.

Lemma runs_are_runs (bunches : list TestParameters) :
  Forall (fun run =>
            exists el m d,
              In el bunches
              /\ In (m, d) (pairs_of el)
              /\ run = map (test_parameters_of el m d) _TEST_STAGES)
    (flat_map runs_of_bunch bunches).
Proof.
  apply Forall_forall. intros run Hin.
  apply in_flat_map in Hin. destruct Hin as [el [Hel Hin]].
  unfold runs_of_bunch in Hin. apply in_map_iff in Hin.
  destruct Hin as [[m d] [Heq Hmd]]. cbn [fst snd] in Heq.
  exists el, m, d. split; [exact Hel|]. split; [exact Hmd|].
  symmetry. exact Heq.
Qed.

Lemma tests_are_runs (bunches : list TestParameters) :
  flat_map tests_of_bunch bunches
  = List.concat (flat_map runs_of_bunch bunches).
Proof. rewrite concat_flat_map. reflexivity. Qed.

(** X27. The tests of one test case come together and in the order of the
    stages. When [get_list_of_tests] returns, every ten tests from a place
    that is a multiple of ten on are the tests of the ten stages, in the
    order of [_TEST_STAGES], and all ten have the model, the dataset, the
    number of iterations and the batch size of the first one: the
    parameters by which the cache decides to keep the test case. *)
Theorem tests_come_in_runs_of_the_stages
    (bunches : list TestParameters) (usecase : option string)
    (argnames : list string) (argvalues : list TestParameters)
    (ids : list TestId) (k i : nat) :
  get_list_of_tests bunches usecase = Ret (argnames, argvalues, ids) ->
  i < 10 ->
  10 * k + i < List.length argvalues ->
  exists first tp,
    nth_error argvalues (10 * k) = Some first
    /\ nth_error argvalues (10 * k + i) = Some tp
    /\ dict_lookup "test_stage" tp
       = Some (Single (VStr (nth i _TEST_STAGES "")))
    /\ Forall (fun key => dict_lookup key tp = dict_lookup key first)
         TEST_PARAMETERS_DEFINING_IMPL_BEHAVIOR.
Proof.
  intros H Hi Hlen.
  destruct (get_list_of_tests_cases bunches usecase)
    as [[_ [ids0 [H0 _]]]|[_ H0]]; rewrite H0 in H; [|discriminate H].
  inversion H. subst argnames argvalues ids0. clear H H0.
  rewrite tests_are_runs in *.
  set (runs := flat_map runs_of_bunch (filter (selected usecase) bunches))
    in *.
  pose proof (runs_are_runs (filter (selected usecase) bunches)) as Hruns.
  fold runs in Hruns.
  assert (Hten : Forall (fun r : list TestParameters => List.length r = 10)
                   runs).
  { apply Forall_forall. intros r Hr.
    rewrite Forall_forall in Hruns.
    destruct (Hruns r Hr) as [el [m [d [_ [_ ->]]]]].
    rewrite length_map. reflexivity. }
  pose proof (nth_error_concat_runs 10 runs Hten k i Hi) as Hnth.
  assert (H0 : 0 < 10) by lia.
  pose proof (nth_error_concat_runs 10 runs Hten k 0 H0) as Hnth0.
  rewrite Nat.add_0_r in Hnth0.
  destruct (nth_error runs k) as [r|] eqn:Hr.
  2: { exfalso. apply nth_error_Some in Hlen. apply Hlen. exact Hnth. }
  rewrite Forall_forall in Hruns.
  destruct (Hruns r (nth_error_In _ _ Hr)) as [el [m [d [_ [_ ->]]]]].
  assert (Hstage : nth_error _TEST_STAGES i = Some (nth i _TEST_STAGES "")).
  { apply nth_error_nth'. exact Hi. }
  rewrite (map_nth_error _ _ _ Hstage) in Hnth.
  assert (Hstage0 : nth_error _TEST_STAGES 0 = Some "training")
    by reflexivity.
  rewrite (map_nth_error _ _ _ Hstage0) in Hnth0.
  exists (test_parameters_of el m d "training"),
    (test_parameters_of el m d (nth i _TEST_STAGES "")).
  split; [exact Hnth0|]. split; [exact Hnth|].
  destruct (lookups_of_test_parameters el m d (nth i _TEST_STAGES ""))
    as (Hs & Hm & Hd & Hn & Hb & _).
  destruct (lookups_of_test_parameters el m d "training")
    as (_ & Hm0 & Hd0 & Hn0 & Hb0 & _).
  split; [exact Hs|].
  unfold TEST_PARAMETERS_DEFINING_IMPL_BEHAVIOR.
  repeat constructor; congruence.
Qed.

(** X28. What a test holds. When [get_list_of_tests] returns, each test comes
    from a bunch that passes the filter, a model and a dataset the bunch
    names, and a stage of [_TEST_STAGES]: the test holds this stage, model
    and dataset; under [num_training_iters] and [batch_size] it holds what
    the bunch gives, or 1 and 2 when the bunch gives nothing, [None] or the
    marker of the default; under any other key it holds what the bunch
    holds. After this, neither of the two asks for a default. *)
Theorem test_holds_the_parameters_of_its_bunch
    (bunches : list TestParameters) (usecase : option string)
    (argnames : list string) (argvalues : list TestParameters)
    (ids : list TestId) (tp : TestParameters) :
  get_list_of_tests bunches usecase = Ret (argnames, argvalues, ids) ->
  In tp argvalues ->
  exists el m d test_stage,
    In el bunches
    /\ selected usecase el = true
    /\ In m (names_under (dict_lookup "model_name" el))
    /\ In d (names_under (dict_lookup "dataset_name" el))
    /\ In test_stage _TEST_STAGES
    /\ dict_lookup "test_stage" tp = Some (Single (VStr test_stage))
    /\ dict_lookup "model_name" tp = Some (Single m)
    /\ dict_lookup "dataset_name" tp = Some (Single d)
    /\ dict_lookup "num_training_iters" tp
       = (if default_is_required (dict_lookup "num_training_iters" el) then
            Some (Single DEFAULT_NUM_ITERS)
          else dict_lookup "num_training_iters" el)
    /\ dict_lookup "batch_size" tp
       = (if default_is_required (dict_lookup "batch_size" el) then
            Some (Single DEFAULT_BATCH_SIZE)
          else dict_lookup "batch_size" el)
    /\ (forall key,
          ~ In key ["test_stage"; "model_name"; "dataset_name";
                    "num_training_iters"; "batch_size"] ->
          dict_lookup key tp = dict_lookup key el)
    /\ default_is_required (dict_lookup "num_training_iters" tp) = false
    /\ default_is_required (dict_lookup "batch_size" tp) = false.
Proof.
  intros H Hin.
  destruct (get_list_of_tests_cases bunches usecase)
    as [[_ [ids0 [H0 _]]]|[_ H0]]; rewrite H0 in H; [|discriminate H].
  inversion H. subst argnames argvalues ids0. clear H H0.
  rewrite tests_are_runs in Hin. apply in_concat in Hin.
  destruct Hin as [run [Hrun Hin]].
  pose proof (runs_are_runs (filter (selected usecase) bunches)) as Hruns.
  rewrite Forall_forall in Hruns.
  destruct (Hruns run Hrun) as [el [m [d [Hel [Hmd ->]]]]].
  apply in_map_iff in Hin. destruct Hin as [test_stage [<- Hstage]].
  apply filter_In in Hel. destruct Hel as [Hel Hsel].
  unfold pairs_of, product in Hmd. apply in_flat_map in Hmd.
  destruct Hmd as [m' [Hm' Hmd]]. apply in_map_iff in Hmd.
  destruct Hmd as [d' [Heq Hd']]. inversion Heq. subst m' d'.
  destruct (lookups_of_test_parameters el m d test_stage)
    as (Hs & Hm & Hd & Hn & Hb & _).
  exists el, m, d, test_stage.
  repeat (split; [assumption|]).
  split; [intros key Hkey; apply lookup_of_other_key, Hkey|].
  rewrite Hn, Hb. split.
  - destruct (default_is_required (dict_lookup "num_training_iters" el))
      eqn:Hreq; [reflexivity | exact Hreq].
  - destruct (default_is_required (dict_lookup "batch_size" el))
      eqn:Hreq; [reflexivity | exact Hreq].
Qed.

Lemma selected_by_usecase_has_usecase (u : string) (el : TestParameters) :
  selected (Some u) el = true -> dict_mem "usecase" el = true.
Proof.
  unfold selected, other_usecase. intros H.
  apply dict_mem_true_iff.
  destruct (dict_lookup "usecase" el) as [v|]; [|discriminate H].
  exists v. reflexivity.
Qed.

(** X29. When the list of the tests cannot be made. [get_list_of_tests] returns
    exactly when every bunch that passes the filter and gives at least one
    pair of a model and a dataset has the key [usecase]; otherwise it
    raises the [KeyError] of this key, from [_generate_test_id]. With a
    filter by usecase it always returns. *)
Theorem list_of_tests_needs_the_usecase_of_its_bunches
    (bunches : list TestParameters) (usecase : option string) :
  ((exists result, get_list_of_tests bunches usecase = Ret result)
   <-> Forall (fun el =>
                 selected usecase el = true ->
                 pairs_of el = [] \/ dict_mem "usecase" el = true) bunches)
  /\ (forall e, get_list_of_tests bunches usecase = Raise e -> e = no_usecase)
  /\ (usecase <> None ->
      exists result, get_list_of_tests bunches usecase = Ret result).
Proof.
  assert (Hok : forallb (fun el => negb (selected usecase el)
                                   || has_usecase_if_tests el) bunches = true
                <-> Forall (fun el =>
                              selected usecase el = true ->
                              pairs_of el = []
                              \/ dict_mem "usecase" el = true) bunches).
  { rewrite forallb_forall, Forall_forall. split; intros H el Hel.
    - intros Hsel. specialize (H el Hel). rewrite Hsel in H.
      cbn [negb orb] in H. unfold has_usecase_if_tests in H.
      destruct (pairs_of el); [left; reflexivity|].
      right. exact H.
    - specialize (H el Hel). destruct (selected usecase el);
        [|reflexivity].
      cbn [negb orb]. unfold has_usecase_if_tests.
      destruct (H eq_refl) as [-> | ->]; [reflexivity|].
      apply orb_true_r. }
  destruct (get_list_of_tests_cases bunches usecase)
    as [[Hall [ids [H _]]]|[Hall H]].
  - split; [|split].
    + split; [intros _; apply Hok, Hall | intros _; eexists; exact H].
    + intros e He. rewrite H in He. discriminate He.
    + intros _. eexists. exact H.
  - split; [|split].
    + split.
      * intros [result Hr]. rewrite H in Hr. discriminate Hr.
      * intros HF. apply Hok in HF. congruence.
    + intros e He. rewrite H in He. inversion He. reflexivity.
    + intros Hu. exfalso.
      destruct usecase as [u|]; [|apply Hu; reflexivity].
      assert (Htrue : forallb (fun el => negb (selected (Some u) el)
                                         || has_usecase_if_tests el) bunches
                      = true).
      { apply forallb_forall. intros el _.
        destruct (selected (Some u) el) eqn:Hsel; [|reflexivity].
        cbn [negb orb]. unfold has_usecase_if_tests.
        rewrite (selected_by_usecase_has_usecase u el Hsel).
        apply orb_true_r. }
      congruence.
Qed.
End GenerationProperties.

Section BoundsWitnesses.

Local Open Scope float_scope.

Lemma computed_bounds_have_a_side_and_a_tolerance_witness :
  _get_min_max_value_from_expected_metrics no_float_of_str
    (VDict nan_requirement) (VDict [])
  = Ret (nan, Some nan, Some nan)
  /\ _compare 0.8 "metrics.accuracy.f-measure" nan (Some nan) (Some nan)
     = Raise (Exc AssertionError [] None).
Proof.
  split; [reflexivity|].
  destruct (computed_bounds_have_a_side_and_a_tolerance no_float_of_str
              (VDict nan_requirement) (VDict []) nan (Some nan) (Some nan)
              eq_refl)
    as [_ [_ [_ H]]].
  exact (H 0.8 "metrics.accuracy.f-measure"%string).
Defined.

Lemma asymmetric_range_bounds_witness :
  _get_min_max_value_from_expected_metrics no_float_of_str
    (VDict relative_requirement) (VDict evaluated_storage)
  = Ret (0.8, Some (0.8 - 0.01), None).
Proof.
  apply (asymmetric_range_bounds no_float_of_str relative_requirement
           (VDict evaluated_storage) 0.8 (Some 0.01) None
           eq_refl eq_refl eq_refl (conj eq_refl eq_refl) eq_refl).
  - left. discriminate.
  - intros d H. inversion H. reflexivity.
  - intros d H. discriminate H.
Defined.

Lemma compare_decides_interval_witness :
  _compare 0.8 "metrics.accuracy.f-measure" 0.81 None (Some 0.815)
  = Ret (true, None).
Proof.
  destruct (compare_decides_interval no_float_of_str 0.8
              "metrics.accuracy.f-measure" 0.81 None (Some 0.815))
    as [[_ H] _].
  - right. discriminate.
  - exact I.
  - reflexivity.
  - apply H. split; [exact I | reflexivity].
Defined.

Lemma negative_tolerance_is_rejected_witness :
  _get_min_max_value_from_expected_metrics no_float_of_str
    (VDict negative_requirement) (VDict [])
  = Raise (wrong_diff "max_diff" (-0.005)).
Proof.
  destruct (negative_tolerance_is_rejected no_float_of_str
              negative_requirement (VDict []) 0.81 (-0.005)
              eq_refl eq_refl (or_introl eq_refl)) as [H _].
  apply H; reflexivity.
Defined.

Lemma joined_address_resolves_along_its_keys_witness :
  get_value_from_dict_by_dot_separated_address low_result
    (VStr "metrics.accuracy.f-measure")
  = Ret (VFloat 0.5).
Proof.
  destruct (joined_address_resolves_along_its_keys low_result
              ["metrics"; "accuracy"; "f-measure"]) as [_ H].
  - discriminate.
  - repeat constructor.
  - apply (H (VFloat 0.5)). reflexivity.
Defined.

Lemma unreadable_metric_errors_witness :
  check_metric no_float_of_str huge_result (VDict [])
    "metrics.accuracy.f-measure" VNone
  = Raise (Exc OverflowError [Lit "int too large to convert to float"] None).
Proof.
  pose proof (unreadable_metric_errors no_float_of_str huge_result (VDict [])
                "metrics.accuracy.f-measure" VNone) as H.
  vm_compute in H. vm_compute.
  exact (proj2 (H _ eq_refl)).
Defined.

Lemma validate_stops_at_first_error_witness :
  exists e,
    validate no_float_of_str absent_metric_validator low_result (VDict [])
    = Raise e
    /\ exc_class e = ValueError.
Proof.
  eexists. split.
  - refine (proj1 (validate_stops_at_first_error no_float_of_str
                     absent_metric_validator low_result (VDict [])
                     [("metrics.accuracy.f-measure",
                       VDict [("target_value", VFloat 0.81);
                              ("max_diff", VFloat 0.005)])]
                     "metrics.accuracy.precision"
                     (VDict [("target_value", VFloat 0.9);
                             ("max_diff", VFloat 0.01)])
                     [] _ eq_refl _ eq_refl)).
    intros k' req' [H|[]]. inversion H. eexists. reflexivity.
  - reflexivity.
Defined.
End BoundsWitnesses.

(** ** The further properties of run_once at sample stages *)

Lemma occupied_world_clean : clean occupied_world.
Proof. intros ref _. reflexivity. Qed.

Lemma duplicate_name_is_refused_witness :
  run_once no_float_of_str failing_stage None occupied_world
  = (occupied_world, Raise (duplicate_stage "training")).
Proof.
  exact (proj1 (duplicate_name_is_refused no_float_of_str nat 0
                  failing_action [] None None occupied_world occupied_world
                  occupied_world_clean eq_refl eq_refl eq_refl)).
Defined.

Lemma failed_dependency_stops_the_stage_witness :
  run_once no_float_of_str dependent_stage None (fresh_world 0)
  = (fst (run_once no_float_of_str failing_stage None (fresh_world 0)),
     Raise training_failed).
Proof.
  exact (failed_dependency_stops_the_stage no_float_of_str nat 1
           low_evaluation_action [] [] failing_stage None
           (fresh_world 0) (fresh_world 0) _ training_failed
           eq_refl eq_refl).
Defined.

Lemma storage_is_only_appended_to_witness :
  dict_lookup "training"
    (test_results_storage
       (fst (run_once no_float_of_str low_evaluation_stage None
               occupied_world)))
  = Some VNone.
Proof.
  apply (proj2 (storage_is_only_appended_to no_float_of_str nat
                  low_evaluation_stage None occupied_world)).
  reflexivity.
Defined.

Lemma successful_run_is_replayed_unchanged_witness :
  let w' :=
    fst (run_once no_float_of_str sample_pot_evaluation_stage None
           (fresh_world 0)) in
  run_once no_float_of_str sample_pot_evaluation_stage None w' = (w', Ret tt).
Proof.
  intros w'.
  apply (proj2 (successful_run_is_replayed_unchanged no_float_of_str nat
                  sample_pot_evaluation_stage None (fresh_world 0) w'
                  (fresh_world_clean nat 0) eq_refl)).
Defined.

Lemma failing_stage_well_behaved : well_behaved failing_stage.
Proof.
  intros s [<-|[]] prior x x' e H. inversion H. reflexivity.
Qed.

Lemma well_behaved_actions_run_at_most_once_witness :
  let w1 := fst (run_once no_float_of_str failing_stage None (fresh_world 0)) in
  let w2 := fst (run_once no_float_of_str failing_stage None w1) in
  (calls_of 0 (log w2) <= 1)%nat.
Proof.
  intros w1 w2.
  apply (well_behaved_actions_run_at_most_once no_float_of_str nat
           failing_stage w2 0 failing_stage_well_behaved).
  apply reached_run_once; [|left; reflexivity].
  apply reached_run_once; [|left; reflexivity].
  apply reached_fresh.
Defined.

Lemma low_evaluation_stage_unique_names : unique_names low_evaluation_stage.
Proof.
  intros s1 s2 [<-|[]] [<-|[]]. split; reflexivity.
Qed.

Lemma storage_holds_the_cached_results_witness :
  dict_lookup "training_evaluation"
    (test_results_storage
       (fst (run_once no_float_of_str low_evaluation_stage None
               (fresh_world 0))))
  = Some low_result.
Proof.
  refine (storage_holds_the_cached_results no_float_of_str nat
            low_evaluation_stage
            (fst (run_once no_float_of_str low_evaluation_stage None
                    (fresh_world 0)))
            low_evaluation_stage
            low_evaluation_stage_unique_names _ _ _).
  - apply reached_run_once; [apply reached_fresh | left; reflexivity].
  - left. reflexivity.
  - split; reflexivity.
Defined.

(** ** The further properties of the test case and the actions at samples *)

Lemma every_stage_finds_its_prior_results_witness :
  Forall (fun stage =>
            snd (run_once no_float_of_str stage None (fresh_world 0)) = Ret tt)
    (list_all_stages nat returning_run_ote returning_run_ote_evaluation
       VNone VNone (VInt 1) (VInt 2)).
Proof.
  apply (every_stage_finds_its_prior_results no_float_of_str nat
           returning_run_ote returning_run_ote_evaluation
           VNone VNone (VInt 1) (VInt 2) 0).
  - intros a init kwargs x0. eexists. eexists. reflexivity.
  - intros a init kwargs x0. eexists. eexists. reflexivity.
Defined.

Lemma run_stage_knows_the_test_stages_witness :
  exists stage,
    find_stage nat "pot"
      (_stages nat returning_run_ote returning_run_ote_evaluation
         VNone VNone (VInt 1) (VInt 2))
    = Some stage
    /\ stage_name stage = "pot".
Proof.
  pose proof (run_stage_knows_the_test_stages no_float_of_str nat
                returning_run_ote returning_run_ote_evaluation
                (new_test_case VNone VNone (VInt 1) (VInt 2))
                two_metrics_validator 0 []) as H.
  cbv zeta in H. destruct H as [_ [H _]].
  destruct (H "pot") as [stage [Hfind [Hname _]]].
  - right. right. right. right. left. reflexivity.
  - exists stage. split; assumption.
Defined.

Lemma test_case_keeps_its_books_witness :
  dict_lookup "training" (results_storage (fst (fst trained_test_case)))
  = Some (stage_results (stages_state (fst (fst trained_test_case)) 0)).
Proof.
  pose proof (test_case_keeps_its_books no_float_of_str nat
                returning_run_ote returning_run_ote_evaluation
                VNone VNone (VInt 1) (VInt 2)
                (fst (fst trained_test_case)) (snd (fst trained_test_case))
                (snd trained_test_case) sample_training_stage) as H.
  cbv zeta in H.
  refine (proj1 (proj2 (H _ _)) _ _).
  - exact (runs_stage no_float_of_str nat returning_run_ote
             returning_run_ote_evaluation VNone VNone (VInt 1) (VInt 2)
             _ 0 0 [] "training" two_metrics_validator
             (runs_new no_float_of_str nat returning_run_ote
                returning_run_ote_evaluation VNone VNone (VInt 1) (VInt 2) 0)).
  - left. reflexivity.
  - reflexivity.
  - reflexivity.
Defined.

Lemma check_names_first_missing_stage_witness :
  _check_result_prev_stages "export_evaluation" training_results_only
    ["training"; "export"]
  = Raise (missing_results "export_evaluation" "export").
Proof.
  exact (proj2 (check_names_first_missing_stage "export_evaluation"
                  training_results_only ["training"; "export"])
           ["training"] "export" [] eq_refl eq_refl eq_refl).
Defined.

Lemma action_does_not_start_without_prior_results_witness :
  exists e,
    action_call returning_run_ote returning_run_ote_evaluation
      OTETestPotAction [] export_results_only 0
    = (0, Raise e)
    /\ is_Exception e = true.
Proof.
  apply (action_does_not_start_without_prior_results nat returning_run_ote
           returning_run_ote_evaluation OTETestPotAction []
           export_results_only 0 "training").
  - left. reflexivity.
  - reflexivity.
Defined.

Lemma base_reads_the_score_of_an_evaluation_witness :
  exists score_name score_value,
    evaluation_results "f-measure" (VFloat 0.5)
    = evaluation_results score_name score_value
    /\ (has_char dot score_name = false ->
        dict_mem "target_value" relative_requirement = false ->
        dict_lookup "base" relative_requirement
        = Some (VStr (String.concat "."
                        ["training_evaluation"; "metrics"; "accuracy";
                         score_name])) ->
        target_value_of no_float_of_str relative_requirement
          (VDict [("training_evaluation",
                   evaluation_results "f-measure" (VFloat 0.5))])
        = py_float no_float_of_str score_value).
Proof.
  apply (base_reads_the_score_of_an_evaluation no_float_of_str nat
           returning_run_ote returning_run_ote_evaluation
           OTETestTrainingEvaluationAction [] training_results_only 0 1).
  - reflexivity.
  - reflexivity.
  - reflexivity.
Defined.

Lemma fixture_validator_skips_or_reads_expected_metrics_witness :
  exists usecase,
    subscript (VDict [("usecase", VStr "reallife")]) "usecase" = Ret usecase
    /\ py_eq (VStr "reallife") usecase = true
    /\ exists d items,
         Some [("ACTION-training_evaluation", VDict two_expected_metrics)]
         = Some d
         /\ dict_lookup "ACTION-training_evaluation" d
            = Some (VDict two_expected_metrics)
         /\ VDict two_expected_metrics = VDict items.
Proof.
  exact (fixture_validator_skips_or_reads_expected_metrics no_float_of_str
           (Some [("ACTION-training_evaluation", VDict two_expected_metrics)])
           "ACTION-training_evaluation"
           (VDict [("usecase", VStr "reallife")])
           (Some (Ret (VDict two_expected_metrics))) eq_refl).
Defined.

Lemma node_name_gives_back_the_parameters_witness :
  current_test_parameters_string_fx "test[ACTION-training,model-[ssd]]"
  = Ret "ACTION-training,model-[ssd]".
Proof.
  exact (proj1 node_name_gives_back_the_parameters "test"
           "ACTION-training,model-[ssd]" eq_refl).
Defined.

Lemma sample_parameters_equal_themselves (k : string) (v : PyVal) :
  subscript (sample_parameters 2) k = Ret v -> py_eq v v = true.
Proof.
  unfold sample_parameters.
  cbn [subscript dict_lookup].
  repeat (destruct (String.eqb k _);
          [intros H; inversion H; reflexivity|]).
  discriminate.
Qed.

Lemma same_parameters_return_the_same_test_case_witness :
  _update_test_case_in_cache sample_osp_join sample_session
    (sample_parameters 2) sample_dataset_definitions sample_template_paths
  = (sample_session, Ret (TestCaseRef 0)).
Proof.
  apply (same_parameters_return_the_same_test_case sample_osp_join
           {| test_cases := []; cache := [] |} sample_session
           (sample_parameters 2) sample_dataset_definitions
           sample_template_paths (TestCaseRef 0)
           sample_parameters_equal_themselves).
  reflexivity.
Defined.

Lemma dataset_parameters_are_the_joined_required_fields_witness :
  exists definition root fields,
    subscript_by sample_dataset_definitions (VStr "bbcd")
    = Ret (VDict definition)
    /\ subscript sample_dataset_definitions ROOT_PATH_KEY = Ret (VStr root)
    /\ VDict [("annotations_train", VStr "/data/train.json");
              ("images_train_dir", VStr "/data/train");
              ("annotations_val", VStr "/data/val.json");
              ("images_val_dir", VStr "/data/val");
              ("annotations_test", VStr "/data/test.json");
              ("images_test_dir", VStr "/data/test")]
       = VDict fields
    /\ dict_keys fields = DATASET_PARAMETERS_FIELDS
    /\ forall f,
         In f DATASET_PARAMETERS_FIELDS ->
         exists path,
           dict_lookup f definition = Some (VStr path)
           /\ dict_lookup f fields = Some (VStr (sample_osp_join root path))
           /\ sample_osp_join root path <> "".
Proof.
  apply (dataset_parameters_are_the_joined_required_fields sample_osp_join
           sample_dataset_definitions (VStr "bbcd")).
  reflexivity.
Defined.

Lemma dataset_definition_is_accepted_exactly_when_complete_witness :
  (exists params,
     _get_dataset_params_from_dataset_definitions sample_osp_join
       sample_dataset_definitions (VStr "bbcd")
     = Ret params)
  <-> ((forall f, In f DATASET_PARAMETERS_FIELDS ->
                  dict_mem f
                    [("annotations_train", VStr "train.json");
                     ("images_train_dir", VStr "train");
                     ("annotations_val", VStr "val.json");
                     ("images_val_dir", VStr "val");
                     ("annotations_test", VStr "test.json");
                     ("images_test_dir", VStr "test")]
                  = true)
       /\ (forall k v,
             In (k, v)
               [("annotations_train", VStr "train.json");
                ("images_train_dir", VStr "train");
                ("annotations_val", VStr "val.json");
                ("images_val_dir", VStr "val");
                ("annotations_test", VStr "test.json");
                ("images_test_dir", VStr "test")] ->
             In k DATASET_PARAMETERS_FIELDS ->
             exists path,
               v = VStr path /\ sample_osp_join "/data/" path <> "")).
Proof.
  apply (dataset_definition_is_accepted_exactly_when_complete sample_osp_join
           sample_dataset_definitions (VStr "bbcd")).
  - reflexivity.
  - reflexivity.
Defined.

(** ** The properties of the list of the tests at the bunches of the class *)

Lemma every_test_has_its_id_witness :
  fst (fst all_tests_of_the_class) = ["test_parameters"]
  /\ List.length (snd (fst all_tests_of_the_class))
     = number_of_tests None test_bunches
  /\ List.length (snd all_tests_of_the_class)
     = List.length (snd (fst all_tests_of_the_class))
  /\ Forall2 (fun tp id => _generate_test_id tp = Ret id)
       (snd (fst all_tests_of_the_class)) (snd all_tests_of_the_class).
Proof.
  apply (every_test_has_its_id test_bunches None).
  reflexivity.
Defined.

Lemma tests_come_in_runs_of_the_stages_witness :
  exists first tp,
    nth_error (snd (fst all_tests_of_the_class)) (10 * 3) = Some first
    /\ nth_error (snd (fst all_tests_of_the_class)) (10 * 3 + 5) = Some tp
    /\ dict_lookup "test_stage" tp
       = Some (Single (VStr (nth 5 _TEST_STAGES "")))
    /\ Forall (fun key => dict_lookup key tp = dict_lookup key first)
         TEST_PARAMETERS_DEFINING_IMPL_BEHAVIOR.
Proof.
  apply (tests_come_in_runs_of_the_stages test_bunches None
           (fst (fst all_tests_of_the_class)) _
           (snd all_tests_of_the_class) 3 5).
  - reflexivity.
  - apply Nat.ltb_lt. reflexivity.
  - apply Nat.ltb_lt. reflexivity.
Defined.

Lemma test_holds_the_parameters_of_its_bunch_witness :
  exists el m d test_stage,
    In el test_bunches
    /\ selected None el = true
    /\ In m (names_under (dict_lookup "model_name" el))
    /\ In d (names_under (dict_lookup "dataset_name" el))
    /\ In test_stage _TEST_STAGES
    /\ dict_lookup "test_stage"
         (nth 35 (snd (fst all_tests_of_the_class)) [])
       = Some (Single (VStr test_stage))
    /\ dict_lookup "model_name"
         (nth 35 (snd (fst all_tests_of_the_class)) [])
       = Some (Single m)
    /\ dict_lookup "dataset_name"
         (nth 35 (snd (fst all_tests_of_the_class)) [])
       = Some (Single d)
    /\ dict_lookup "num_training_iters"
         (nth 35 (snd (fst all_tests_of_the_class)) [])
       = (if default_is_required (dict_lookup "num_training_iters" el) then
            Some (Single DEFAULT_NUM_ITERS)
          else dict_lookup "num_training_iters" el)
    /\ dict_lookup "batch_size"
         (nth 35 (snd (fst all_tests_of_the_class)) [])
       = (if default_is_required (dict_lookup "batch_size" el) then
            Some (Single DEFAULT_BATCH_SIZE)
          else dict_lookup "batch_size" el)
    /\ (forall key,
          ~ In key ["test_stage"; "model_name"; "dataset_name";
                    "num_training_iters"; "batch_size"] ->
          dict_lookup key (nth 35 (snd (fst all_tests_of_the_class)) [])
          = dict_lookup key el)
    /\ default_is_required
         (dict_lookup "num_training_iters"
            (nth 35 (snd (fst all_tests_of_the_class)) []))
       = false
    /\ default_is_required
         (dict_lookup "batch_size"
            (nth 35 (snd (fst all_tests_of_the_class)) []))
       = false.
Proof.
  apply (test_holds_the_parameters_of_its_bunch test_bunches None
           (fst (fst all_tests_of_the_class))
           (snd (fst all_tests_of_the_class))
           (snd all_tests_of_the_class)).
  - reflexivity.
  - apply nth_In. apply Nat.ltb_lt. reflexivity.
Defined.

Lemma list_of_tests_needs_the_usecase_of_its_bunches_witness :
  exists result, get_list_of_tests test_bunches (Some "reallife") = Ret result.
Proof.
  apply (proj2 (proj2 (list_of_tests_needs_the_usecase_of_its_bunches
                         test_bunches (Some "reallife")))).
  discriminate.
Defined.
